(** * CDQ3D: the map evaluation and running score of benchbot_eval

    A shallow embedding of [src/benchbot_eval/cdq3d.py].

    Numbers.  Python floats are read as real numbers ([R]); rounding is not
    modelled.  The cost tables are float32 arrays, and a quality too small
    for float32 reads back from them as 0: what depends on the test of a
    quality against 0 (the counts, the sums over true positives, the cost of
    false positives) is stated on [_calc_qual_map_from] for every cost
    table, the rounded ones included.  Counts (TP, FP, FN, lengths, indices
    produced by the solver) are [nat]; class and state identifiers, which
    numpy accepts negative, are [Z] (their conversion to [np.int] is taken
    to succeed).

    Failures.  A Python exception is a value [Err e].  A computation that
    numpy would finish with a not-a-number is [Err NotANumber]: there is no
    such real, and the assignment solver rejects a table that holds one.

    Collaborators.  The IoU tool and scipy's [linear_sum_assignment] are not
    part of the module; they are the two fields of the class
    [Collaborators]. *)

From Stdlib Require Import String.
From Stdlib Require Import Reals Lra Lia ZArith Bool List Permutation.
Import ListNotations.
Open Scope R_scope.

(* ================================================================== *)
(** * Failures and sequencing *)

Inductive error : Type :=
| IndexError
| KeyError
| ValueError
| TypeError
| ZeroDivisionError
| NotANumber.

Inductive res (A : Type) : Type :=
| Ok (a : A)
| Err (e : error).

Arguments Ok {A} a.
Arguments Err {A} e.

Definition bind {A B : Type} (m : res A) (f : A -> res B) : res B :=
  match m with
  | Ok a => f a
  | Err e => Err e
  end.

Notation "x <- m ;; k" := (bind m (fun x => k))
  (at level 61, m at next level, right associativity).
Notation "' pat <- m ;; k" := (bind m (fun x => match x with pat => k end))
  (at level 61, pat pattern, m at next level, right associativity).

Fixpoint mapM {A B : Type} (f : A -> res B) (l : list A) : res (list B) :=
  match l with
  | [] => Ok []
  | a :: l' => b <- f a ;; bs <- mapM f l' ;; Ok (b :: bs)
  end.

Fixpoint foldM {A S : Type} (f : S -> A -> res S) (l : list A) (s : S) : res S :=
  match l with
  | [] => Ok s
  | a :: l' => s' <- f s a ;; foldM f l' s'
  end.

(* ================================================================== *)
(** * The Python and numpy operations the module uses *)

Definition matrix : Type := list (list R).

(** [l[i]] for an index that is known to be non-negative. *)
Definition get {A : Type} (l : list A) (i : nat) : res A :=
  match nth_error l i with
  | Some a => Ok a
  | None => Err IndexError
  end.

(** Index normalisation: [-len <= i < 0] counts from the end. *)
Definition py_index (len : nat) (i : Z) : res nat :=
  if (0 <=? i)%Z then
    if (i <? Z.of_nat len)%Z then Ok (Z.to_nat i) else Err IndexError
  else
    if (- Z.of_nat len <=? i)%Z then Ok (Z.to_nat (Z.of_nat len + i))
    else Err IndexError.

Definition py_get {A : Type} (l : list A) (i : Z) : res A :=
  k <- py_index (length l) i ;; get l k.

(** [M[r, c]]. *)
Definition mat_get (M : matrix) (r c : nat) : res R :=
  row <- get M r ;; get row c.

(** [M[rows, cols]]: one entry per position of the two index arrays. The
    solver returns two arrays of one length; arrays of different lengths are
    refused. *)
Definition fancy_get (M : matrix) (rows cols : list nat) : res (list R) :=
  if (length rows =? length cols)%nat
  then mapM (fun m : nat * nat => mat_get M (fst m) (snd m)) (combine rows cols)
  else Err IndexError.

(** [np.sum] of a list. *)
Definition np_sum (l : list R) : R := fold_right Rplus 0 l.

(** [np.max]: a [ValueError] on an empty sequence. *)
Definition np_max (l : list R) : res R :=
  match l with
  | [] => Err ValueError
  | x :: l' => Ok (fold_left Rmax l' x)
  end.

Definition np_max_int (l : list Z) : res Z :=
  match l with
  | [] => Err ValueError
  | x :: l' => Ok (fold_left Z.max l' x)
  end.

(** [l[:-1]]. *)
Definition all_but_last {A : Type} (l : list A) : list A := removelast l.

(** [np.ones((n, m))]. *)
Definition np_ones (n m : nat) : matrix := repeat (repeat 1 m) n.

(** [M * k]. *)
Definition mat_scale (M : matrix) (k : R) : matrix :=
  map (map (fun x => x * k)) M.

(** [1 - M]. *)
Definition one_minus (M : matrix) : matrix :=
  map (map (fun x => 1 - x)) M.

(** [np.stack(rows, axis=0)]: at least one row, all of one length. *)
Definition np_stack (rows : list (list R)) : res matrix :=
  match rows with
  | [] => Err ValueError
  | r :: rows' =>
      if forallb (fun r' => (length r' =? length r)%nat) rows'
      then Ok rows
      else Err ValueError
  end.

(** [t[:len(q)] -= q] on one row. *)
Fixpoint sub_prefix (t q : list R) : list R :=
  match t, q with
  | x :: t', y :: q' => (x - y) :: sub_prefix t' q'
  | _, _ => t
  end.

(** [T[:g, :d] -= Q] for a [g] x [d] matrix [Q] that fits in [T]. *)
Fixpoint sub_block (T Q : matrix) : matrix :=
  match T, Q with
  | t :: T', q :: Q' => sub_prefix t q :: sub_block T' Q'
  | _, _ => T
  end.

Definition map2 {A B C : Type} (f : A -> B -> C) (l1 : list A) (l2 : list B)
  : list C :=
  map (fun ab : A * B => f (fst ab) (snd ab)) (combine l1 l2).

(** [S[Q == 0] = 0.0] for two tables of one shape. *)
Definition mask_zero (Q S : matrix) : matrix :=
  map2 (map2 (fun q s => if Req_dec_T q 0 then 0 else s)) Q S.

(** [np.dstack]: the entries of same-shaped matrices gathered cell by cell
    (matrices of different shapes, which [np.dstack] refuses, are never
    passed). *)
Definition dstack2 (A B : matrix) : list (list (list R)) :=
  map2 (map2 (fun a b => [a; b])) A B.

Definition dstack3 (A B C : matrix) : list (list (list R)) :=
  map2 (map2 (fun ab c => ab ++ [c])) (dstack2 A B) C.

(** ** [scipy.stats.gmean]: [exp(mean(log(a)))]

    [np.log] sends 0 to minus infinity and a negative number to nan; minus
    infinity absorbs finite terms in the mean, nan absorbs everything, and
    [np.exp] sends minus infinity to 0.  A nan is no exception in Python:
    the evaluation stops here at the first nan with [NotANumber], so that
    what is stated of returned results covers the evaluations free of nan,
    those of probabilities that are not negative. *)

Inductive logval : Type :=
| NegInf
| Fin (x : R)
| LogNaN.

Definition np_log (x : R) : logval :=
  if Rlt_dec x 0 then LogNaN
  else if Req_dec_T x 0 then NegInf
  else Fin (ln x).

Definition log_add (a b : logval) : logval :=
  match a, b with
  | LogNaN, _ | _, LogNaN => LogNaN
  | NegInf, _ | _, NegInf => NegInf
  | Fin x, Fin y => Fin (x + y)
  end.

Definition log_mean (l : list logval) : logval :=
  match l with
  | [] => LogNaN
  | _ =>
      match fold_right log_add (Fin 0) l with
      | Fin s => Fin (s / INR (length l))
      | v => v
      end
  end.

Definition np_exp (v : logval) : res R :=
  match v with
  | LogNaN => Err NotANumber
  | NegInf => Ok 0
  | Fin x => Ok (exp x)
  end.

Definition gmean (l : list R) : res R := np_exp (log_mean (map np_log l)).

(** Python's [/]. *)
Definition py_div (x y : R) : res R :=
  if Req_dec_T y 0 then Err ZeroDivisionError else Ok (x / y).

(** A dictionary with string keys, as an association list. *)
Definition dict_get {V : Type} (d : list (string * V)) (k : string) : res V :=
  match find (fun kv => String.eqb (fst kv) k) d with
  | Some kv => Ok (snd kv)
  | None => Err KeyError
  end.

(* ================================================================== *)
(** * Records and collaborators *)

(** [{"centroid": ..., "extent": ...}]. *)
Record Box : Type := {
  centroid : list R;
  extent : list R
}.

(** A ground-truth dictionary: ['class_id'], ['centroid'], ['extent'] and,
    read only in scene-change mode, ['state']. *)
Record GtInstance : Type := {
  gt_class_id : Z;
  gt_centroid : list R;
  gt_extent : list R;
  gt_state : string
}.

(** A detection dictionary: ['prob_dist'], ['centroid'], ['extent'] and, read
    only in scene-change mode, ['state_probs']. *)
Record DetInstance : Type := {
  det_prob_dist : list R;
  det_centroid : list R;
  det_extent : list R;
  det_state_probs : list R
}.

(** What the module imports and does not define: [dict_iou a b] stands for
    [_IOU_TOOL.dict_iou(a, b)[1]]; [linear_sum_assignment] returns the arrays
    [(row_ind, col_ind)]. *)
Class Collaborators : Type := {
  dict_iou : Box -> Box -> R;
  linear_sum_assignment : matrix -> list nat * list nat
}.

Definition _STATE_IDS : list (string * Z) :=
  [("added"%string, 0%Z); ("removed"%string, 1%Z); ("constant"%string, 2%Z)].

(** The dictionary of cost tables returned by [_gen_cost_tables]. *)
Record CostTables : Type := {
  ct_overall : matrix;
  ct_spatial : matrix;
  ct_label : matrix;
  ct_state : matrix
}.

(** The results dictionary returned by [_calc_qual_map]. *)
Record MapResults : Type := {
  overall : R;
  spatial : R;
  label : R;
  fp_cost : R;
  TP : nat;
  FP : nat;
  FN : nat;
  state_change : R
}.

(** The attributes of a [CDQ3D] object. *)
Record CDQ3D : Type := {
  _tot_overall_quality : R;
  _tot_spatial_quality : R;
  _tot_label_quality : R;
  _tot_fp_cost : R;
  _tot_TP : nat;
  _tot_FP : nat;
  _tot_FN : nat;
  _tot_state_quality : R;
  scd_mode : bool
}.

(* ================================================================== *)
(** * Methods: results together with the object left behind

    A method maps the object to a result and the object it leaves behind; an
    exception leaves the object as it was when it was raised. *)

Definition method (A : Type) : Type := CDQ3D -> res A * CDQ3D.

Definition mbind {A B : Type} (m : method A) (f : A -> method B) : method B :=
  fun self =>
    match m self with
    | (Ok a, self') => f a self'
    | (Err e, self') => (Err e, self')
    end.

Notation "x <~ m ;;; k" := (mbind m (fun x => k))
  (at level 61, m at next level, right associativity).
Notation "m ;;; k" := (mbind m (fun _ => k))
  (at level 61, right associativity).

(** Reading the object, possibly raising. *)
Definition reading {A : Type} (f : CDQ3D -> res A) : method A :=
  fun self => (f self, self).

(** Assigning to attributes. *)
Definition assign (f : CDQ3D -> CDQ3D) : method unit :=
  fun self => (Ok tt, f self).

(** [for x in l: body(x)]. *)
Fixpoint for_each {A : Type} (l : list A) (body : A -> method unit)
  : method unit :=
  match l with
  | [] => fun self => (Ok tt, self)
  | a :: l' => body a ;;; for_each l' body
  end.

(* ================================================================== *)
(** * Quality matrices and cost tables *)

Section Model.

Context {collab : Collaborators}.

(** The class identifiers are integers of any size here: the conversion to
    [np.int] is taken to succeed (see [class_ids_fit]). *)
Definition _vectorize_map_gts (gt_instances : list GtInstance) (scd : bool)
  : res (list Box * list Z * list Z) :=
  let gt_labels := map gt_class_id gt_instances in
  let gt_boxes :=
    map (fun g => {| centroid := gt_centroid g; extent := gt_extent g |})
        gt_instances in
  gt_state_ids <-
    (if scd
     then mapM (fun g => dict_get _STATE_IDS (gt_state g)) gt_instances
     else Ok (map (fun _ => (-1)%Z) gt_instances)) ;;
  Ok (gt_boxes, gt_labels, gt_state_ids).

Definition _vectorize_map_dets (det_instances : list DetInstance) (scd : bool)
  : res (list Box * matrix * matrix) :=
  det_label_prob_mat <- np_stack (map det_prob_dist det_instances) ;;
  let det_boxes :=
    map (fun d => {| centroid := det_centroid d; extent := det_extent d |})
        det_instances in
  det_state_prob_mat <-
    (if scd
     then np_stack (map det_state_probs det_instances)
     else Ok (mat_scale (np_ones (length det_instances) 3) (-1))) ;;
  Ok (det_boxes, det_label_prob_mat, det_state_prob_mat).

Definition _calc_spatial_qual (gt_boxes det_boxes : list Box) : matrix :=
  map (fun gt_box_dict =>
         map (fun det_box_dict => dict_iou gt_box_dict det_box_dict) det_boxes)
      gt_boxes.

(** [mat[:, vec].T]: row [i], column [j] holds [mat[j][vec[i]]]. *)
Definition select_columns_T (mat : matrix) (vec : list Z) : res matrix :=
  mapM (fun k => mapM (fun row => py_get row k) mat) vec.

Definition _calc_label_qual (gt_label_vec : list Z) (det_prob_mat : matrix)
  : res matrix :=
  select_columns_T det_prob_mat gt_label_vec.

Definition _calc_state_change_qual (gt_state_vec : list Z)
  (det_state_prob_mat : matrix) : res (option matrix) :=
  top <- np_max_int gt_state_vec ;;
  if (top =? -1)%Z then Ok None
  else
    state_qual_mat <- select_columns_T det_state_prob_mat gt_state_vec ;;
    Ok (Some state_qual_mat).

Definition _calc_overall_qual (label_qual spatial_qual : matrix)
  (state_qual_mat : option matrix) : res matrix :=
  let combined_mat :=
    match state_qual_mat with
    | None => dstack2 label_qual spatial_qual
    | Some state_qual => dstack3 label_qual spatial_qual state_qual
    end in
  mapM (mapM gmean) combined_mat.

(** The entries of the tables are the exact differences [1 - quality]; the
    code stores each of them rounded to float32. *)
Definition _gen_cost_tables (gt_instances : list GtInstance)
  (det_instances : list DetInstance) (scd : bool) : res CostTables :=
  let n_pairs := Nat.max (length gt_instances) (length det_instances) in
  let overall_cost_table := np_ones n_pairs n_pairs in
  let spatial_cost_table := np_ones n_pairs n_pairs in
  let label_cost_table := np_ones n_pairs n_pairs in
  let state_cost_table := np_ones n_pairs n_pairs in
  '(gt_boxes, gt_labels, gt_state_ids) <-
    _vectorize_map_gts gt_instances scd ;;
  '(det_boxes, det_label_prob_mat, det_state_prob_mat) <-
    _vectorize_map_dets det_instances scd ;;
  label_qual_mat <- _calc_label_qual gt_labels det_label_prob_mat ;;
  let spatial_qual := _calc_spatial_qual gt_boxes det_boxes in
  state_change_qual <-
    _calc_state_change_qual gt_state_ids det_state_prob_mat ;;
  overall_qual <-
    _calc_overall_qual label_qual_mat spatial_qual state_change_qual ;;
  let overall_cost_table := sub_block overall_cost_table overall_qual in
  let spatial_cost_table := sub_block spatial_cost_table spatial_qual in
  let label_cost_table := sub_block label_cost_table label_qual_mat in
  state_cost_table <-
    (if scd
     then match state_change_qual with
          | Some state_qual => Ok (sub_block state_cost_table state_qual)
          | None => Err TypeError
          end
     else Ok state_cost_table) ;;
  Ok {| ct_overall := overall_cost_table;
        ct_spatial := spatial_cost_table;
        ct_label := label_cost_table;
        ct_state := state_cost_table |}.

(* ================================================================== *)
(** * The evaluation of one map *)

(** The counters of the matching loop:
    [(true_positives, false_positives, false_negatives, false_positive_idxs)]. *)
Definition counters : Type := (nat * nat * nat * list nat)%type.

(** The body of [for match_idx, match in enumerate(zip(row_idxs, col_idxs))]. *)
Definition match_step (g d : nat) (overall_quality_table : matrix)
  (acc : counters) (m : nat * nat) : res counters :=
  let '(true_positives, false_positives, false_negatives, false_positive_idxs) := acc in
  let '(row_id, col_id) := m in
  q <- mat_get overall_quality_table row_id col_id ;;
  if Rlt_dec 0 q then
    Ok (S true_positives, false_positives, false_negatives, false_positive_idxs)
  else
    let false_negatives :=
      if (row_id <? g)%nat then S false_negatives else false_negatives in
    if (col_id <? d)%nat then
      Ok (true_positives, S false_positives, false_negatives,
          false_positive_idxs ++ [col_id])
    else
      Ok (true_positives, false_positives, false_negatives, false_positive_idxs).

(** [np.max(det['prob_dist'][:-1])]. *)
Definition max_label_prob (det : DetInstance) : res R :=
  np_max (all_but_last (det_prob_dist det)).

(** [gmean([np.max(det['prob_dist'][:-1]), np.max(det['state_probs'][:-1])])]. *)
Definition scd_fp_cost (det : DetInstance) : res R :=
  a <- np_max (all_but_last (det_prob_dist det)) ;;
  b <- np_max (all_but_last (det_state_probs det)) ;;
  gmean [a; b].

(** [_calc_qual_map] from the line after
    [cost_tables = _gen_cost_tables(...)] to its end, as a function of the
    cost tables.  The tables it is run on hold float32 numbers, each the
    rounding of an entry computed by [_gen_cost_tables]; what this part does
    is stated below for every table.  The tests [> 0] and [== 0] on
    [1 - cost] give the same answer in floating point and over the reals
    (a difference of two floats is 0 only when they are equal). *)
Definition _calc_qual_map_from (cost_tables : CostTables)
  (gt_instances : list GtInstance) (det_instances : list DetInstance)
  (scd : bool) : res MapResults :=
  let '(row_idxs, col_idxs) := linear_sum_assignment (ct_overall cost_tables) in
  let overall_quality_table := one_minus (ct_overall cost_tables) in
  let spatial_quality_table := one_minus (ct_spatial cost_tables) in
  let label_quality_table := one_minus (ct_label cost_tables) in
  let state_change_quality_table := one_minus (ct_state cost_tables) in
  '(true_positives, false_positives, false_negatives, false_positive_idxs) <-
    foldM (match_step (length gt_instances) (length det_instances)
                      overall_quality_table)
          (combine row_idxs col_idxs) (0%nat, 0%nat, 0%nat, []) ;;
  picked <- fancy_get overall_quality_table row_idxs col_idxs ;;
  let tot_overall_img_quality := np_sum picked in
  let spatial_quality_table := mask_zero overall_quality_table spatial_quality_table in
  let label_quality_table := mask_zero overall_quality_table label_quality_table in
  let state_change_quality_table :=
    mask_zero overall_quality_table state_change_quality_table in
  picked_spatial <- fancy_get spatial_quality_table row_idxs col_idxs ;;
  picked_label <- fancy_get label_quality_table row_idxs col_idxs ;;
  picked_state <- fancy_get state_change_quality_table row_idxs col_idxs ;;
  costs <-
    (if scd
     then mapM (fun i => det <- get det_instances i ;; scd_fp_cost det)
               false_positive_idxs
     else mapM (fun i => det <- get det_instances i ;; max_label_prob det)
               false_positive_idxs) ;;
  Ok {| overall := tot_overall_img_quality;
        spatial := np_sum picked_spatial;
        label := np_sum picked_label;
        fp_cost := np_sum costs;
        TP := true_positives; FP := false_positives; FN := false_negatives;
        state_change := np_sum picked_state |}.

Definition _calc_qual_map (gt_instances : list GtInstance)
  (det_instances : list DetInstance) (scd : bool) : res MapResults :=
  if (length gt_instances =? 0)%nat || (length det_instances =? 0)%nat then
    tot_fp_cost <-
      (if (0 <? length det_instances)%nat
       then costs <- mapM max_label_prob det_instances ;; Ok (np_sum costs)
       else Ok 0) ;;
    Ok {| overall := 0; spatial := 0; label := 0; fp_cost := tot_fp_cost;
          TP := 0; FP := length det_instances; FN := length gt_instances;
          state_change := 0 |}
  else
    cost_tables <- _gen_cost_tables gt_instances det_instances scd ;;
    _calc_qual_map_from cost_tables gt_instances det_instances scd.

(* ================================================================== *)
(** * The methods of [CDQ3D] *)

Definition __init__ (scd : bool) : CDQ3D :=
  {| _tot_overall_quality := 0;
     _tot_spatial_quality := 0;
     _tot_label_quality := 0;
     _tot_fp_cost := 0;
     _tot_TP := 0;
     _tot_FP := 0;
     _tot_FN := 0;
     _tot_state_quality := 0;
     scd_mode := scd |}.

Definition reset : method unit :=
  assign (fun self =>
    {| _tot_overall_quality := 0;
       _tot_spatial_quality := 0;
       _tot_label_quality := 0;
       _tot_fp_cost := 0;
       _tot_TP := 0;
       _tot_FP := 0;
       _tot_FN := 0;
       _tot_state_quality := 0;
       scd_mode := scd_mode self |}).

Definition add_map_eval (gt_instances : list GtInstance)
  (det_instances : list DetInstance) : method unit :=
  results <~ reading (fun self =>
               _calc_qual_map gt_instances det_instances (scd_mode self)) ;;;
  assign (fun self =>
    {| _tot_overall_quality := _tot_overall_quality self + overall results;
       _tot_spatial_quality := _tot_spatial_quality self + spatial results;
       _tot_label_quality := _tot_label_quality self + label results;
       _tot_fp_cost := _tot_fp_cost self + fp_cost results;
       _tot_TP := _tot_TP self + TP results;
       _tot_FP := _tot_FP self + FP results;
       _tot_FN := _tot_FN self + FN results;
       _tot_state_quality := _tot_state_quality self + state_change results;
       scd_mode := scd_mode self |}).

Definition get_current_score (self : CDQ3D) : res R :=
  let denominator := INR (_tot_TP self) + _tot_fp_cost self + INR (_tot_FN self) in
  if Req_dec_T denominator 0 then Ok 0
  else py_div (_tot_overall_quality self) denominator.

Definition _get_map_evals (parameters : list GtInstance * list DetInstance)
  (self : CDQ3D) : res MapResults :=
  let '(gt_instances, det_instances) := parameters in
  _calc_qual_map gt_instances det_instances (scd_mode self).

Definition score (param_lists : list (list GtInstance * list DetInstance))
  : method R :=
  reset ;;;
  for_each param_lists (fun map_params =>
    map_results <~ reading (_get_map_evals map_params) ;;;
    assign (fun self =>
      {| _tot_overall_quality := _tot_overall_quality self + overall map_results;
         _tot_spatial_quality := _tot_spatial_quality self + spatial map_results;
         _tot_label_quality := _tot_label_quality self + label map_results;
         _tot_fp_cost := _tot_fp_cost self + fp_cost map_results;
         _tot_TP := _tot_TP self + TP map_results;
         _tot_FP := _tot_FP self + FP map_results;
         _tot_FN := _tot_FN self + FN map_results;
         _tot_state_quality := _tot_state_quality self + state_change map_results;
         scd_mode := scd_mode self |})) ;;;
  reading get_current_score.

Definition get_avg_spatial_score (self : CDQ3D) : res R :=
  if (0 <? _tot_TP self)%nat
  then py_div (_tot_spatial_quality self) (INR (_tot_TP self))
  else Ok 0.

Definition get_avg_label_score (self : CDQ3D) : res R :=
  if (0 <? _tot_TP self)%nat
  then py_div (_tot_label_quality self) (INR (_tot_TP self))
  else Ok 0.

Definition get_avg_state_score (self : CDQ3D) : res R :=
  if (0 <? _tot_TP self)%nat
  then py_div (_tot_state_quality self) (INR (_tot_TP self))
  else Ok 0.

Definition get_avg_overall_quality_score (self : CDQ3D) : res R :=
  if (0 <? _tot_TP self)%nat
  then py_div (_tot_overall_quality self) (INR (_tot_TP self))
  else Ok 0.

Definition get_avg_fp_score (self : CDQ3D) : res R :=
  if (0 <? _tot_FP self)%nat
  then py_div (INR (_tot_FP self) - _tot_fp_cost self) (INR (_tot_FP self))
  else Ok 1.

Definition get_assignment_counts (self : CDQ3D) : nat * nat * nat :=
  (_tot_TP self, _tot_FP self, _tot_FN self).

(** A call on the object, and a sequence of calls made one after the other
    (a call that raises is caught by the caller, who goes on). *)
Inductive call : Type :=
| CallReset
| CallAddMapEval (gt_instances : list GtInstance) (det_instances : list DetInstance)
| CallScore (param_lists : list (list GtInstance * list DetInstance)).

Definition run_call (c : call) (self : CDQ3D) : CDQ3D :=
  match c with
  | CallReset => snd (reset self)
  | CallAddMapEval g d => snd (add_map_eval g d self)
  | CallScore l => snd (score l self)
  end.

Definition run_calls (cs : list call) (self : CDQ3D) : CDQ3D :=
  fold_left (fun s c => run_call c s) cs self.

End Model.

(* ================================================================== *)
(** * The contract of the assignment solver *)

(** The entry of a table at a position inside it. *)
Definition cell (M : matrix) (r c : nat) : R := nth c (nth r M []) 0.

Definition square (n : nat) (M : matrix) : Prop :=
  length M = n /\ Forall (fun row => length row = n) M.

(** [M[rows, cols].sum()]. *)
Definition assignment_total (M : matrix) (rows cols : list nat) : R :=
  np_sum (map (fun m : nat * nat => cell M (fst m) (snd m)) (combine rows cols)).

(** On a square table the solver returns the rows in order and a permutation
    of the columns whose total cost no other permutation undercuts. *)
Definition optimal_assignment (n : nat) (M : matrix) (out : list nat * list nat)
  : Prop :=
  fst out = seq 0 n /\
  Permutation (snd out) (seq 0 n) /\
  forall p, Permutation p (seq 0 n) ->
            assignment_total M (seq 0 n) (snd out) <= assignment_total M (seq 0 n) p.

Definition solver_contract (collab : Collaborators) : Prop :=
  forall n M, square n M -> optimal_assignment n M (linear_sum_assignment M).

(** ** A solver that meets the contract: exhaustive search *)

Fixpoint insert_everywhere (a : nat) (l : list nat) : list (list nat) :=
  match l with
  | [] => [[a]]
  | x :: l' => (a :: l) :: map (cons x) (insert_everywhere a l')
  end.

Fixpoint permutations (l : list nat) : list (list nat) :=
  match l with
  | [] => [[]]
  | a :: l' => flat_map (insert_everywhere a) (permutations l')
  end.

Definition cheaper (cost : list nat -> R) (best p : list nat) : list nat :=
  if Rlt_dec (cost p) (cost best) then p else best.

Definition exhaustive_assignment (M : matrix) : list nat * list nat :=
  let rows := seq 0 (length M) in
  (rows, fold_left (cheaper (assignment_total M rows)) (permutations rows) rows).

(** The collaborators used in examples: every pair of boxes overlaps fully,
    and assignments are found by exhaustive search. *)
Definition example_collaborators : Collaborators :=
  {| dict_iou := fun _ _ => 1;
     linear_sum_assignment := exhaustive_assignment |}.

(* ================================================================== *)
(** * Pairwise quality, entry by entry *)

Section PairQuality.

Context {collab : Collaborators}.

Definition gt_box (g : GtInstance) : Box :=
  {| centroid := gt_centroid g; extent := gt_extent g |}.

Definition det_box (d : DetInstance) : Box :=
  {| centroid := det_centroid d; extent := det_extent d |}.

(** The label, spatial and state quality of one pair, as the matrices of
    [_gen_cost_tables] hold them at the pair's position. *)
Definition pair_label_quality (g : GtInstance) (d : DetInstance) : res R :=
  py_get (det_prob_dist d) (gt_class_id g).

Definition pair_spatial_quality (g : GtInstance) (d : DetInstance) : R :=
  dict_iou (gt_box g) (det_box d).

Definition pair_state_quality (g : GtInstance) (d : DetInstance) : res R :=
  sid <- dict_get _STATE_IDS (gt_state g) ;;
  py_get (det_state_probs d) sid.

Definition pair_overall_quality (scd : bool) (g : GtInstance) (d : DetInstance)
  : res R :=
  l <- pair_label_quality g d ;;
  let s := pair_spatial_quality g d in
  if scd then st <- pair_state_quality g d ;; gmean [l; s; st]
  else gmean [l; s].

(** The quality of position [(i, j)] of the padded table: the pair's overall
    quality when both are real, 0 when either is a phantom. *)
Definition padded_quality (scd : bool) (gts : list GtInstance)
  (dets : list DetInstance) (i j : nat) : R :=
  match nth_error gts i, nth_error dets j with
  | Some g, Some d =>
      match pair_overall_quality scd g d with
      | Ok q => q
      | Err _ => 0
      end
  | _, _ => 0
  end.

(** The total quality of the matching that pairs row [i] with column [p_i]. *)
Definition matching_quality (q : nat -> nat -> R) (n : nat) (p : list nat) : R :=
  np_sum (map (fun m : nat * nat => q (fst m) (snd m)) (combine (seq 0 n) p)).

End PairQuality.

(* ================================================================== *)
(** * Auxiliary definitions used in statements *)

(** The value of a computation that succeeded. *)
Definition val {A : Type} (default : A) (r : res A) : A :=
  match r with
  | Ok a => a
  | Err _ => default
  end.

(** The [|la| x |lb|] matrix with [f a b] at the position of [a] and [b]. *)
Definition outer {A B : Type} (f : A -> B -> R) (la : list A) (lb : list B)
  : matrix :=
  map (fun a => map (f a) lb) la.

Definition in_unit (x : R) : Prop := 0 <= x <= 1.

Definition entries_in_unit (M : matrix) : Prop := Forall (Forall in_unit) M.

(** [a] is the greatest element of [l]. *)
Definition greatest (a : R) (l : list R) : Prop :=
  In a l /\ forall x, In x l -> x <= a.

Definition is_pos (x : R) : bool := if Rlt_dec 0 x then true else false.

Definition is_zero (x : R) : bool := if Req_dec_T x 0 then true else false.

Definition count {A : Type} (p : A -> bool) (l : list A) : nat :=
  length (filter p l).

Definition product (l : list R) : R := fold_right Rmult 1 l.

Definition all_zero (M : matrix) : Prop := Forall (Forall (fun x => x = 0)) M.

Definition nonneg_entries (M : matrix) : Prop :=
  Forall (Forall (fun x => 0 <= x)) M.

(** The three tests of the loop body on one assigned pair. *)
Definition tp_match (Qt : matrix) (m : nat * nat) : bool :=
  is_pos (cell Qt (fst m) (snd m)).

Definition fn_match (g : nat) (Qt : matrix) (m : nat * nat) : bool :=
  negb (is_pos (cell Qt (fst m) (snd m))) && (fst m <? g)%nat.

Definition fp_match (d : nat) (Qt : matrix) (m : nat * nat) : bool :=
  negb (is_pos (cell Qt (fst m) (snd m))) && (snd m <? d)%nat.

(** The records of section 3 of the data model: [classes] class probabilities
    per detection, the background last and at least one class before it; a
    class identifier inside the vocabulary; in scene-change mode a known
    state and three state probabilities. *)
Definition wf_gt (classes : nat) (scd : bool) (g : GtInstance) : Prop :=
  (0 <= gt_class_id g < Z.of_nat classes)%Z /\
  (scd = true -> exists sid, dict_get _STATE_IDS (gt_state g) = Ok sid).

Definition wf_det (classes : nat) (scd : bool) (d : DetInstance) : Prop :=
  length (det_prob_dist d) = classes /\
  Forall in_unit (det_prob_dist d) /\
  (scd = true ->
   length (det_state_probs d) = 3%nat /\ Forall in_unit (det_state_probs d)).

Definition wf_map (classes : nat) (scd : bool) (gts : list GtInstance)
  (dets : list DetInstance) : Prop :=
  (2 <= classes)%nat /\
  Forall (wf_gt classes scd) gts /\ Forall (wf_det classes scd) dets.

Section Statements.

Context {collab : Collaborators}.

Definition label_quality (g : GtInstance) (d : DetInstance) : R :=
  val 0 (pair_label_quality g d).

Definition state_quality (g : GtInstance) (d : DetInstance) : R :=
  val 0 (pair_state_quality g d).

Definition overall_quality (scd : bool) (g : GtInstance) (d : DetInstance) : R :=
  val 0 (pair_overall_quality scd g d).

(** The pairs [zip(row_idxs, col_idxs)] the solver assigns on the overall
    cost table of a map. *)
Definition assigned_pairs (gts : list GtInstance) (dets : list DetInstance)
  (scd : bool) : list (nat * nat) :=
  match _gen_cost_tables gts dets scd with
  | Ok ct =>
      combine (fst (linear_sum_assignment (ct_overall ct)))
              (snd (linear_sum_assignment (ct_overall ct)))
  | Err _ => []
  end.

(** The cost of one false positive detection. *)
Definition fp_cost_of (scd : bool) (det : DetInstance) : res R :=
  if scd then scd_fp_cost det else max_label_prob det.


Definition state_total_zero (self : CDQ3D) : Prop :=
  scd_mode self = false /\ _tot_state_quality self = 0.

Definition iou_in_unit : Prop := forall a b, in_unit (dict_iou a b).

Definition probabilities_in_unit (dets : list DetInstance) : Prop :=
  Forall (fun det => Forall in_unit (det_prob_dist det) /\
                     Forall in_unit (det_state_probs det)) dets.

End Statements.

(** ** A worked map: two objects detected in the opposite order *)

Definition ex_gt0 : GtInstance :=
  {| gt_class_id := 0; gt_centroid := [0; 0; 0]; gt_extent := [1; 1; 1];
     gt_state := "added" |}.

Definition ex_gt1 : GtInstance :=
  {| gt_class_id := 1; gt_centroid := [2; 0; 0]; gt_extent := [1; 1; 1];
     gt_state := "removed" |}.

(** Three classes, the last one the background. *)
Definition ex_det0 : DetInstance :=
  {| det_prob_dist := [0; 1; 0]; det_centroid := [2; 0; 0];
     det_extent := [1; 1; 1]; det_state_probs := [0; 1; 0] |}.

Definition ex_det1 : DetInstance :=
  {| det_prob_dist := [1; 0; 0]; det_centroid := [0; 0; 0];
     det_extent := [1; 1; 1]; det_state_probs := [1; 0; 0] |}.

Definition ex_gts : list GtInstance := [ex_gt0; ex_gt1].

Definition ex_dets : list DetInstance := [ex_det0; ex_det1].

(** ** Further notions used in statements *)

Section MoreStatements.

Context {collab : Collaborators}.

(** The assigned pairs that the matching loop counts as true positives. *)
Definition tp_pairs (gts : list GtInstance) (dets : list DetInstance)
  (scd : bool) : list (nat * nat) :=
  filter (fun m => is_pos (padded_quality scd gts dets (fst m) (snd m)))
         (assigned_pairs gts dets scd).

(** The spatial, label and state quality at a position of the padded
    tables: the pair's quality on the real block, 0 elsewhere. *)
Definition spatial_at (gts : list GtInstance) (dets : list DetInstance)
  (m : nat * nat) : R :=
  cell (outer pair_spatial_quality gts dets) (fst m) (snd m).

Definition label_at (gts : list GtInstance) (dets : list DetInstance)
  (m : nat * nat) : R :=
  cell (outer label_quality gts dets) (fst m) (snd m).

Definition state_at (gts : list GtInstance) (dets : list DetInstance)
  (m : nat * nat) : R :=
  cell (outer state_quality gts dets) (fst m) (snd m).

(** The running totals of an object are within the counts they are
    averaged over. *)
Definition totals_within_counts (self : CDQ3D) : Prop :=
  0 <= _tot_overall_quality self <= INR (_tot_TP self) /\
  0 <= _tot_spatial_quality self <= INR (_tot_TP self) /\
  0 <= _tot_label_quality self <= INR (_tot_TP self) /\
  0 <= _tot_state_quality self <= INR (_tot_TP self) /\
  0 <= _tot_fp_cost self <= INR (_tot_FP self).

(** Every detection passed by a call has its probabilities in [[0,1]]. *)
Definition call_in_unit (c : call) : Prop :=
  match c with
  | CallReset => True
  | CallAddMapEval _ dets => probabilities_in_unit dets
  | CallScore param_lists =>
      Forall (fun mp : list GtInstance * list DetInstance =>
                probabilities_in_unit (snd mp)) param_lists
  end.

(** The object after the eight [+=] of [add_map_eval] and of the loop of
    [score]. *)
Definition add_results (self : CDQ3D) (results : MapResults) : CDQ3D :=
  {| _tot_overall_quality := _tot_overall_quality self + overall results;
     _tot_spatial_quality := _tot_spatial_quality self + spatial results;
     _tot_label_quality := _tot_label_quality self + label results;
     _tot_fp_cost := _tot_fp_cost self + fp_cost results;
     _tot_TP := _tot_TP self + TP results;
     _tot_FP := _tot_FP self + FP results;
     _tot_FN := _tot_FN self + FN results;
     _tot_state_quality := _tot_state_quality self + state_change results;
     scd_mode := scd_mode self |}.

(** The results of the maps of a list, in the mode of an object; the first
    failure if one fails. *)
Definition map_results_of (self : CDQ3D)
  (param_lists : list (list GtInstance * list DetInstance))
  : res (list MapResults) :=
  mapM (fun mp => _calc_qual_map (fst mp) (snd mp) (scd_mode self)) param_lists.

(** A ground truth with another ['state'], a detection with other
    ['state_probs']. *)
Definition with_state (state : string) (g : GtInstance) : GtInstance :=
  {| gt_class_id := gt_class_id g; gt_centroid := gt_centroid g;
     gt_extent := gt_extent g; gt_state := state |}.

Definition with_state_probs (state_probs : list R) (d : DetInstance)
  : DetInstance :=
  {| det_prob_dist := det_prob_dist d; det_centroid := det_centroid d;
     det_extent := det_extent d; det_state_probs := state_probs |}.

(** The ground truths' states are all keys of [_STATE_IDS]. *)
Definition states_known (gts : list GtInstance) : Prop :=
  Forall (fun g => exists sid, dict_get _STATE_IDS (gt_state g) = Ok sid) gts.

(** The class identifiers fit [np.int], a C long of 32 bits or more, so that
    [np.array(..., dtype=np.int)] converts them; the [OverflowError] of a
    greater one is not modelled. *)
Definition class_ids_fit (gts : list GtInstance) : Prop :=
  Forall (fun g => (- 2 ^ 31 <= gt_class_id g < 2 ^ 31)%Z) gts.

(** ** Notions on cost tables *)

(** The pairs [zip(row_idxs, col_idxs)] the solver assigns on the overall
    table of [cost_tables]. *)
Definition pairs_on (cost_tables : CostTables) : list (nat * nat) :=
  combine (fst (linear_sum_assignment (ct_overall cost_tables)))
          (snd (linear_sum_assignment (ct_overall cost_tables))).

(** The quality the code reads back from a cost table at a position:
    [1 - cost]. *)
Definition read_back (T : matrix) (m : nat * nat) : R :=
  1 - cell T (fst m) (snd m).

(** The assigned pairs whose overall quality reads back above 0. *)
Definition tp_pairs_on (cost_tables : CostTables) : list (nat * nat) :=
  filter (fun m => is_pos (read_back (ct_overall cost_tables) m))
         (pairs_on cost_tables).

(** The four tables of a map of [g] ground truths and [d] detections are
    [n] x [n] for [n = max(g, d)]. *)
Definition table_shapes (g d : nat) (cost_tables : CostTables) : Prop :=
  square (Nat.max g d) (ct_overall cost_tables) /\
  square (Nat.max g d) (ct_spatial cost_tables) /\
  square (Nat.max g d) (ct_label cost_tables) /\
  square (Nat.max g d) (ct_state cost_tables).

(** No cost is above 1: no quality reads back negative. *)
Definition costs_at_most_one (T : matrix) : Prop :=
  Forall (Forall (fun c => c <= 1)) T.

(** Outside the [g] x [d] block of the real pairs the table still holds the
    cost 1 it was filled with. *)
Definition padding_is_one (g d : nat) (T : matrix) : Prop :=
  forall i j, (i < Nat.max g d)%nat -> (j < Nat.max g d)%nat ->
              (g <= i \/ d <= j)%nat -> cell T i j = 1.

End MoreStatements.

(** ** Worked cost tables *)

(** A detection with all its probability on the background. *)
Definition ex_background_det : DetInstance :=
  {| det_prob_dist := [0; 0; 1]; det_centroid := [2; 0; 0];
     det_extent := [1; 1; 1]; det_state_probs := [0; 0; 1] |}.

(** The tables of the ground truths [ex_gts] and the detections [ex_det1]
    and [ex_background_det], with every IoU 1 ([ex_tables_of_map]): the
    first ground truth and the first detection have quality 1, every other
    pair quality 0. *)
Definition ex_tables : CostTables :=
  {| ct_overall := [[0; 1]; [1; 1]];
     ct_spatial := [[0; 0]; [0; 0]];
     ct_label := [[0; 1]; [1; 1]];
     ct_state := [[1; 1]; [1; 1]] |}.



(* ================================================================== *)
(** * The submission formatting of [src/benchbot_eval/evaluator.py]

    The module [class_list] is imported and not defined there: its
    [CLASS_LIST] and [get_class_id] (a class identifier, or [None]) are
    parameters. *)

(** [a[k] = v] for an index inside [a]. *)
Fixpoint list_set (k : nat) (v : R) (a : list R) : list R :=
  match a, k with
  | [], _ => []
  | _ :: a', O => v :: a'
  | x :: a', S k' => x :: list_set k' v a'
  end.

(** [a[idxs] = vals] for index and value arrays of one length: the
    assignments are made in order (numpy promises no order for an index that
    is repeated; here it keeps the last value); an index outside [a]
    raises. *)
Fixpoint np_put (a : list R) (idxs : list Z) (vals : list R) : res (list R) :=
  match idxs, vals with
  | i :: idxs', v :: vals' =>
      k <- py_index (length a) i ;; np_put (list_set k v a) idxs' vals'
  | _, _ => Ok a
  end.

(** [np.zeros(n)]. *)
Definition np_zeros (n : nat) : list R := repeat 0 n.

(** A proposal of a submission: its ['label_probs'], when the key is there,
    and its other keys. *)
Record Proposal (Other : Type) : Type := {
  label_probs : option (list R);
  other_keys : Other
}.

Arguments label_probs {Other} p.
Arguments other_keys {Other} p.

(** The keys of [result_data] that [_format_results_data] reads. *)
Record ResultData (Other : Type) : Type := {
  rd_objects : option (list (Proposal Other));
  rd_class_list : option (list string)
}.

Arguments rd_objects {Other} r.
Arguments rd_class_list {Other} r.

Section ClassList.

Variable CLASS_LIST : list string.
Variable get_class_id : string -> option Z.

(** The loop over [enumerate(original_class_list)]: the lists
    [(eval_class_ids, original_class_ids)], filled in step. *)
Fixpoint collect_class_ids (sub_class_id : nat) (original_class_list : list string)
  : list Z * list nat :=
  match original_class_list with
  | [] => ([], [])
  | class_name :: rest =>
      let '(eval_class_ids, original_class_ids) :=
        collect_class_ids (S sub_class_id) rest in
      match get_class_id class_name with
      | Some our_class_id =>
          (our_class_id :: eval_class_ids, sub_class_id :: original_class_ids)
      | None => (eval_class_ids, original_class_ids)
      end
  end.

Definition _format_prob_dist (original_class_list : list string)
  (original_prob_dist : list R) : res (list R) :=
  let '(eval_class_ids, original_class_ids) :=
    collect_class_ids 0 original_class_list in
  picked <- mapM (get original_prob_dist) original_class_ids ;;
  eval_prob_list <- np_put (np_zeros (length CLASS_LIST)) eval_class_ids picked ;;
  let total_prob := np_sum eval_prob_list in
  if Rlt_dec 1 total_prob
  then Ok (map (fun x => x / total_prob) eval_prob_list)
  else Ok eval_prob_list.

(** The body of the loop of [_format_results_data] on one proposal. *)
Definition format_proposal {Other : Type} (result_class_list : list string)
  (prop_dict : Proposal Other) : res (Proposal Other) :=
  match label_probs prop_dict with
  | None => Err KeyError
  | Some probs =>
      if (length probs =? length result_class_list)%nat
      then
        formatted <- _format_prob_dist result_class_list probs ;;
        Ok {| label_probs := Some formatted; other_keys := other_keys prop_dict |}
      else Err ValueError
  end.

(** The loop of [_format_results_data] over the proposals.  It replaces each
    ['label_probs'] in place, so an exception leaves the proposals before it
    formatted and those from it on as they were: the outcome, and the
    proposals as the loop leaves them. *)
Fixpoint format_proposals {Other : Type} (result_class_list : list string)
  (objects : list (Proposal Other)) : res unit * list (Proposal Other) :=
  match objects with
  | [] => (Ok tt, [])
  | prop_dict :: rest =>
      match format_proposal result_class_list prop_dict with
      | Ok formatted =>
          let '(outcome, rest') := format_proposals result_class_list rest in
          (outcome, formatted :: rest')
      | Err e => (Err e, prop_dict :: rest)
      end
  end.

(** [_format_results_data] changes [result_data] in place and returns
    nothing: the outcome, and the data it leaves.
    [len('class_list') == 0] measures the literal, which has ten characters:
    the test is never true, and only a missing key selects the default class
    list. *)
Definition _format_results_data {Other : Type} (result_data : ResultData Other)
  : res unit * ResultData Other :=
  match rd_objects result_data with
  | None => (Err KeyError, result_data)
  | Some objects =>
      let result_class_list :=
        match rd_class_list result_data with
        | None => CLASS_LIST
        | Some class_list =>
            if (String.length "class_list" =? 0)%nat then CLASS_LIST
            else class_list
        end in
      let '(outcome, objects') := format_proposals result_class_list objects in
      (outcome, {| rd_objects := Some objects';
                   rd_class_list := rd_class_list result_data |})
  end.

(** The class list the proposals are read against. *)
Definition class_list_used {Other : Type} (result_data : ResultData Other)
  : list string :=
  match rd_class_list result_data with
  | None => CLASS_LIST
  | Some class_list => class_list
  end.

End ClassList.

(** ** The ground-truth changes of [_evaluate_scd]

    The objects of a ground-truth map are dicts of JSON values: a type with
    a decidable equality, which is [==] on them, and [{**o, 'state': s}]. *)

Section GroundTruthChanges.

Context {Obj : Type}.
Variable obj_eq_dec : forall a b : Obj, {a = b} + {a <> b}.
Variable set_state : string -> Obj -> Obj.

(** [o not in objects]. *)
Definition not_in (o : Obj) (objects : list Obj) : bool :=
  if in_dec obj_eq_dec o objects then false else true.

(** [gt_changes], from the ['objects'] of the two ground-truth maps (an
    absent key stands for no object). *)
Definition gt_changes (objects1 objects2 : option (list Obj)) : list Obj :=
  let gt_objects_1 := match objects1 with Some l => l | None => [] end in
  let gt_objects_2 := match objects2 with Some l => l | None => [] end in
  map (set_state "removed") (filter (fun o => not_in o gt_objects_2) gt_objects_1)
  ++ map (set_state "added") (filter (fun o => not_in o gt_objects_1) gt_objects_2).

End GroundTruthChanges.

(** A submission over the classes "cup", "bottle" and "background", read
    against the class list "cup", "background". *)
Definition ex_class_list : list string := ["cup"; "background"]%string.

Definition ex_get_class_id (class_name : string) : option Z :=
  if String.eqb class_name "cup" then Some 0%Z
  else if String.eqb class_name "background" then Some 1%Z
  else None.

Definition ex_result_data : ResultData unit :=
  {| rd_objects := Some [{| label_probs := Some [1; 1; 1]; other_keys := tt |}];
     rd_class_list := Some ["cup"; "bottle"; "background"]%string |}.

(* ================================================================== *)
(** * Lemmas on sequencing *)

Lemma bind_ok {A B : Type} (m : res A) (f : A -> res B) (b : B) :
  bind m f = Ok b -> exists a, m = Ok a /\ f a = Ok b.
Proof.
  destruct m as [a|e]; simpl; intros H.
  - exists a; split; [reflexivity | exact H].
  - discriminate.
Qed.

Ltac inv_bind H :=
  let a := fresh "v" in
  let Ha := fresh "E" in
  apply bind_ok in H; destruct H as (a & Ha & H).

Tactic Notation "bind_inv" hyp(H) "as" ident(a) ident(Ha) :=
  apply bind_ok in H; destruct H as (a & Ha & H).

Lemma mapM_ok {A B : Type} (dflt : B) (f : A -> res B) (l : list A) (l' : list B) :
  mapM f l = Ok l' ->
  l' = map (fun a => val dflt (f a)) l /\
  Forall (fun a => f a = Ok (val dflt (f a))) l.
Proof.
  revert l'; induction l as [|a l IH]; simpl; intros l' H.
  - inversion H; subst; split; [reflexivity | constructor].
  - inv_bind H. inv_bind H. inversion H; subst; clear H.
    destruct (IH _ E0) as [-> HF].
    split.
    + rewrite E; reflexivity.
    + constructor; [rewrite E; reflexivity | assumption].
Qed.

Lemma mapM_total {A B : Type} (f : A -> res B) (l : list A) :
  Forall (fun a => exists b, f a = Ok b) l -> exists l', mapM f l = Ok l'.
Proof.
  induction 1 as [|a l [b Hb] _ [l' IH]]; simpl.
  - eexists; reflexivity.
  - rewrite Hb, IH; simpl. eexists; reflexivity.
Qed.

Lemma mapM_ext {A B : Type} (f h : A -> res B) (l : list A) :
  (forall a, In a l -> f a = h a) -> mapM f l = mapM h l.
Proof.
  induction l as [|a l IH]; simpl; intros H; [reflexivity|].
  rewrite (H a) by (left; reflexivity).
  rewrite IH by (intros; apply H; right; assumption).
  reflexivity.
Qed.

Lemma mapM_pure {A B : Type} (f : A -> res B) (h : A -> B) (l : list A) :
  (forall a, In a l -> f a = Ok (h a)) -> mapM f l = Ok (map h l).
Proof.
  induction l as [|a l IH]; simpl; intros H; [reflexivity|].
  rewrite (H a) by (left; reflexivity). simpl.
  rewrite IH by (intros; apply H; right; assumption).
  reflexivity.
Qed.

Lemma mapM_map {A B C : Type} (f : B -> res C) (h : A -> B) (l : list A) :
  mapM f (map h l) = mapM (fun a => f (h a)) l.
Proof.
  induction l as [|a l IH]; simpl; [reflexivity|]. rewrite IH; reflexivity.
Qed.

(* ================================================================== *)
(** * Lemmas on lists and tables *)

Lemma get_nth_error {A : Type} (l : list A) (i : nat) (a : A) :
  get l i = Ok a <-> nth_error l i = Some a.
Proof.
  unfold get; destruct (nth_error l i); split; intros H;
    inversion H; subst; reflexivity.
Qed.

Lemma get_in_range {A : Type} (dflt : A) (l : list A) (i : nat) :
  (i < length l)%nat -> get l i = Ok (nth i l dflt).
Proof.
  intros H. apply get_nth_error. apply nth_error_nth'. exact H.
Qed.

Lemma mat_get_cell (M : matrix) (r c : nat) :
  (r < length M)%nat -> (c < length (nth r M []))%nat ->
  mat_get M r c = Ok (cell M r c).
Proof.
  intros Hr Hc. unfold mat_get, cell.
  rewrite (get_in_range [] M r Hr); simpl.
  apply get_in_range; exact Hc.
Qed.

Lemma mat_get_ok_cell (M : matrix) (r c : nat) (x : R) :
  mat_get M r c = Ok x -> x = cell M r c.
Proof.
  unfold mat_get, cell; intros H. inv_bind H.
  apply get_nth_error in E, H.
  rewrite (nth_error_nth _ _ _ E). symmetry; apply nth_error_nth; exact H.
Qed.

Lemma square_row (n : nat) (M : matrix) (r : nat) :
  square n M -> (r < n)%nat -> length (nth r M []) = n.
Proof.
  intros [HL HF] Hr. rewrite Forall_forall in HF.
  apply HF, nth_In. lia.
Qed.

Lemma mat_get_square (n : nat) (M : matrix) (r c : nat) :
  square n M -> (r < n)%nat -> (c < n)%nat -> mat_get M r c = Ok (cell M r c).
Proof.
  intros HS Hr Hc. apply mat_get_cell.
  - destruct HS as [-> _]; exact Hr.
  - rewrite (square_row n M r HS Hr); exact Hc.
Qed.

Lemma np_ones_square (n : nat) : square n (np_ones n n).
Proof.
  unfold square, np_ones; split.
  - apply repeat_length.
  - apply Forall_forall; intros row H.
    apply repeat_spec in H; subst. apply repeat_length.
Qed.

Lemma cell_np_ones (n m r c : nat) :
  (r < n)%nat -> (c < m)%nat -> cell (np_ones n m) r c = 1.
Proof.
  intros Hr Hc. unfold cell, np_ones.
  rewrite nth_repeat_lt by exact Hr. apply nth_repeat_lt; exact Hc.
Qed.

Lemma sub_prefix_length (t q : list R) : length (sub_prefix t q) = length t.
Proof.
  revert q; induction t as [|x t IH]; intros [|y q]; simpl; auto.
Qed.

Lemma nth_sub_prefix (t q : list R) (j : nat) :
  (length q <= length t)%nat ->
  nth j (sub_prefix t q) 0 = nth j t 0 - nth j q 0.
Proof.
  revert q j; induction t as [|x t IH]; intros [|y q] j H; simpl in *.
  - destruct j; lra.
  - lia.
  - destruct j; lra.
  - destruct j; [lra|]. apply IH; lia.
Qed.

Lemma sub_block_length (T Q : matrix) : length (sub_block T Q) = length T.
Proof.
  revert Q; induction T as [|t T IH]; intros [|q Q]; simpl; auto.
Qed.

Lemma nth_sub_block (T Q : matrix) (i : nat) :
  nth i (sub_block T Q) [] = sub_prefix (nth i T []) (nth i Q []).
Proof.
  revert Q i; induction T as [|t T IH]; intros [|q Q] i; simpl.
  - destruct i; reflexivity.
  - destruct i; reflexivity.
  - destruct i; simpl; [destruct t | destruct (nth i T [])]; reflexivity.
  - destruct i; [reflexivity | apply IH].
Qed.

Lemma sub_block_square (n : nat) (T Q : matrix) :
  square n T -> square n (sub_block T Q).
Proof.
  intros [HL HF]; split.
  - rewrite sub_block_length; exact HL.
  - apply Forall_forall; intros row Hin.
    destruct (In_nth _ _ [] Hin) as (i & Hi & <-).
    rewrite sub_block_length in Hi.
    rewrite nth_sub_block, sub_prefix_length.
    rewrite Forall_forall in HF. apply HF, nth_In; exact Hi.
Qed.

Lemma cell_sub_block (T Q : matrix) (i j : nat) :
  (length (nth i Q []) <= length (nth i T []))%nat ->
  cell (sub_block T Q) i j = cell T i j - cell Q i j.
Proof.
  intros H. unfold cell. rewrite nth_sub_block. apply nth_sub_prefix; exact H.
Qed.

Lemma one_minus_square (n : nat) (M : matrix) :
  square n M -> square n (one_minus M).
Proof.
  intros [HL HF]; split.
  - unfold one_minus; rewrite length_map; exact HL.
  - unfold one_minus. apply Forall_map.
    apply Forall_impl with (2 := HF). intros row Hr; rewrite length_map; exact Hr.
Qed.

Lemma cell_one_minus (n : nat) (M : matrix) (r c : nat) :
  square n M -> (r < n)%nat -> (c < n)%nat ->
  cell (one_minus M) r c = 1 - cell M r c.
Proof.
  intros HS Hr Hc. unfold cell, one_minus.
  assert (HrM : (r < length M)%nat) by (destruct HS as [-> _]; exact Hr).
  rewrite (nth_indep _ [] (map (fun x => 1 - x) []))
    by (rewrite length_map; exact HrM).
  rewrite (map_nth (map (fun x => 1 - x)) M [] r).
  assert (Hlen : length (nth r M []) = n) by (apply square_row; assumption).
  rewrite (nth_indep _ 0 (1 - 0)) by (rewrite length_map, Hlen; exact Hc).
  rewrite (map_nth (fun x => 1 - x)). reflexivity.
Qed.

Lemma cell_outer {A B : Type} (f : A -> B -> R) (la : list A) (lb : list B)
  (i j : nat) :
  cell (outer f la lb) i j =
  match nth_error la i, nth_error lb j with
  | Some a, Some b => f a b
  | _, _ => 0
  end.
Proof.
  unfold cell, outer.
  destruct (nth_error la i) as [a|] eqn:Ea.
  - rewrite (nth_error_nth _ _ _ (map_nth_error _ _ _ Ea)).
    destruct (nth_error lb j) as [b|] eqn:Eb.
    + apply nth_error_nth, map_nth_error, Eb.
    + apply nth_overflow. rewrite length_map. apply nth_error_None, Eb.
  - rewrite (nth_overflow (map _ la))
      by (rewrite length_map; apply nth_error_None, Ea).
    destruct j; reflexivity.
Qed.

Lemma outer_length {A B : Type} (f : A -> B -> R) (la : list A) (lb : list B) :
  length (outer f la lb) = length la.
Proof. apply length_map. Qed.

Lemma outer_row_length {A B : Type} (f : A -> B -> R) (la : list A)
  (lb : list B) (i : nat) :
  (length (nth i (outer f la lb) []) <= length lb)%nat.
Proof.
  unfold outer. destruct (nth_error la i) as [a|] eqn:Ea.
  - rewrite (nth_error_nth _ _ _ (map_nth_error _ _ _ Ea)), length_map; lia.
  - rewrite nth_overflow
      by (rewrite length_map; apply nth_error_None, Ea).
    simpl; lia.
Qed.

Lemma outer_map {A A' B B' : Type} (f : A' -> B' -> R) (ha : A -> A')
  (hb : B -> B') (la : list A) (lb : list B) :
  outer f (map ha la) (map hb lb) = outer (fun a b => f (ha a) (hb b)) la lb.
Proof.
  unfold outer. rewrite map_map. apply map_ext; intros a. apply map_map.
Qed.

Lemma outer_ext {A B : Type} (f h : A -> B -> R) (la : list A) (lb : list B) :
  (forall a b, In a la -> In b lb -> f a b = h a b) ->
  outer f la lb = outer h la lb.
Proof.
  intros H. unfold outer. apply map_ext_in; intros a Ha.
  apply map_ext_in; intros b Hb. apply H; assumption.
Qed.

Lemma map2_map {A B C X : Type} (F : A -> B -> C) (f : X -> A) (h : X -> B)
  (l : list X) :
  map2 F (map f l) (map h l) = map (fun x => F (f x) (h x)) l.
Proof.
  unfold map2. induction l as [|x l IH]; simpl; [reflexivity|].
  rewrite IH; reflexivity.
Qed.

(** Cell-wise operations on two grids laid out over the same lists. *)
Lemma map2_grid {A B X Y C : Type} (F : X -> Y -> C) (f : A -> B -> X)
  (h : A -> B -> Y) (la : list A) (lb : list B) :
  map2 (map2 F) (map (fun a => map (f a) lb) la) (map (fun a => map (h a) lb) la) =
  map (fun a => map (fun b => F (f a b) (h a b)) lb) la.
Proof.
  rewrite map2_map. apply map_ext; intros a. apply map2_map.
Qed.

Lemma mapM_grid {A B X Y : Type} (f : X -> res Y) (h : A -> B -> X)
  (la : list A) (lb : list B) :
  mapM (mapM f) (map (fun a => map (h a) lb) la) =
  mapM (fun a => mapM (fun b => f (h a b)) lb) la.
Proof.
  rewrite mapM_map. apply mapM_ext; intros a _. apply mapM_map.
Qed.

Lemma mapM2_ext {A B Y : Type} (f h : A -> B -> res Y) (la : list A)
  (lb : list B) :
  (forall a b, In a la -> In b lb -> f a b = h a b) ->
  mapM (fun a => mapM (f a) lb) la = mapM (fun a => mapM (h a) lb) la.
Proof.
  intros H. apply mapM_ext; intros a Ha. apply mapM_ext; intros b Hb.
  apply H; assumption.
Qed.

Lemma mapM2_ok {A B : Type} (f : A -> B -> res R) (la : list A) (lb : list B)
  (M : matrix) :
  mapM (fun a => mapM (f a) lb) la = Ok M ->
  M = outer (fun a b => val 0 (f a b)) la lb /\
  forall a b, In a la -> In b lb -> f a b = Ok (val 0 (f a b)).
Proof.
  intros H. destruct (mapM_ok [] _ _ _ H) as [-> HF].
  rewrite Forall_forall in HF. split.
  - unfold outer. apply map_ext_in; intros a Ha.
    specialize (HF a Ha). destruct (mapM (f a) lb) as [row|e] eqn:E;
      [|discriminate].
    simpl. apply (mapM_ok 0 _ _ _ E).
  - intros a b Ha Hb. specialize (HF a Ha).
    destruct (mapM (f a) lb) as [row|e] eqn:E; [|discriminate].
    destruct (mapM_ok 0 _ _ _ E) as [_ HF'].
    rewrite Forall_forall in HF'. apply HF', Hb.
Qed.

Lemma mapM2_total {A B : Type} (f : A -> B -> res R) (la : list A)
  (lb : list B) :
  (forall a b, In a la -> In b lb -> exists x, f a b = Ok x) ->
  exists M, mapM (fun a => mapM (f a) lb) la = Ok M.
Proof.
  intros H. apply mapM_total, Forall_forall; intros a Ha.
  apply mapM_total, Forall_forall; intros b Hb. apply H; assumption.
Qed.

(** ** Maxima *)

Lemma fold_left_Rmax_ge (l : list R) (x : R) : x <= fold_left Rmax l x.
Proof.
  revert x; induction l as [|y l IH]; simpl; intros x; [lra|].
  apply Rle_trans with (Rmax x y); [apply Rmax_l | apply IH].
Qed.

Lemma fold_left_Rmax_greatest (l : list R) (x : R) :
  greatest (fold_left Rmax l x) (x :: l).
Proof.
  revert x; induction l as [|y l IH]; intros x.
  - simpl; split; [left; reflexivity | intros z [<-|[]]; lra].
  - simpl fold_left. destruct (IH (Rmax x y)) as [Hin Hge]. split.
    + destruct Hin as [Hin|Hin].
      * rewrite <- Hin. unfold Rmax; destruct (Rle_dec x y);
          [right; left | left]; reflexivity.
      * right; right; exact Hin.
    + intros z [Hz|[Hz|Hz]].
      * rewrite <- Hz. apply Rle_trans with (Rmax x y); [apply Rmax_l|].
        apply Hge; left; reflexivity.
      * rewrite <- Hz. apply Rle_trans with (Rmax x y); [apply Rmax_r|].
        apply Hge; left; reflexivity.
      * apply Hge; right; exact Hz.
Qed.

Lemma np_max_greatest (l : list R) (a : R) :
  np_max l = Ok a -> greatest a l.
Proof.
  destruct l as [|x l]; simpl; intros H; inversion H; subst.
  apply fold_left_Rmax_greatest.
Qed.

Lemma np_max_total (l : list R) : l <> [] -> exists a, np_max l = Ok a.
Proof.
  destruct l as [|x l]; [congruence|]. intros _; eexists; reflexivity.
Qed.

Lemma np_max_int_in (l : list Z) (m : Z) : np_max_int l = Ok m -> In m l.
Proof.
  destruct l as [|x l]; simpl; intros H; inversion H; subst; clear H.
  revert x; induction l as [|y l IH]; intros x; simpl.
  - left; reflexivity.
  - destruct (IH (Z.max x y)) as [H|H].
    + rewrite <- H. destruct (Z.max_spec x y) as [[_ ->]|[_ ->]];
        [right; left | left]; reflexivity.
    + right; right; exact H.
Qed.

Lemma greatest_unique (a b : R) (l : list R) :
  greatest a l -> greatest b l -> a = b.
Proof.
  intros [Ha Hga] [Hb Hgb]. apply Rle_antisym; auto.
Qed.

(* ================================================================== *)
(** * The geometric mean *)

(** The three outcomes of summing the logarithms. *)
Lemma log_sum_cases (l : list R) :
  match fold_right log_add (Fin 0) (map np_log l) with
  | LogNaN => Exists (fun x => x < 0) l
  | NegInf => Forall (fun x => 0 <= x) l /\ In 0 l
  | Fin s => Forall (fun x => 0 < x) l /\ exp s = product l
  end.
Proof.
  induction l as [|a l IH]; simpl.
  - split; [constructor | apply exp_0].
  - unfold np_log at 1.
    destruct (Rlt_dec a 0) as [Hneg|Hnn].
    + simpl. left; exact Hneg.
    + destruct (Req_dec_T a 0) as [Hz|Hnz].
      * destruct (fold_right log_add (Fin 0) (map np_log l)) as [|s|]; simpl.
        -- destruct IH as [HF _]. split; [constructor; [lra|exact HF]|left; auto].
        -- destruct IH as [HF _]. split; [|left; auto].
           constructor; [lra|]. apply Forall_impl with (2 := HF); intros; lra.
        -- right; exact IH.
      * assert (Ha : 0 < a) by lra.
        destruct (fold_right log_add (Fin 0) (map np_log l)) as [|s|]; simpl.
        -- destruct IH as [HF Hin]. split; [constructor; [lra|exact HF]|right; auto].
        -- destruct IH as [HF Hs]. split; [constructor; assumption|].
           rewrite exp_plus, exp_ln, Hs by exact Ha. reflexivity.
        -- right; exact IH.
Qed.

Lemma exp_INR_mult (k : nat) (y : R) : exp (INR k * y) = exp y ^ k.
Proof.
  induction k as [|k IH].
  - simpl. rewrite Rmult_0_l. apply exp_0.
  - rewrite S_INR, Rmult_plus_distr_r, Rmult_1_l, exp_plus, IH. simpl; ring.
Qed.

Lemma product_zero (l : list R) : In 0 l -> product l = 0.
Proof.
  induction l as [|a l IH]; simpl; [tauto|].
  intros [->|H]; [ring | rewrite (IH H); ring].
Qed.

Lemma product_in_unit (l : list R) : Forall in_unit l -> in_unit (product l).
Proof.
  unfold in_unit. induction 1 as [|a l Ha _ IH]; simpl; [lra|]. nra.
Qed.

Lemma gmean_unfold (a : R) (l : list R) :
  gmean (a :: l) =
  np_exp match fold_right log_add (Fin 0) (map np_log (a :: l)) with
         | Fin s => Fin (s / INR (length (a :: l)))
         | v => v
         end.
Proof.
  unfold gmean, log_mean.
  change (map np_log (a :: l)) with (np_log a :: map np_log l).
  cbv iota. change (length (np_log a :: map np_log l)) with (S (length (map np_log l))).
  rewrite length_map. reflexivity.
Qed.

(** What [gmean] returns: the non-negative root of the product. *)
Lemma gmean_ok (l : list R) (x : R) :
  gmean l = Ok x ->
  Forall (fun a => 0 <= a) l /\ 0 <= x /\ x ^ length l = product l /\
  (In 0 l -> x = 0).
Proof.
  destruct l as [|a l]; [discriminate|].
  rewrite gmean_unfold.
  set (l0 := a :: l). assert (Hlen : (0 < length l0)%nat) by (simpl; lia).
  generalize (log_sum_cases l0).
  destruct (fold_right log_add (Fin 0) (map np_log l0)) as [|s|];
    unfold np_exp; intros Hc H;
    [ assert (Hx : x = 0) by congruence
    | assert (Hx : x = exp (s / INR (length l0))) by congruence
    | discriminate ]; rewrite Hx; clear Hx H.
  - destruct Hc as [HF Hin]. split; [exact HF|]. split; [lra|]. split.
    + rewrite (product_zero _ Hin). apply pow_i; exact Hlen.
    + reflexivity.
  - destruct Hc as [HF Hs]. repeat split.
    + apply Forall_impl with (2 := HF); intros; lra.
    + left; apply exp_pos.
    + rewrite <- exp_INR_mult, <- Hs. f_equal. field.
      apply not_0_INR; lia.
    + intros Hin. rewrite Forall_forall in HF. specialize (HF 0 Hin). lra.
Qed.

(** [gmean] fails on no list of non-negative numbers, zeros included. *)
Lemma gmean_total (l : list R) :
  l <> [] -> Forall (fun a => 0 <= a) l -> exists x, gmean l = Ok x.
Proof.
  intros Hne HF.
  destruct l as [|a l]; [congruence|].
  rewrite gmean_unfold.
  generalize (log_sum_cases (a :: l)).
  destruct (fold_right log_add (Fin 0) (map np_log (a :: l))) as [|s|];
    unfold np_exp; intros Hc.
  - eexists; reflexivity.
  - eexists; reflexivity.
  - exfalso. apply Exists_exists in Hc. destruct Hc as (y & Hy & Hneg).
    rewrite Forall_forall in HF. specialize (HF y Hy). lra.
Qed.

Lemma gmean_in_unit (l : list R) (x : R) :
  Forall in_unit l -> gmean l = Ok x -> in_unit x.
Proof.
  intros HF H. destruct (gmean_ok l x H) as (_ & Hx & Hpow & _).
  split; [exact Hx|].
  destruct (Rle_dec x 1) as [|Hgt]; [assumption|exfalso].
  assert (H1 : 1 < x) by lra.
  destruct l as [|a l]; [discriminate|].
  assert (Hp : 1 < x ^ length (a :: l)) by (apply Rlt_pow_R1; simpl; [lra|lia]).
  pose proof (product_in_unit _ HF) as [_ Hle]. lra.
Qed.

Lemma gmean_pair (a b x : R) :
  gmean [a; b] = Ok x -> 0 <= a /\ 0 <= b /\ x = sqrt (a * b).
Proof.
  intros H. destruct (gmean_ok _ _ H) as (HF & Hx & Hpow & _).
  inversion HF as [|? ? Ha HF']; subst. inversion HF' as [|? ? Hb _]; subst.
  repeat split; try assumption.
  simpl in Hpow. symmetry. apply sqrt_lem_1; [nra | exact Hx | lra].
Qed.

(* ================================================================== *)
(** * The cost tables in closed form *)

Section Tables.

Context {collab : Collaborators}.

Lemma STATE_IDS_range (s : string) (v : Z) :
  dict_get _STATE_IDS s = Ok v -> (0 <= v <= 2)%Z.
Proof.
  unfold dict_get, _STATE_IDS; cbn [find fst snd].
  destruct (String.eqb "added" s); [intros H; inversion H; lia|].
  destruct (String.eqb "removed" s); [intros H; inversion H; lia|].
  destruct (String.eqb "constant" s); [intros H; inversion H; lia|].
  discriminate.
Qed.

Lemma fold_left_Zmax_const (l : list Z) (x : Z) :
  Forall (eq x) l -> fold_left Z.max l x = x.
Proof.
  induction 1 as [|y l <- _ IH]; simpl; [reflexivity|].
  rewrite Z.max_id. exact IH.
Qed.

Lemma select_columns_T_ok (mat : matrix) (vec : list Z) (M : matrix) :
  select_columns_T mat vec = Ok M ->
  M = outer (fun k row => val 0 (py_get row k)) vec mat /\
  forall k row, In k vec -> In row mat -> py_get row k = Ok (val 0 (py_get row k)).
Proof. apply mapM2_ok. Qed.

Lemma np_stack_ok (rows : list (list R)) (M : matrix) :
  np_stack rows = Ok M -> M = rows /\ rows <> [].
Proof.
  unfold np_stack. destruct rows as [|r rows]; [discriminate|].
  destruct (forallb _ _); intros H; inversion H; split; congruence.
Qed.

Lemma vectorize_map_gts_ok (gts : list GtInstance) (scd : bool)
  (boxes : list Box) (labels ids : list Z) :
  _vectorize_map_gts gts scd = Ok (boxes, labels, ids) ->
  boxes = map gt_box gts /\ labels = map gt_class_id gts /\
  (if scd
   then ids = map (fun g => val 0%Z (dict_get _STATE_IDS (gt_state g))) gts /\
        forall g, In g gts ->
          dict_get _STATE_IDS (gt_state g) =
          Ok (val 0%Z (dict_get _STATE_IDS (gt_state g)))
   else ids = map (fun _ => (-1)%Z) gts).
Proof.
  unfold _vectorize_map_gts. intros H. bind_inv H as ids' Eids.
  inversion H; subst; clear H. repeat split.
  destruct scd.
  - destruct (mapM_ok 0%Z _ _ _ Eids) as [-> HF].
    rewrite Forall_forall in HF. split; [reflexivity | exact HF].
  - inversion Eids; reflexivity.
Qed.

Lemma vectorize_map_dets_ok (dets : list DetInstance) (scd : bool)
  (boxes : list Box) (lmat smat : matrix) :
  _vectorize_map_dets dets scd = Ok (boxes, lmat, smat) ->
  dets <> [] /\ boxes = map det_box dets /\ lmat = map det_prob_dist dets /\
  (scd = true -> smat = map det_state_probs dets).
Proof.
  unfold _vectorize_map_dets. intros H.
  bind_inv H as lmat' El. bind_inv H as smat' Es.
  inversion H; subst; clear H.
  apply np_stack_ok in El. destruct El as [-> Hne].
  repeat split.
  - intros ->; apply Hne; reflexivity.
  - intros ->. apply np_stack_ok in Es. apply Es.
Qed.

Lemma calc_state_change_qual_off (gts : list GtInstance) (smat : matrix) :
  gts <> [] ->
  _calc_state_change_qual (map (fun _ => (-1)%Z) gts) smat = Ok None.
Proof.
  intros Hne. unfold _calc_state_change_qual, np_max_int.
  destruct gts as [|g gts]; [congruence|]. simpl map. cbv iota.
  rewrite fold_left_Zmax_const; [reflexivity|].
  apply Forall_forall; intros x Hx. apply in_map_iff in Hx.
  destruct Hx as (_ & <- & _); reflexivity.
Qed.

Lemma calc_state_change_qual_on (gts : list GtInstance)
  (dets : list DetInstance) (q : option matrix) :
  (forall g, In g gts ->
     dict_get _STATE_IDS (gt_state g) =
     Ok (val 0%Z (dict_get _STATE_IDS (gt_state g)))) ->
  _calc_state_change_qual
    (map (fun g => val 0%Z (dict_get _STATE_IDS (gt_state g))) gts)
    (map det_state_probs dets) = Ok q ->
  gts <> [] /\
  q = Some (outer state_quality gts dets) /\
  forall g d, In g gts -> In d dets ->
    pair_state_quality g d = Ok (state_quality g d).
Proof.
  intros Hids H. unfold _calc_state_change_qual in H.
  bind_inv H as top Etop.
  assert (Hne : gts <> []) by (intros ->; discriminate).
  assert (Htop : (top =? -1)%Z = false).
  { apply np_max_int_in in Etop. apply in_map_iff in Etop.
    destruct Etop as (g & Hg & Hin). specialize (Hids g Hin).
    rewrite <- Hg. apply STATE_IDS_range in Hids. lia. }
  rewrite Htop in H. bind_inv H as M EM. inversion H; subst; clear H.
  apply select_columns_T_ok in EM. destruct EM as [-> Hstate].
  rewrite outer_map.
  assert (Hst : forall g d, In g gts -> In d dets ->
            pair_state_quality g d = Ok (state_quality g d) /\
            val 0 (py_get (det_state_probs d)
                          (val 0%Z (dict_get _STATE_IDS (gt_state g)))) =
            state_quality g d).
  { intros g d Hg Hd. unfold state_quality, pair_state_quality.
    rewrite (Hids g Hg). simpl. split; [|reflexivity].
    apply Hstate;
      [ apply (in_map (fun g => val 0%Z (dict_get _STATE_IDS (gt_state g))))
      | apply in_map ]; assumption. }
  split; [exact Hne|]. split.
  - f_equal. apply outer_ext. intros g d Hg Hd. apply Hst; assumption.
  - intros g d Hg Hd. apply Hst; assumption.
Qed.

Lemma calc_label_qual_ok (gts : list GtInstance) (dets : list DetInstance)
  (M : matrix) :
  _calc_label_qual (map gt_class_id gts) (map det_prob_dist dets) = Ok M ->
  M = outer label_quality gts dets /\
  forall g d, In g gts -> In d dets ->
    pair_label_quality g d = Ok (label_quality g d).
Proof.
  unfold _calc_label_qual. intros H.
  apply select_columns_T_ok in H. destruct H as [-> Hl].
  rewrite outer_map. split; [reflexivity|].
  intros g d Hg Hd. unfold label_quality, pair_label_quality.
  apply Hl; apply in_map; assumption.
Qed.

Lemma calc_spatial_qual_outer (gts : list GtInstance) (dets : list DetInstance) :
  _calc_spatial_qual (map gt_box gts) (map det_box dets) =
  outer pair_spatial_quality gts dets.
Proof.
  unfold _calc_spatial_qual.
  change (outer dict_iou (map gt_box gts) (map det_box dets) =
          outer pair_spatial_quality gts dets).
  rewrite outer_map. reflexivity.
Qed.

Lemma calc_overall_qual_ok (scd : bool) (gts : list GtInstance)
  (dets : list DetInstance) (M : matrix) :
  (forall g d, In g gts -> In d dets ->
     pair_label_quality g d = Ok (label_quality g d)) ->
  (scd = true -> forall g d, In g gts -> In d dets ->
     pair_state_quality g d = Ok (state_quality g d)) ->
  _calc_overall_qual (outer label_quality gts dets)
    (outer pair_spatial_quality gts dets)
    (if scd then Some (outer state_quality gts dets) else None) = Ok M ->
  M = outer (overall_quality scd) gts dets /\
  forall g d, In g gts -> In d dets ->
    pair_overall_quality scd g d = Ok (overall_quality scd g d).
Proof.
  intros Hl Hs H. unfold _calc_overall_qual in H.
  assert (Hgm : mapM (fun g => mapM (fun d => pair_overall_quality scd g d) dets) gts
                = Ok M).
  { rewrite <- H. destruct scd.
    - unfold dstack3, dstack2, outer.
      rewrite map2_grid, map2_grid, mapM_grid.
      apply mapM2_ext. intros g d Hg Hd. unfold pair_overall_quality.
      rewrite (Hl g d Hg Hd), (Hs eq_refl g d Hg Hd). reflexivity.
    - unfold dstack2, outer. rewrite map2_grid, mapM_grid.
      apply mapM2_ext. intros g d Hg Hd. unfold pair_overall_quality.
      rewrite (Hl g d Hg Hd). reflexivity. }
  apply mapM2_ok in Hgm. destruct Hgm as [-> Hgm].
  split; [reflexivity|]. intros g d Hg Hd. apply Hgm; assumption.
Qed.

(** The four tables returned by [_gen_cost_tables], and the pairwise
    qualities they are made of. *)
Lemma gen_cost_tables_ok (gts : list GtInstance) (dets : list DetInstance)
  (scd : bool) (ct : CostTables) :
  _gen_cost_tables gts dets scd = Ok ct ->
  let n := Nat.max (length gts) (length dets) in
  gts <> [] /\ dets <> [] /\
  (forall g d, In g gts -> In d dets ->
     pair_label_quality g d = Ok (label_quality g d) /\
     pair_overall_quality scd g d = Ok (overall_quality scd g d) /\
     (scd = true -> pair_state_quality g d = Ok (state_quality g d))) /\
  ct_overall ct = sub_block (np_ones n n) (outer (overall_quality scd) gts dets) /\
  ct_spatial ct = sub_block (np_ones n n) (outer pair_spatial_quality gts dets) /\
  ct_label ct = sub_block (np_ones n n) (outer label_quality gts dets) /\
  ct_state ct = (if scd
                 then sub_block (np_ones n n) (outer state_quality gts dets)
                 else np_ones n n).
Proof.
  intros H n. unfold _gen_cost_tables in H. fold n in H.
  bind_inv H as vg Evg. destruct vg as [[gt_boxes gt_labels] gt_state_ids].
  bind_inv H as vd Evd.
  destruct vd as [[det_boxes det_label_prob_mat] det_state_prob_mat].
  bind_inv H as label_qual_mat El.
  bind_inv H as state_change_qual Es.
  bind_inv H as overall_qual Eo.
  bind_inv H as state_cost_table Ec.
  inversion H; subst ct; clear H; simpl.
  apply vectorize_map_gts_ok in Evg. destruct Evg as (-> & -> & Hids).
  apply vectorize_map_dets_ok in Evd. destruct Evd as (Hdets & -> & -> & Hsmat).
  apply calc_label_qual_ok in El. destruct El as [-> Hlab].
  rewrite calc_spatial_qual_outer in *.
  destruct scd.
  - destruct Hids as [-> Hids]. rewrite (Hsmat eq_refl) in Es.
    apply calc_state_change_qual_on in Es; [|exact Hids].
    destruct Es as (Hgts & -> & Hst).
    apply (calc_overall_qual_ok true) in Eo; [|exact Hlab|intros _; exact Hst].
    destruct Eo as [-> Hov]. inversion Ec; subst; clear Ec.
    repeat split; auto; try apply Hlab; try apply Hov; try apply Hst; auto.
  - subst gt_state_ids.
    assert (Hgts : gts <> []) by (intros ->; discriminate).
    rewrite calc_state_change_qual_off in Es by exact Hgts.
    inversion Es; subst; clear Es.
    apply (calc_overall_qual_ok false) in Eo; [|exact Hlab|discriminate].
    destruct Eo as [-> Hov]. inversion Ec; subst; clear Ec.
    repeat split; auto; try apply Hlab; try apply Hov; try discriminate.
Qed.

End Tables.

(* ================================================================== *)
(** * Cells of the cost and quality tables *)

Lemma nth_map2 {A B C : Type} (f : A -> B -> C) (l1 : list A) (l2 : list B)
  (i : nat) (da : A) (db : B) (dc : C) :
  (i < length l1)%nat -> (i < length l2)%nat ->
  nth i (map2 f l1 l2) dc = f (nth i l1 da) (nth i l2 db).
Proof.
  unfold map2. revert l2 i; induction l1 as [|a l1 IH]; intros [|b l2] i H1 H2;
    simpl in *; try lia.
  destruct i; [reflexivity|]. apply IH; lia.
Qed.

Lemma map2_length {A B C : Type} (f : A -> B -> C) (l1 : list A) (l2 : list B) :
  length (map2 f l1 l2) = Nat.min (length l1) (length l2).
Proof. unfold map2. rewrite length_map. apply length_combine. Qed.

Lemma mask_zero_square (n : nat) (Q S : matrix) :
  square n Q -> square n S -> square n (mask_zero Q S).
Proof.
  intros HQ HS. pose proof HQ as [HQl _]. pose proof HS as [HSl _]. split.
  - unfold mask_zero. rewrite map2_length. lia.
  - apply Forall_forall; intros row Hin.
    destruct (In_nth _ _ [] Hin) as (i & Hi & <-).
    unfold mask_zero in *. rewrite map2_length in Hi.
    rewrite (nth_map2 _ Q S i [] []) by lia.
    rewrite map2_length, (square_row n Q i), (square_row n S i) by (assumption || lia).
    lia.
Qed.

Lemma cell_mask_zero (n : nat) (Q S : matrix) (r c : nat) :
  square n Q -> square n S -> (r < n)%nat -> (c < n)%nat ->
  cell (mask_zero Q S) r c = if Req_dec_T (cell Q r c) 0 then 0 else cell S r c.
Proof.
  intros HQ HS Hr Hc. pose proof HQ as [HQl _]. pose proof HS as [HSl _].
  unfold cell, mask_zero.
  rewrite (nth_map2 _ Q S r [] []) by lia.
  apply (nth_map2 (fun q s : R => if Req_dec_T q 0 then 0 else s)).
  - rewrite (square_row n Q r); assumption.
  - rewrite (square_row n S r); assumption.
Qed.

Section CostCells.

Context {A B : Type} (f : A -> B -> R) (la : list A) (lb : list B).

Let n := Nat.max (length la) (length lb).

Lemma cost_table_square : square n (sub_block (np_ones n n) (outer f la lb)).
Proof. apply sub_block_square, np_ones_square. Qed.

Lemma cost_table_cell (i j : nat) :
  (i < n)%nat -> (j < n)%nat ->
  cell (sub_block (np_ones n n) (outer f la lb)) i j =
  1 - cell (outer f la lb) i j.
Proof.
  intros Hi Hj. rewrite cell_sub_block.
  - rewrite cell_np_ones by assumption. reflexivity.
  - rewrite (square_row n (np_ones n n) i (np_ones_square n) Hi).
    apply Nat.le_trans with (length lb); [apply outer_row_length | lia].
Qed.

Lemma quality_table_cell (i j : nat) :
  (i < n)%nat -> (j < n)%nat ->
  cell (one_minus (sub_block (np_ones n n) (outer f la lb))) i j =
  cell (outer f la lb) i j.
Proof.
  intros Hi Hj.
  rewrite (cell_one_minus n) by (assumption || apply cost_table_square).
  rewrite cost_table_cell by assumption. ring.
Qed.

End CostCells.

Lemma all_zero_quality_of_ones (n m : nat) : all_zero (one_minus (np_ones n m)).
Proof.
  unfold all_zero, one_minus, np_ones.
  apply Forall_map, Forall_forall; intros row Hrow.
  apply repeat_spec in Hrow; subst row.
  apply Forall_map, Forall_forall; intros x Hx.
  apply repeat_spec in Hx; subst x. ring.
Qed.

Lemma all_zero_mask (Q S : matrix) : all_zero S -> all_zero (mask_zero Q S).
Proof.
  unfold all_zero, mask_zero, map2. intros HS.
  apply Forall_map, Forall_forall; intros [q s] Hin; simpl.
  apply in_combine_r in Hin. rewrite Forall_forall in HS. specialize (HS s Hin).
  apply Forall_map, Forall_forall; intros [x y] Hxy; simpl.
  apply in_combine_r in Hxy. rewrite Forall_forall in HS. specialize (HS y Hxy).
  destruct (Req_dec_T x 0); [reflexivity | exact HS].
Qed.

Lemma mat_get_all_zero (M : matrix) (r c : nat) (x : R) :
  all_zero M -> mat_get M r c = Ok x -> x = 0.
Proof.
  unfold all_zero, mat_get. intros HM H. bind_inv H as row Erow.
  apply get_nth_error in Erow, H.
  apply nth_error_In in Erow, H.
  rewrite Forall_forall in HM. specialize (HM row Erow).
  rewrite Forall_forall in HM. apply HM, H.
Qed.

Lemma np_sum_zeros (l : list R) : Forall (fun x => x = 0) l -> np_sum l = 0.
Proof.
  unfold np_sum. induction 1 as [|x l -> _ IH]; simpl; [reflexivity|].
  rewrite IH; ring.
Qed.

Lemma fancy_get_all_zero (M : matrix) (rows cols : list nat) (l : list R) :
  all_zero M -> fancy_get M rows cols = Ok l -> np_sum l = 0.
Proof.
  unfold fancy_get. intros HM H.
  destruct (length rows =? length cols)%nat; [|discriminate].
  destruct (mapM_ok 0 _ _ _ H) as [-> HF].
  apply np_sum_zeros, Forall_map.
  apply Forall_impl with (2 := HF). intros m Hm.
  apply (mat_get_all_zero M (fst m) (snd m)); assumption.
Qed.

(* ================================================================== *)
(** * The matching loop *)

Ltac tuple_eq :=
  repeat match goal with
         | |- Ok _ = Ok _ => f_equal
         | |- (_, _) = (_, _) => f_equal
         end;
  try reflexivity; try lia.

Section Loop.

Variables (g d : nat) (Qt : matrix).

Lemma match_loop_ok (pairs : list (nat * nat)) (tp fp fn : nat) (idxs : list nat) :
  (forall m, In m pairs -> mat_get Qt (fst m) (snd m) = Ok (cell Qt (fst m) (snd m))) ->
  foldM (match_step g d Qt) pairs (tp, fp, fn, idxs) =
  Ok ((tp + count (tp_match Qt) pairs)%nat,
      (fp + count (fp_match d Qt) pairs)%nat,
      (fn + count (fn_match g Qt) pairs)%nat,
      idxs ++ map snd (filter (fp_match d Qt) pairs)).
Proof.
  revert tp fp fn idxs. induction pairs as [|[r c] pairs IH];
    intros tp fp fn idxs Hget.
  - simpl. unfold count; simpl. rewrite !Nat.add_0_r, app_nil_r. reflexivity.
  - cbn [foldM]. unfold match_step at 1.
    pose proof (Hget (r, c) (or_introl eq_refl)) as Hrc. cbn [fst snd] in Hrc.
    rewrite Hrc. cbn [bind fst snd].
    assert (Hrest : forall m, In m pairs ->
              mat_get Qt (fst m) (snd m) = Ok (cell Qt (fst m) (snd m)))
      by (intros m Hm; apply Hget; right; exact Hm).
    unfold count, tp_match, fn_match, fp_match, is_pos in *. cbn [filter fst snd].
    destruct (Rlt_dec 0 (cell Qt r c)) as [Hpos|Hnpos]; cbn [negb andb].
    + cbn [bind]. rewrite IH by exact Hrest. cbn [length]. tuple_eq.
    + destruct (r <? g)%nat, (c <? d)%nat; cbn [bind];
        rewrite IH by exact Hrest; cbn [length map snd];
        rewrite <- ?app_assoc; cbn [app]; tuple_eq.
Qed.

End Loop.

Lemma combine_seq_in (n : nat) (cols : list nat) (m : nat * nat) :
  Permutation cols (seq 0 n) -> In m (combine (seq 0 n) cols) ->
  (fst m < n)%nat /\ (snd m < n)%nat.
Proof.
  intros HP Hin. destruct m as [r c]. split; simpl.
  - apply in_combine_l in Hin. apply in_seq in Hin. lia.
  - apply in_combine_r in Hin. apply (Permutation_in _ HP) in Hin.
    apply in_seq in Hin. lia.
Qed.

Lemma fancy_get_square (n : nat) (M : matrix) (cols : list nat) :
  square n M -> Permutation cols (seq 0 n) ->
  fancy_get M (seq 0 n) cols =
  Ok (map (fun m : nat * nat => cell M (fst m) (snd m)) (combine (seq 0 n) cols)).
Proof.
  intros HS HP. unfold fancy_get.
  rewrite (Permutation_length HP), Nat.eqb_refl.
  apply mapM_pure. intros m Hm.
  destruct (combine_seq_in n cols m HP Hm).
  apply (mat_get_square n); assumption.
Qed.

Lemma count_ext {A : Type} (p q : A -> bool) (l : list A) :
  (forall a, In a l -> p a = q a) -> count p l = count q l.
Proof.
  intros H. unfold count. f_equal. apply filter_ext_in; exact H.
Qed.

(* ================================================================== *)
(** * The evaluation of a non-empty map in closed form *)

Section MapEvaluation.

Context {collab : Collaborators}.

Lemma cell_overall_padded (scd : bool) (gts : list GtInstance)
  (dets : list DetInstance) (i j : nat) :
  cell (outer (overall_quality scd) gts dets) i j = padded_quality scd gts dets i j.
Proof. rewrite cell_outer. reflexivity. Qed.

Lemma nonempty_test (gts : list GtInstance) (dets : list DetInstance) :
  gts <> [] -> dets <> [] ->
  (length gts =? 0)%nat || (length dets =? 0)%nat = false.
Proof.
  destruct gts, dets; try congruence. reflexivity.
Qed.

Hypothesis solver_ok : solver_contract collab.

Lemma calc_qual_map_nonempty (gts : list GtInstance) (dets : list DetInstance)
  (scd : bool) (r : MapResults) :
  gts <> [] -> dets <> [] ->
  _calc_qual_map gts dets scd = Ok r ->
  let n := Nat.max (length gts) (length dets) in
  let q := fun m : nat * nat => padded_quality scd gts dets (fst m) (snd m) in
  exists ct cols costs,
    _gen_cost_tables gts dets scd = Ok ct /\
    linear_sum_assignment (ct_overall ct) = (seq 0 n, cols) /\
    optimal_assignment n (ct_overall ct) (seq 0 n, cols) /\
    assigned_pairs gts dets scd = combine (seq 0 n) cols /\
    overall r = np_sum (map q (combine (seq 0 n) cols)) /\
    TP r = count (fun m => is_pos (q m)) (combine (seq 0 n) cols) /\
    FP r = count (fun m => negb (is_pos (q m)) && (snd m <? length dets)%nat)
                 (combine (seq 0 n) cols) /\
    FN r = count (fun m => negb (is_pos (q m)) && (fst m <? length gts)%nat)
                 (combine (seq 0 n) cols) /\
    mapM (fun i => det <- get dets i ;; fp_cost_of scd det)
         (map snd (filter (fun m => negb (is_pos (q m)) && (snd m <? length dets)%nat)
                          (combine (seq 0 n) cols))) = Ok costs /\
    fp_cost r = np_sum costs.
Proof.
  intros Hg Hd H n q. unfold _calc_qual_map, _calc_qual_map_from in H.
  rewrite (nonempty_test gts dets Hg Hd) in H.
  bind_inv H as ct Ect.
  destruct (gen_cost_tables_ok gts dets scd ct Ect) as (_ & _ & _ & Hov & _).
  fold n in Hov.
  assert (Hsq : square n (ct_overall ct)) by (rewrite Hov; apply cost_table_square).
  destruct (solver_ok n _ Hsq) as (Hrows & Hperm & Hopt).
  destruct (linear_sum_assignment (ct_overall ct)) as [rows cols] eqn:Elsa.
  simpl in Hrows, Hperm, Hopt. subst rows.
  set (pairs := combine (seq 0 n) cols) in *.
  assert (Hrange : forall m, In m pairs -> (fst m < n)%nat /\ (snd m < n)%nat)
    by (intros m; apply combine_seq_in; exact Hperm).
  assert (Hcell : forall m, In m pairs ->
            cell (one_minus (ct_overall ct)) (fst m) (snd m) = q m).
  { intros m Hm. destruct (Hrange m Hm). rewrite Hov. unfold n.
    rewrite quality_table_cell by assumption. apply cell_overall_padded. }
  rewrite (match_loop_ok _ _ _ pairs) in H.
  2:{ intros m Hm. destruct (Hrange m Hm).
      apply (mat_get_square n); [apply one_minus_square, Hsq | assumption..]. }
  cbn [bind] in H.
  bind_inv H as picked Epicked.
  bind_inv H as picked_spatial Espatial.
  bind_inv H as picked_label Elabel.
  bind_inv H as picked_state Estate.
  bind_inv H as costs Ecosts.
  inversion H; subst r; clear H. cbn [overall TP FP FN fp_cost].
  unfold pairs in Epicked.
  rewrite (fancy_get_square n) in Epicked
    by (try apply one_minus_square; assumption).
  inversion Epicked; subst picked; clear Epicked. fold pairs.
  assert (Hfp : filter (fp_match (length dets) (one_minus (ct_overall ct))) pairs =
                filter (fun m => negb (is_pos (q m)) && (snd m <? length dets)%nat) pairs).
  { apply filter_ext_in. intros m Hm. unfold fp_match. rewrite (Hcell m Hm).
    reflexivity. }
  exists ct, cols, costs.
  split; [exact Ect|].
  split; [exact Elsa|].
  split; [split; [reflexivity|]; split; assumption|].
  split; [unfold assigned_pairs; rewrite Ect, Elsa; reflexivity|].
  split; [f_equal; apply map_ext_in; exact Hcell|].
  split; [apply count_ext; intros m Hm; unfold tp_match;
          rewrite (Hcell m Hm); reflexivity|].
  split; [unfold count; rewrite Hfp; reflexivity|].
  split; [apply count_ext; intros m Hm; unfold fn_match;
          rewrite (Hcell m Hm); reflexivity|].
  split; [|reflexivity].
  fold pairs. change (fun m : nat * nat =>
     negb (is_pos (padded_quality scd gts dets (fst m) (snd m))) &&
     (snd m <? length dets)%nat)
    with (fun m : nat * nat => negb (is_pos (q m)) && (snd m <? length dets)%nat).
  rewrite <- Hfp. cbn [app] in Ecosts. unfold fp_cost_of.
  destruct scd; exact Ecosts.
Qed.

End MapEvaluation.

(* ================================================================== *)
(** * Exhaustive search meets the solver's contract *)

Lemma insert_everywhere_sound (a : nat) (l p : list nat) :
  In p (insert_everywhere a l) -> Permutation p (a :: l).
Proof.
  revert p; induction l as [|x l IH]; simpl; intros p H.
  - destruct H as [<-|[]]. apply Permutation_refl.
  - destruct H as [<-|H]; [apply Permutation_refl|].
    apply in_map_iff in H. destruct H as (p' & <- & Hp').
    apply Permutation_trans with (x :: a :: l); [|apply perm_swap].
    apply perm_skip, IH, Hp'.
Qed.

Lemma permutations_sound (l p : list nat) :
  In p (permutations l) -> Permutation p l.
Proof.
  revert p; induction l as [|a l IH]; simpl; intros p H.
  - destruct H as [<-|[]]. apply perm_nil.
  - apply in_flat_map in H. destruct H as (p' & Hp' & Hin).
    apply Permutation_trans with (a :: p').
    + apply insert_everywhere_sound, Hin.
    + apply perm_skip, IH, Hp'.
Qed.

Lemma insert_everywhere_complete (a : nat) (l1 l2 : list nat) :
  In (l1 ++ a :: l2) (insert_everywhere a (l1 ++ l2)).
Proof.
  induction l1 as [|x l1 IH]; simpl.
  - destruct l2; simpl; left; reflexivity.
  - right. apply in_map, IH.
Qed.

Lemma permutations_complete (l p : list nat) :
  Permutation p l -> In p (permutations l).
Proof.
  revert p; induction l as [|a l IH]; intros p H.
  - apply Permutation_sym, Permutation_nil in H. subst; left; reflexivity.
  - assert (Ha : In a p)
      by (apply (Permutation_in a (Permutation_sym H)); left; reflexivity).
    apply in_split in Ha. destruct Ha as (p1 & p2 & ->).
    simpl. apply in_flat_map. exists (p1 ++ p2). split.
    + apply IH. apply Permutation_cons_inv with a.
      apply Permutation_trans with (p1 ++ a :: p2); [|exact H].
      apply Permutation_middle.
    + apply insert_everywhere_complete.
Qed.

Lemma fold_cheaper_spec (cost : list nat -> R) (ps : list (list nat))
  (p0 : list nat) :
  let best := fold_left (cheaper cost) ps p0 in
  In best (p0 :: ps) /\ forall p, In p (p0 :: ps) -> cost best <= cost p.
Proof.
  revert p0; induction ps as [|p1 ps IH]; intros p0; simpl.
  - split; [left; reflexivity|]. intros p [<-|[]]; lra.
  - destruct (IH (cheaper cost p0 p1)) as [Hin Hle]. split.
    + destruct Hin as [Hin|Hin]; [|right; right; exact Hin].
      rewrite <- Hin. unfold cheaper.
      destruct (Rlt_dec (cost p1) (cost p0)); [right; left | left]; reflexivity.
    + assert (H0 : cost (cheaper cost p0 p1) <= cost p0 /\
                   cost (cheaper cost p0 p1) <= cost p1).
      { unfold cheaper. destruct (Rlt_dec (cost p1) (cost p0)); lra. }
      pose proof (Hle (cheaper cost p0 p1) (or_introl eq_refl)) as Hbest.
      intros p [Hp|[Hp|Hp]].
      * rewrite <- Hp. lra.
      * rewrite <- Hp. lra.
      * apply Hle; right; exact Hp.
Qed.

Lemma exhaustive_assignment_optimal (n : nat) (M : matrix) :
  square n M -> optimal_assignment n M (exhaustive_assignment M).
Proof.
  intros [HL _]. unfold exhaustive_assignment, optimal_assignment.
  rewrite HL. cbn [fst snd].
  destruct (fold_cheaper_spec (assignment_total M (seq 0 n))
              (permutations (seq 0 n)) (seq 0 n)) as [Hin Hle].
  split; [reflexivity|]. split.
  - destruct Hin as [<-|Hin]; [apply Permutation_refl|].
    apply permutations_sound, Hin.
  - intros p Hp. apply Hle. right. apply permutations_complete, Hp.
Qed.

Lemma example_solver_contract : solver_contract example_collaborators.
Proof.
  intros n M HS. apply exhaustive_assignment_optimal, HS.
Qed.

(* ================================================================== *)
(** * The running score *)

Section RunningScore.

Context {collab : Collaborators}.

Lemma py_div_nonzero (x y : R) : y <> 0 -> py_div x y = Ok (x / y).
Proof.
  intros Hy. unfold py_div. destruct (Req_dec_T y 0); [contradiction|reflexivity].
Qed.

Lemma INR_pos_nonzero (k : nat) : (0 <? k)%nat = true -> INR k <> 0.
Proof.
  intros H. apply Nat.ltb_lt in H. apply not_0_INR. lia.
Qed.

Lemma pos_test_zero (k : nat) : (0 <? k)%nat = false <-> k = 0%nat.
Proof.
  rewrite Nat.ltb_ge. lia.
Qed.

Lemma mbind_ext {A B : Type} (m : method A) (f h : A -> method B) (s : CDQ3D) :
  (forall a s', f a s' = h a s') -> mbind m f s = mbind m h s.
Proof.
  intros H. unfold mbind. destruct (m s) as [[a|e] s']; [apply H | reflexivity].
Qed.

Lemma mbind_cong {A B : Type} (m1 m2 : method A) (f : A -> method B) (s : CDQ3D) :
  m1 s = m2 s -> mbind m1 f s = mbind m2 f s.
Proof.
  intros H. unfold mbind. rewrite H. reflexivity.
Qed.

Lemma for_each_ext {A : Type} (body1 body2 : A -> method unit) (l : list A)
  (s : CDQ3D) :
  (forall a s', body1 a s' = body2 a s') ->
  for_each l body1 s = for_each l body2 s.
Proof.
  intros H. revert s; induction l as [|a l IH]; intros s; [reflexivity|].
  cbn [for_each]. unfold mbind. rewrite H.
  destruct (body2 a s) as [[[]|e] s']; [apply IH | reflexivity].
Qed.

(** [score] runs the loop of [add_map_eval] after a [reset]. *)
Lemma score_unfold (param_lists : list (list GtInstance * list DetInstance))
  (self : CDQ3D) :
  score param_lists self =
  (reset ;;;
   for_each param_lists
     (fun map_params => add_map_eval (fst map_params) (snd map_params)) ;;;
   reading get_current_score) self.
Proof.
  unfold score. apply mbind_ext; intros _ s. apply mbind_cong.
  apply for_each_ext. intros [gts dets] s'. reflexivity.
Qed.

(** The mode is fixed at construction. *)
Lemma add_map_eval_scd_mode (gts : list GtInstance) (dets : list DetInstance)
  (self : CDQ3D) :
  scd_mode (snd (add_map_eval gts dets self)) = scd_mode self.
Proof.
  unfold add_map_eval, mbind, reading, assign.
  destruct (_calc_qual_map gts dets (scd_mode self)); reflexivity.
Qed.

Lemma for_each_preserves {A : Type} (P : CDQ3D -> Prop) (body : A -> method unit)
  (l : list A) (self : CDQ3D) :
  (forall a s, P s -> P (snd (body a s))) ->
  P self -> P (snd (for_each l body self)).
Proof.
  intros Hbody. revert self; induction l as [|a l IH]; intros self HP.
  - exact HP.
  - cbn [for_each]. unfold mbind. specialize (Hbody a self HP).
    destruct (body a self) as [[[]|e] s1]; simpl in *; [apply IH|]; assumption.
Qed.

Lemma score_preserves (P : CDQ3D -> Prop)
  (param_lists : list (list GtInstance * list DetInstance)) (self : CDQ3D) :
  (forall gts dets s, P s -> P (snd (add_map_eval gts dets s))) ->
  P (snd (reset self)) -> P (snd (score param_lists self)).
Proof.
  intros Hadd Hreset. rewrite score_unfold. unfold mbind at 1.
  destruct (reset self) as [[[]|e] s0] eqn:E; simpl in Hreset; [|exact Hreset].
  unfold mbind.
  pose proof (for_each_preserves P
    (fun map_params : list GtInstance * list DetInstance =>
       add_map_eval (fst map_params) (snd map_params)) param_lists s0
    (fun a s => Hadd (fst a) (snd a) s) Hreset) as H.
  destruct (for_each _ _ s0) as [[[]|e] s1]; exact H.
Qed.

Lemma score_scd_mode (param_lists : list (list GtInstance * list DetInstance))
  (self : CDQ3D) :
  scd_mode (snd (score param_lists self)) = scd_mode self.
Proof.
  apply (score_preserves (fun s => scd_mode s = scd_mode self)).
  - intros gts dets s Hs. rewrite add_map_eval_scd_mode. exact Hs.
  - reflexivity.
Qed.

(** [score] reads nothing of the object but its mode. *)
Lemma score_depends_on_mode (param_lists : list (list GtInstance * list DetInstance))
  (s1 s2 : CDQ3D) :
  scd_mode s1 = scd_mode s2 -> score param_lists s1 = score param_lists s2.
Proof.
  intros H. rewrite !score_unfold. unfold mbind at 1 4.
  unfold reset, assign. rewrite H. reflexivity.
Qed.

End RunningScore.

(* ================================================================== *)
(** * Results on the running score *)

Section ScoreTheorems.

Context {collab : Collaborators}.

(** C7. Every score getter returns its quotient and never divides by zero:
    [get_current_score] returns [overall / (TP + fp_cost + FN)], and 0 when
    that denominator is 0, in particular on a freshly constructed object;
    the four average-quality getters return [sum / TP], and 0 when [TP] is
    0; [get_avg_fp_score] returns [(FP - fp_cost) / FP], and 1 when [FP] is
    0.  No getter fails. *)
Theorem getters_never_divide_by_zero (self : CDQ3D) :
  let denominator :=
    INR (_tot_TP self) + _tot_fp_cost self + INR (_tot_FN self) in
  (denominator = 0 -> get_current_score self = Ok 0) /\
  (denominator <> 0 ->
   get_current_score self = Ok (_tot_overall_quality self / denominator)) /\
  (forall scd, get_current_score (__init__ scd) = Ok 0) /\
  (_tot_TP self = 0%nat ->
   get_avg_spatial_score self = Ok 0 /\
   get_avg_label_score self = Ok 0 /\
   get_avg_state_score self = Ok 0 /\
   get_avg_overall_quality_score self = Ok 0) /\
  (_tot_TP self <> 0%nat ->
   get_avg_spatial_score self =
     Ok (_tot_spatial_quality self / INR (_tot_TP self)) /\
   get_avg_label_score self =
     Ok (_tot_label_quality self / INR (_tot_TP self)) /\
   get_avg_state_score self =
     Ok (_tot_state_quality self / INR (_tot_TP self)) /\
   get_avg_overall_quality_score self =
     Ok (_tot_overall_quality self / INR (_tot_TP self))) /\
  (_tot_FP self = 0%nat -> get_avg_fp_score self = Ok 1) /\
  (_tot_FP self <> 0%nat ->
   get_avg_fp_score self =
     Ok ((INR (_tot_FP self) - _tot_fp_cost self) / INR (_tot_FP self))).
Proof.
  intros denominator.
  unfold get_current_score, get_avg_spatial_score, get_avg_label_score,
    get_avg_state_score, get_avg_overall_quality_score, get_avg_fp_score.
  fold denominator.
  split; [|split; [|split; [|split; [|split; [|split]]]]].
  - intros H. destruct (Req_dec_T denominator 0); [reflexivity|contradiction].
  - intros H. destruct (Req_dec_T denominator 0); [contradiction|].
    apply py_div_nonzero; exact H.
  - intros scd. simpl. destruct (Req_dec_T (0 + 0 + 0) 0) as [|H]; [reflexivity|].
    exfalso; apply H; ring.
  - intros ->. simpl. repeat split.
  - intros H.
    assert (Hpos : (0 <? _tot_TP self)%nat = true) by (apply Nat.ltb_lt; lia).
    rewrite Hpos. pose proof (INR_pos_nonzero _ Hpos) as Hnz.
    repeat split; apply py_div_nonzero; exact Hnz.
  - intros ->. reflexivity.
  - intros H.
    assert (Hpos : (0 <? _tot_FP self)%nat = true) by (apply Nat.ltb_lt; lia).
    rewrite Hpos. apply py_div_nonzero, INR_pos_nonzero, Hpos.
Qed.

(** C8. [score L] leaves the object and returns the value that [reset]
    followed by [add_map_eval] on each pair of [L] in order and then
    [get_current_score] does, whatever the object held before; so a second
    [score L] on the object the first one left gives the same result and the
    same object. *)
Theorem score_is_reset_then_add_each
  (param_lists : list (list GtInstance * list DetInstance)) (self : CDQ3D) :
  score param_lists self =
  (reset ;;;
   for_each param_lists
     (fun map_params => add_map_eval (fst map_params) (snd map_params)) ;;;
   reading get_current_score) self
  /\ score param_lists (snd (score param_lists self)) = score param_lists self.
Proof.
  split.
  - apply score_unfold.
  - apply score_depends_on_mode, score_scd_mode.
Qed.

End ScoreTheorems.

(* ================================================================== *)
(** * Maps evaluated without scene-change mode, and empty maps *)

Section MapFacts.

Context {collab : Collaborators}.

Lemma calc_qual_map_state_off (gts : list GtInstance) (dets : list DetInstance)
  (r : MapResults) :
  _calc_qual_map gts dets false = Ok r -> state_change r = 0.
Proof.
  unfold _calc_qual_map, _calc_qual_map_from. intros H.
  destruct ((length gts =? 0)%nat || (length dets =? 0)%nat).
  - bind_inv H as c Ec. inversion H; reflexivity.
  - bind_inv H as ct Ect.
    destruct (gen_cost_tables_ok gts dets false ct Ect) as (_ & _ & _ & _ & _ & _ & Hst).
    simpl in Hst.
    destruct (linear_sum_assignment (ct_overall ct)) as [rows cols].
    bind_inv H as cnt Ecnt. destruct cnt as [[[tp fp] fn] idxs].
    bind_inv H as picked Epicked.
    bind_inv H as picked_spatial Espatial.
    bind_inv H as picked_label Elabel.
    bind_inv H as picked_state Estate.
    bind_inv H as costs Ecosts.
    inversion H; subst r; clear H. cbn [state_change].
    rewrite Hst in Estate.
    apply (fancy_get_all_zero _ _ _ _
             (all_zero_mask _ _ (all_zero_quality_of_ones _ _)) Estate).
Qed.

Lemma add_map_eval_state_zero (gts : list GtInstance) (dets : list DetInstance)
  (self : CDQ3D) :
  state_total_zero self -> state_total_zero (snd (add_map_eval gts dets self)).
Proof.
  intros [Hmode Hzero]. unfold add_map_eval, mbind, reading, assign.
  rewrite Hmode.
  destruct (_calc_qual_map gts dets false) as [r|e] eqn:E; simpl.
  - split; [reflexivity || exact Hmode|]. simpl.
    rewrite Hzero, (calc_qual_map_state_off _ _ _ E). ring.
  - split; assumption.
Qed.

Lemma run_calls_state_zero (cs : list call) (self : CDQ3D) :
  state_total_zero self -> state_total_zero (run_calls cs self).
Proof.
  unfold run_calls. revert self; induction cs as [|c cs IH]; intros self H.
  - exact H.
  - simpl. apply IH. destruct c as [|gts dets|l]; simpl.
    + split; [apply H | reflexivity].
    + apply add_map_eval_state_zero, H.
    + apply (score_preserves state_total_zero).
      * intros gts dets s. apply add_map_eval_state_zero.
      * split; [apply H | reflexivity].
Qed.

(** C10. Without scene-change mode the ['state_change'] entry of every
    map's results is exactly 0, and so [get_avg_state_score] returns 0 after
    any sequence of [reset], [add_map_eval] and [score] calls on an object
    constructed with the mode off, whatever the number of true positives. *)
Theorem state_score_is_zero_without_scd :
  (forall gts dets r, _calc_qual_map gts dets false = Ok r -> state_change r = 0) /\
  (forall cs, get_avg_state_score (run_calls cs (__init__ false)) = Ok 0).
Proof.
  split; [apply calc_qual_map_state_off|].
  intros cs.
  destruct (run_calls_state_zero cs (__init__ false)) as [_ Hz];
    [split; reflexivity|].
  unfold get_avg_state_score. rewrite Hz.
  destruct (0 <? _tot_TP (run_calls cs (__init__ false)))%nat eqn:Hpos;
    [|reflexivity].
  rewrite py_div_nonzero by (apply INR_pos_nonzero, Hpos).
  f_equal. unfold Rdiv. ring.
Qed.

Lemma removelast_nonempty {A : Type} (l : list A) :
  (2 <= length l)%nat -> removelast l <> [].
Proof.
  destruct l as [|a [|b l]]; simpl; try lia. discriminate.
Qed.

Lemma mapM_Forall2 {A B : Type} (f : A -> res B) (l : list A) (l' : list B) :
  mapM f l = Ok l' -> Forall2 (fun a b => f a = Ok b) l l'.
Proof.
  revert l'; induction l as [|a l IH]; simpl; intros l' H.
  - inversion H; constructor.
  - bind_inv H as b Eb. bind_inv H as bs Ebs. inversion H; subst.
    constructor; [exact Eb | apply IH, Ebs].
Qed.

Lemma max_label_prob_total (det : DetInstance) :
  (2 <= length (det_prob_dist det))%nat -> exists c, max_label_prob det = Ok c.
Proof.
  intros H. apply np_max_total, removelast_nonempty, H.
Qed.

(** C4. A map with no ground truth or no detection is evaluated without
    the assignment solver (the result is the same for all collaborators):
    the overall, spatial, label and state sums are 0, TP is 0, FP is the
    number of detections, FN the number of ground truths, and the FP cost is
    the sum over all detections of the greatest label probability outside the
    final (background) class, with or without scene-change mode.  Every
    detection is taken to have at least one class besides the background. *)
Theorem empty_map_results (gts : list GtInstance) (dets : list DetInstance)
  (scd : bool) :
  gts = [] \/ dets = [] ->
  Forall (fun det => (2 <= length (det_prob_dist det))%nat) dets ->
  exists costs,
    Forall2 (fun det c => greatest c (all_but_last (det_prob_dist det))) dets costs /\
    _calc_qual_map gts dets scd =
    Ok {| overall := 0; spatial := 0; label := 0; fp_cost := np_sum costs;
          TP := 0; FP := length dets; FN := length gts; state_change := 0 |}.
Proof.
  intros Hempty Hwf.
  destruct (mapM_total max_label_prob dets) as [costs Hcosts].
  { apply Forall_impl with (2 := Hwf). intros det. apply max_label_prob_total. }
  exists costs. split.
  - apply mapM_Forall2 in Hcosts.
    apply Forall2_impl with (2 := Hcosts). intros det c Hc.
    apply np_max_greatest, Hc.
  - unfold _calc_qual_map, _calc_qual_map_from.
    assert (Htest : (length gts =? 0)%nat || (length dets =? 0)%nat = true).
    { destruct Hempty as [-> | ->]; simpl; [reflexivity | apply orb_true_r]. }
    rewrite Htest.
    destruct dets as [|det dets].
    + simpl in Hcosts. inversion Hcosts; subst. reflexivity.
    + cbn [length Nat.ltb Nat.leb]. rewrite Hcosts. reflexivity.
Qed.

End MapFacts.

(* ================================================================== *)
(** * The overall quality of a pair *)

Lemma Forall_map2 {A B C : Type} (P : A -> Prop) (Q : B -> Prop) (S : C -> Prop)
  (F : A -> B -> C) (l1 : list A) (l2 : list B) :
  (forall a b, P a -> Q b -> S (F a b)) ->
  Forall P l1 -> Forall Q l2 -> Forall S (map2 F l1 l2).
Proof.
  intros HF H1. revert l2. unfold map2.
  induction H1 as [|a l1 Ha _ IH]; intros l2 H2; [constructor|].
  destruct H2 as [|b l2 Hb H2]; simpl; [constructor|].
  constructor; [apply HF; assumption | apply IH, H2].
Qed.

(** [_calc_overall_qual] raises on no matrices of non-negative entries. *)
Lemma calc_overall_qual_total (L S : matrix) (St : option matrix) :
  nonneg_entries L -> nonneg_entries S ->
  (forall M, St = Some M -> nonneg_entries M) ->
  exists O, _calc_overall_qual L S St = Ok O.
Proof.
  intros HL HS HSt. unfold _calc_overall_qual.
  assert (H2 : Forall (Forall (fun c : list R =>
                 c <> [] /\ Forall (fun x => 0 <= x) c)) (dstack2 L S)).
  { unfold dstack2.
    apply (Forall_map2 (Forall (fun x => 0 <= x)) (Forall (fun x => 0 <= x)));
      [|assumption..].
    intros rl rs Hrl Hrs.
    apply (Forall_map2 (fun x => 0 <= x) (fun x => 0 <= x)); [|assumption..].
    intros a b Ha Hb. split; [discriminate|].
    constructor; [exact Ha | constructor; [exact Hb | constructor]]. }
  assert (Hgo : forall grid : list (list (list R)),
            Forall (Forall (fun c : list R =>
                 c <> [] /\ Forall (fun x => 0 <= x) c)) grid ->
            exists O, mapM (mapM gmean) grid = Ok O).
  { intros grid Hgrid. apply mapM_total.
    apply Forall_impl with (2 := Hgrid). intros row Hrow.
    apply mapM_total. apply Forall_impl with (2 := Hrow).
    intros c [Hne Hc]. apply gmean_total; assumption. }
  destruct St as [M|]; apply Hgo; [|exact H2].
  unfold dstack3.
  apply (Forall_map2
           (Forall (fun c : list R => c <> [] /\ Forall (fun x => 0 <= x) c))
           (Forall (fun x => 0 <= x))); [|exact H2|apply HSt; reflexivity].
  intros rc rm Hrc Hrm.
  apply (Forall_map2 (fun c : list R => c <> [] /\ Forall (fun x => 0 <= x) c)
           (fun x => 0 <= x)); [|assumption..].
  intros c x [Hne Hc] Hx. split.
  - destruct c; [congruence | discriminate].
  - apply Forall_app; split; [exact Hc | constructor; [exact Hx | constructor]].
Qed.

Section Quality.

Context {collab : Collaborators}.

Lemma real_cell_cost {A B : Type} (f : A -> B -> R) (la : list A) (lb : list B)
  (i j : nat) (a : A) (b : B) :
  nth_error la i = Some a -> nth_error lb j = Some b ->
  let n := Nat.max (length la) (length lb) in
  cell (sub_block (np_ones n n) (outer f la lb)) i j = 1 - f a b.
Proof.
  intros Ha Hb n.
  assert (Hi : (i < length la)%nat) by (apply nth_error_Some; congruence).
  assert (Hj : (j < length lb)%nat) by (apply nth_error_Some; congruence).
  unfold n. rewrite cost_table_cell by lia.
  rewrite cell_outer, Ha, Hb. reflexivity.
Qed.

(** C5. The overall quality of every ground-truth/detection pair is the
    geometric mean of its components: the non-negative number whose square
    is the product of label and spatial quality without scene-change mode,
    and whose cube is the product of label, spatial and state quality with
    it.  A component that is exactly 0 makes the overall quality 0, and
    [_calc_overall_qual] fails on no matrices of non-negative entries, zeros
    included.  The qualities are read off the cost tables ([1 - cost]). *)
Theorem overall_quality_is_geometric_mean (gts : list GtInstance)
  (dets : list DetInstance) (scd : bool) (ct : CostTables) :
  _gen_cost_tables gts dets scd = Ok ct ->
  (forall i j g d,
     nth_error gts i = Some g -> nth_error dets j = Some d ->
     let l := 1 - cell (ct_label ct) i j in
     let s := 1 - cell (ct_spatial ct) i j in
     let st := 1 - cell (ct_state ct) i j in
     let o := 1 - cell (ct_overall ct) i j in
     pair_label_quality g d = Ok l /\
     pair_spatial_quality g d = s /\
     (scd = true -> pair_state_quality g d = Ok st) /\
     pair_overall_quality scd g d = Ok o /\
     0 <= o /\
     (if scd then o ^ 3 = l * s * st else o ^ 2 = l * s) /\
     (l = 0 \/ s = 0 \/ (scd = true /\ st = 0) -> o = 0)) /\
  (forall L S St,
     nonneg_entries L -> nonneg_entries S ->
     (forall M, St = Some M -> nonneg_entries M) ->
     exists O, _calc_overall_qual L S St = Ok O).
Proof.
  intros H. split; [|apply calc_overall_qual_total].
  destruct (gen_cost_tables_ok gts dets scd ct H)
    as (_ & _ & Hq & Hov & Hsp & Hla & Hst).
  intros i j g d Hg Hd. cbv zeta.
  rewrite Hov, Hsp, Hla, Hst.
  rewrite !(real_cell_cost _ gts dets i j g d Hg Hd).
  destruct (Hq g d (nth_error_In _ _ Hg) (nth_error_In _ _ Hd)) as (Hl & Ho & Hs).
  replace (1 - (1 - label_quality g d)) with (label_quality g d) by ring.
  replace (1 - (1 - pair_spatial_quality g d)) with (pair_spatial_quality g d) by ring.
  replace (1 - (1 - overall_quality scd g d)) with (overall_quality scd g d) by ring.
  split; [exact Hl|]. split; [reflexivity|].
  pose proof Ho as Hgm. unfold pair_overall_quality in Hgm.
  rewrite Hl in Hgm. cbn [bind] in Hgm.
  destruct scd.
  - rewrite (real_cell_cost _ gts dets i j g d Hg Hd).
    replace (1 - (1 - state_quality g d)) with (state_quality g d) by ring.
    rewrite (Hs eq_refl) in Hgm. cbn [bind] in Hgm.
    destruct (gmean_ok _ _ Hgm) as (_ & Hnn & Hpow & Hzero).
    split; [intros _; apply Hs; reflexivity|].
    split; [exact Ho|]. split; [exact Hnn|]. split.
    + cbn [length] in Hpow. rewrite Hpow. unfold product; simpl; ring.
    + intros [Hz|[Hz|[_ Hz]]]; apply Hzero; rewrite <- Hz; simpl; auto.
  - destruct (gmean_ok _ _ Hgm) as (_ & Hnn & Hpow & Hzero).
    split; [discriminate|].
    split; [exact Ho|]. split; [exact Hnn|]. split.
    + cbn [length] in Hpow. rewrite Hpow. unfold product; simpl; ring.
    + intros [Hz|[Hz|[Hf _]]]; [| |discriminate];
        apply Hzero; rewrite <- Hz; simpl; auto.
Qed.

End Quality.

(* ================================================================== *)
(** * Ranges *)

Lemma get_in {A : Type} (l : list A) (i : nat) (a : A) : get l i = Ok a -> In a l.
Proof.
  intros H. apply get_nth_error in H. apply nth_error_In in H. exact H.
Qed.

Lemma py_get_in {A : Type} (l : list A) (k : Z) (a : A) :
  py_get l k = Ok a -> In a l.
Proof.
  unfold py_get. intros H. bind_inv H as i Ei. apply get_in in H. exact H.
Qed.

Lemma outer_entries {A B : Type} (P : R -> Prop) (f : A -> B -> R)
  (la : list A) (lb : list B) :
  (forall a b, In a la -> In b lb -> P (f a b)) ->
  Forall (Forall P) (outer f la lb).
Proof.
  intros H. unfold outer. apply Forall_map, Forall_forall; intros a Ha.
  apply Forall_map, Forall_forall; intros b Hb. apply H; assumption.
Qed.

Lemma sub_prefix_in_unit (t q : list R) :
  Forall (fun x => x = 1) t -> Forall in_unit q -> Forall in_unit (sub_prefix t q).
Proof.
  intros Ht. revert q. induction Ht as [|x t -> Ht' IH]; intros q Hq; [constructor|].
  destruct Hq as [|y q Hy Hq]; simpl.
  - constructor; [unfold in_unit; lra|].
    apply Forall_impl with (2 := Ht').
    intros x ->; unfold in_unit; lra.
  - constructor; [unfold in_unit in *; lra | apply IH, Hq].
Qed.

Lemma cost_table_in_unit (n m : nat) (Q : matrix) :
  entries_in_unit Q -> entries_in_unit (sub_block (np_ones n m) Q).
Proof.
  unfold entries_in_unit, np_ones. revert Q.
  induction n as [|n IH]; intros Q HQ; simpl; [constructor|].
  assert (Hrow : Forall (fun x => x = 1) (repeat 1 m))
    by (apply Forall_forall; intros x Hx; apply repeat_spec in Hx; exact Hx).
  destruct HQ as [|q Q Hq HQ].
  - constructor.
    + apply Forall_impl with (2 := Hrow). intros x ->; unfold in_unit; lra.
    + apply Forall_forall; intros row Hr. apply repeat_spec in Hr; subst row.
      apply Forall_impl with (2 := Hrow). intros x ->; unfold in_unit; lra.
  - constructor; [apply sub_prefix_in_unit; assumption | apply IH, HQ].
Qed.

Lemma ones_in_unit (n m : nat) : entries_in_unit (np_ones n m).
Proof.
  unfold entries_in_unit, np_ones.
  apply Forall_forall; intros row Hr. apply repeat_spec in Hr; subst row.
  apply Forall_forall; intros x Hx. apply repeat_spec in Hx; subst x.
  unfold in_unit; lra.
Qed.

Lemma one_minus_in_unit (M : matrix) :
  entries_in_unit M -> entries_in_unit (one_minus M).
Proof.
  unfold entries_in_unit, one_minus. intros H.
  apply Forall_map. apply Forall_impl with (2 := H). intros row Hrow.
  apply Forall_map. apply Forall_impl with (2 := Hrow).
  unfold in_unit; intros x Hx; lra.
Qed.

Section Ranges.

Context {collab : Collaborators}.

(** C9. When every probability of every detection lies in [[0,1]] and the
    IoU tool returns values in [[0,1]], every entry of the label, spatial,
    state (in scene-change mode) and overall quality matrices lies in
    [[0,1]], and so does every entry of the four cost tables ([1 - quality]
    on the real block, 1 on the padding) and of the quality tables computed
    back from them. *)
Theorem qualities_and_costs_in_unit (gts : list GtInstance)
  (dets : list DetInstance) (scd : bool) (ct : CostTables) :
  iou_in_unit -> probabilities_in_unit dets ->
  _gen_cost_tables gts dets scd = Ok ct ->
  let n := Nat.max (length gts) (length dets) in
  (forall g d, In g gts -> In d dets ->
     exists l o,
       pair_label_quality g d = Ok l /\ in_unit l /\
       in_unit (pair_spatial_quality g d) /\
       pair_overall_quality scd g d = Ok o /\ in_unit o /\
       (scd = true -> exists st, pair_state_quality g d = Ok st /\ in_unit st)) /\
  (entries_in_unit (outer label_quality gts dets) /\
   entries_in_unit (outer pair_spatial_quality gts dets) /\
   entries_in_unit (outer (overall_quality scd) gts dets) /\
   (scd = true -> entries_in_unit (outer state_quality gts dets))) /\
  (ct_label ct = sub_block (np_ones n n) (outer label_quality gts dets) /\
   ct_spatial ct = sub_block (np_ones n n) (outer pair_spatial_quality gts dets) /\
   ct_overall ct = sub_block (np_ones n n) (outer (overall_quality scd) gts dets) /\
   ct_state ct = (if scd
                  then sub_block (np_ones n n) (outer state_quality gts dets)
                  else np_ones n n)) /\
  (entries_in_unit (ct_label ct) /\ entries_in_unit (ct_spatial ct) /\
   entries_in_unit (ct_overall ct) /\ entries_in_unit (ct_state ct)) /\
  (entries_in_unit (one_minus (ct_label ct)) /\
   entries_in_unit (one_minus (ct_spatial ct)) /\
   entries_in_unit (one_minus (ct_overall ct)) /\
   entries_in_unit (one_minus (ct_state ct))).
Proof.
  intros Hiou Hprob H n.
  destruct (gen_cost_tables_ok gts dets scd ct H)
    as (_ & _ & Hq & Hov & Hsp & Hla & Hst).
  fold n in Hov, Hsp, Hla, Hst.
  unfold probabilities_in_unit in Hprob. rewrite Forall_forall in Hprob.
  assert (Hl : forall g d, In g gts -> In d dets -> in_unit (label_quality g d)).
  { intros g d Hg Hd. destruct (Hq g d Hg Hd) as (Hl & _).
    apply py_get_in in Hl. destruct (Hprob d Hd) as [HP _].
    rewrite Forall_forall in HP. apply HP, Hl. }
  assert (Hs : forall g d, In g gts -> In d dets ->
                           in_unit (pair_spatial_quality g d)).
  { intros g d _ _. apply Hiou. }
  assert (Ht : scd = true -> forall g d, In g gts -> In d dets ->
                           in_unit (state_quality g d)).
  { intros Hscd g d Hg Hd. destruct (Hq g d Hg Hd) as (_ & _ & Hsq).
    specialize (Hsq Hscd). unfold pair_state_quality in Hsq.
    bind_inv Hsq as sid Esid. apply py_get_in in Hsq.
    destruct (Hprob d Hd) as [_ HP]. rewrite Forall_forall in HP. apply HP, Hsq. }
  assert (Ho : forall g d, In g gts -> In d dets ->
                           in_unit (overall_quality scd g d)).
  { intros g d Hg Hd. destruct (Hq g d Hg Hd) as (Hlq & Hoq & Hsq).
    pose proof Hoq as Hgm. unfold pair_overall_quality in Hgm.
    rewrite Hlq in Hgm. cbn [bind] in Hgm.
    destruct scd.
    - rewrite (Hsq eq_refl) in Hgm. cbn [bind] in Hgm.
      apply (gmean_in_unit _ _) in Hgm; [exact Hgm|].
      constructor; [apply Hl; assumption|].
      constructor; [apply Hs; assumption|].
      constructor; [apply (Ht eq_refl); assumption | constructor].
    - apply (gmean_in_unit _ _) in Hgm; [exact Hgm|].
      constructor; [apply Hl; assumption|].
      constructor; [apply Hs; assumption | constructor]. }
  assert (HML : entries_in_unit (outer label_quality gts dets))
    by (apply outer_entries; exact Hl).
  assert (HMS : entries_in_unit (outer pair_spatial_quality gts dets))
    by (apply outer_entries; exact Hs).
  assert (HMO : entries_in_unit (outer (overall_quality scd) gts dets))
    by (apply outer_entries; exact Ho).
  assert (HMT : scd = true -> entries_in_unit (outer state_quality gts dets))
    by (intros Hscd; apply outer_entries; apply Ht; exact Hscd).
  assert (HCL : entries_in_unit (ct_label ct))
    by (rewrite Hla; apply cost_table_in_unit; exact HML).
  assert (HCS : entries_in_unit (ct_spatial ct))
    by (rewrite Hsp; apply cost_table_in_unit; exact HMS).
  assert (HCO : entries_in_unit (ct_overall ct))
    by (rewrite Hov; apply cost_table_in_unit; exact HMO).
  assert (HCT : entries_in_unit (ct_state ct)).
  { rewrite Hst. destruct scd; [|apply ones_in_unit].
    apply cost_table_in_unit, HMT; reflexivity. }
  split.
  { intros g d Hg Hd. destruct (Hq g d Hg Hd) as (Hlq & Hoq & Hsq).
    exists (label_quality g d), (overall_quality scd g d).
    split; [exact Hlq|]. split; [apply Hl; assumption|].
    split; [apply Hs; assumption|]. split; [exact Hoq|].
    split; [apply Ho; assumption|].
    intros Hscd. exists (state_quality g d).
    split; [apply Hsq, Hscd | apply Ht; assumption]. }
  split; [tauto|]. split; [tauto|]. split; [tauto|].
  repeat split; apply one_minus_in_unit; assumption.
Qed.

End Ranges.

(* ================================================================== *)
(** * Counting and summing over an assignment *)

Lemma count_split {A : Type} (p c : A -> bool) (l : list A) :
  (forall a, In a l -> p a = true -> c a = true) ->
  (count p l + count (fun a => negb (p a) && c a) l)%nat = count c l.
Proof.
  unfold count. induction l as [|a l IH]; intros H; [reflexivity|].
  assert (IH' := IH (fun x Hx => H x (or_intror Hx))).
  pose proof (H a (or_introl eq_refl)) as Ha.
  cbn [filter]. destruct (p a) eqn:Ep; cbn [negb andb].
  - rewrite Ha by reflexivity. cbn [length]. lia.
  - destruct (c a); cbn [length]; lia.
Qed.

Lemma count_map {A B : Type} (p : B -> bool) (f : A -> B) (l : list A) :
  count p (map f l) = count (fun a => p (f a)) l.
Proof.
  unfold count. induction l as [|a l IH]; [reflexivity|].
  cbn [map filter]. destruct (p (f a)); cbn [length]; rewrite IH; reflexivity.
Qed.

Lemma count_perm {A : Type} (p : A -> bool) (l l' : list A) :
  Permutation l l' -> count p l = count p l'.
Proof.
  unfold count. induction 1 as [|a l l' _ IH|a b l|l1 l2 l3 _ IH1 _ IH2].
  - reflexivity.
  - cbn [filter]. destruct (p a); cbn [length]; rewrite IH; reflexivity.
  - cbn [filter]. destruct (p a), (p b); reflexivity.
  - congruence.
Qed.

Lemma count_below_seq (b s n : nat) :
  count (fun i => (i <? b)%nat) (seq s n) = Nat.min (b - s) n.
Proof.
  unfold count. revert s; induction n as [|n IH]; intros s.
  - rewrite Nat.min_0_r. reflexivity.
  - cbn [seq filter]. destruct (s <? b)%nat eqn:E.
    + apply Nat.ltb_lt in E. cbn [length]. rewrite IH. lia.
    + apply Nat.ltb_ge in E. rewrite IH. lia.
Qed.

Lemma map_fst_combine {A B : Type} (l1 : list A) (l2 : list B) :
  length l1 = length l2 -> map fst (combine l1 l2) = l1.
Proof.
  revert l2; induction l1 as [|a l1 IH]; intros [|b l2] H;
    simpl in *; try lia; [reflexivity|].
  f_equal. apply IH. lia.
Qed.

Lemma map_snd_combine {A B : Type} (l1 : list A) (l2 : list B) :
  length l1 = length l2 -> map snd (combine l1 l2) = l2.
Proof.
  revert l2; induction l1 as [|a l1 IH]; intros [|b l2] H;
    simpl in *; try lia; [reflexivity|].
  f_equal. apply IH. lia.
Qed.

Lemma np_sum_one_minus {A : Type} (f : A -> R) (l : list A) :
  np_sum (map (fun a => 1 - f a) l) = INR (length l) - np_sum (map f l).
Proof.
  unfold np_sum. induction l as [|a l IH].
  - simpl; ring.
  - cbn [map fold_right]. rewrite IH.
    change (length (a :: l)) with (S (length l)). rewrite S_INR. ring.
Qed.

Lemma np_sum_map_ext {A : Type} (f h : A -> R) (l : list A) :
  (forall a, In a l -> f a = h a) -> np_sum (map f l) = np_sum (map h l).
Proof.
  intros H. f_equal. apply map_ext_in. exact H.
Qed.

Lemma is_pos_true (x : R) : is_pos x = true <-> 0 < x.
Proof.
  unfold is_pos. destruct (Rlt_dec 0 x); split; intros; try assumption;
    try reflexivity; try discriminate; contradiction.
Qed.

Lemma is_zero_true (x : R) : is_zero x = true <-> x = 0.
Proof.
  unfold is_zero. destruct (Req_dec_T x 0); split; intros; try assumption;
    try reflexivity; try discriminate; contradiction.
Qed.

Lemma not_pos_is_zero (x : R) : 0 <= x -> negb (is_pos x) = is_zero x.
Proof.
  intros H. unfold is_pos, is_zero.
  destruct (Rlt_dec 0 x), (Req_dec_T x 0); simpl; try reflexivity; lra.
Qed.

Section PaddedQuality.

Context {collab : Collaborators}.

Lemma padded_quality_nonneg (scd : bool) (gts : list GtInstance)
  (dets : list DetInstance) (i j : nat) :
  0 <= padded_quality scd gts dets i j.
Proof.
  unfold padded_quality.
  destruct (nth_error gts i) as [g|]; [|lra].
  destruct (nth_error dets j) as [d|]; [|lra].
  destruct (pair_overall_quality scd g d) as [q|e] eqn:E; [|lra].
  unfold pair_overall_quality in E. bind_inv E as l El.
  destruct scd.
  - bind_inv E as st Est. apply gmean_ok in E. tauto.
  - apply gmean_ok in E. tauto.
Qed.

Lemma padded_quality_pos (scd : bool) (gts : list GtInstance)
  (dets : list DetInstance) (i j : nat) :
  0 < padded_quality scd gts dets i j ->
  (i < length gts)%nat /\ (j < length dets)%nat.
Proof.
  unfold padded_quality. intros H.
  destruct (nth_error gts i) as [g|] eqn:Eg; [|lra].
  destruct (nth_error dets j) as [d|] eqn:Ed; [|lra].
  split; apply nth_error_Some; congruence.
Qed.

End PaddedQuality.

(* ================================================================== *)
(** * Results on the evaluation of a non-empty map *)

Section MatchingTheorems.

Context {collab : Collaborators}.

Hypothesis solver_ok : solver_contract collab.

Lemma matching_cost_quality (gts : list GtInstance) (dets : list DetInstance)
  (scd : bool) (p : list nat) :
  let n := Nat.max (length gts) (length dets) in
  Permutation p (seq 0 n) ->
  assignment_total
    (sub_block (np_ones n n) (outer (overall_quality scd) gts dets)) (seq 0 n) p =
  INR n - matching_quality (padded_quality scd gts dets) n p.
Proof.
  intros n Hp. unfold assignment_total, matching_quality.
  rewrite (np_sum_map_ext _
             (fun m => 1 - padded_quality scd gts dets (fst m) (snd m))).
  - rewrite np_sum_one_minus. f_equal.
    rewrite length_combine, length_seq, (Permutation_length Hp), length_seq.
    rewrite Nat.min_id. reflexivity.
  - intros m Hm. destruct (combine_seq_in n p m Hp Hm) as [Hi Hj].
    unfold n. rewrite cost_table_cell by assumption.
    rewrite cell_overall_padded. reflexivity.
Qed.


(** C2. On a map with [g > 0] ground truths and [d > 0] detections,
    [TP + FN = g] and [TP + FP = d]: every real row and every real column of
    the padded table is matched once and counted once. *)
Theorem counts_cover_rows_and_columns (gts : list GtInstance)
  (dets : list DetInstance) (scd : bool) (r : MapResults) :
  gts <> [] -> dets <> [] ->
  _calc_qual_map gts dets scd = Ok r ->
  (TP r + FN r = length gts)%nat /\ (TP r + FP r = length dets)%nat.
Proof.
  intros Hg Hd H.
  destruct (calc_qual_map_nonempty solver_ok gts dets scd r Hg Hd H)
    as (ct & cols & costs & _ & _ & (_ & Hperm & _) & _ & _ & HTP & HFP & HFN & _).
  cbn [snd] in Hperm.
  set (n := Nat.max (length gts) (length dets)) in *.
  set (pairs := combine (seq 0 n) cols) in *.
  assert (Hlen : length (seq 0 n) = length cols)
    by (rewrite (Permutation_length Hperm); reflexivity).
  rewrite HTP, HFP, HFN. split.
  - rewrite (count_split _ (fun m => (fst m <? length gts)%nat)).
    + rewrite <- (count_map (fun i => (i <? length gts)%nat) fst).
      unfold pairs. rewrite (map_fst_combine _ _ Hlen), count_below_seq. lia.
    + intros m _ Hpos. apply is_pos_true, padded_quality_pos in Hpos.
      apply Nat.ltb_lt. tauto.
  - rewrite (count_split _ (fun m => (snd m <? length dets)%nat)).
    + rewrite <- (count_map (fun j => (j <? length dets)%nat) snd).
      unfold pairs. rewrite (map_snd_combine _ _ Hlen).
      rewrite (count_perm _ _ _ Hperm), count_below_seq. lia.
    + intros m _ Hpos. apply is_pos_true, padded_quality_pos in Hpos.
      apply Nat.ltb_lt. tauto.
Qed.

End MatchingTheorems.

Section FalsePositiveCost.

Context {collab : Collaborators}.

Hypothesis solver_ok : solver_contract collab.


End FalsePositiveCost.

(* ================================================================== *)
(** * Well-formed maps are evaluated without failure *)

Lemma np_stack_total (rows : list (list R)) (k : nat) :
  rows <> [] -> Forall (fun r => length r = k) rows -> np_stack rows = Ok rows.
Proof.
  intros Hne HF. unfold np_stack. destruct rows as [|r rows]; [congruence|].
  inversion HF as [|? ? Hr HF']; subst.
  assert (Hall : forallb (fun r' => (length r' =? length r)%nat) rows = true).
  { apply forallb_forall. intros r' Hr'. rewrite Forall_forall in HF'.
    rewrite (HF' r' Hr'). apply Nat.eqb_refl. }
  rewrite Hall. reflexivity.
Qed.

Lemma py_get_total {A : Type} (l : list A) (k : Z) :
  (0 <= k < Z.of_nat (length l))%Z -> exists a, py_get l k = Ok a.
Proof.
  intros [H0 H1]. unfold py_get, py_index.
  apply Z.leb_le in H0. rewrite H0.
  pose proof H1 as H1'. apply Z.ltb_lt in H1'. rewrite H1'. cbn [bind].
  unfold get. destruct (nth_error l (Z.to_nat k)) as [a|] eqn:E.
  - exists a; reflexivity.
  - apply nth_error_None in E. apply Z.leb_le in H0. lia.
Qed.

Lemma greatest_in_unit (a : R) (l : list R) :
  Forall in_unit (l ++ []) -> greatest a (removelast l) -> in_unit a.
Proof.
  rewrite app_nil_r. intros HF [Hin _]. rewrite Forall_forall in HF.
  apply HF. clear HF. revert Hin. induction l as [|x l IH]; simpl; [tauto|].
  destruct l as [|y l]; [simpl; tauto|].
  intros [<-|H]; [left; reflexivity | right; apply IH, H].
Qed.

Section Totality.

Context {collab : Collaborators}.

Hypothesis solver_ok : solver_contract collab.
Hypothesis iou_ok : iou_in_unit.

Lemma fp_cost_of_total (classes : nat) (scd : bool) (det : DetInstance) :
  (2 <= classes)%nat -> wf_det classes scd det ->
  exists cost, fp_cost_of scd det = Ok cost.
Proof.
  intros Hc (Hlen & Hprob & Hstate). unfold fp_cost_of.
  destruct (np_max_total (all_but_last (det_prob_dist det))) as [a Ea].
  { apply removelast_nonempty. lia. }
  destruct scd; [|exists a; exact Ea].
  destruct (Hstate eq_refl) as [Hslen Hsprob].
  destruct (np_max_total (all_but_last (det_state_probs det))) as [b Eb].
  { apply removelast_nonempty. lia. }
  unfold scd_fp_cost. rewrite Ea, Eb. cbn [bind].
  apply gmean_total; [discriminate|].
  apply np_max_greatest in Ea, Eb.
  apply greatest_in_unit in Ea; [|rewrite app_nil_r; exact Hprob].
  apply greatest_in_unit in Eb; [|rewrite app_nil_r; exact Hsprob].
  unfold in_unit in *.
  constructor; [lra | constructor; [lra | constructor]].
Qed.

Lemma gen_cost_tables_total (classes : nat) (scd : bool)
  (gts : list GtInstance) (dets : list DetInstance) :
  wf_map classes scd gts dets -> gts <> [] -> dets <> [] ->
  exists ct, _gen_cost_tables gts dets scd = Ok ct.
Proof.
  intros (Hc & Hgts & Hdets) Hg Hd.
  rewrite Forall_forall in Hgts, Hdets.
  unfold _gen_cost_tables.
  (* the vectors *)
  assert (Hids : exists ids, (if scd
            then mapM (fun g => dict_get _STATE_IDS (gt_state g)) gts
            else Ok (map (fun _ => (-1)%Z) gts)) = Ok ids).
  { destruct scd; [|eexists; reflexivity].
    apply mapM_total, Forall_forall. intros g Hin.
    destruct (Hgts g Hin) as [_ Hs]. apply Hs; reflexivity. }
  destruct Hids as [ids Eids].
  assert (Evg : _vectorize_map_gts gts scd =
                Ok (map gt_box gts, map gt_class_id gts, ids)).
  { unfold _vectorize_map_gts. rewrite Eids. reflexivity. }
  rewrite Evg. cbn [bind].
  assert (Estl : np_stack (map det_prob_dist dets) = Ok (map det_prob_dist dets)).
  { apply (np_stack_total _ classes).
    - destruct dets; [congruence | discriminate].
    - apply Forall_map, Forall_forall. intros d Hin. apply (Hdets d Hin). }
  assert (Hsm : exists smat, (if scd then np_stack (map det_state_probs dets)
            else Ok (mat_scale (np_ones (length dets) 3) (-1))) = Ok smat /\
            (scd = true -> smat = map det_state_probs dets)).
  { destruct scd; [|eexists; split; [reflexivity|discriminate]].
    exists (map det_state_probs dets). split; [|reflexivity].
    apply (np_stack_total _ 3).
    - destruct dets; [congruence | discriminate].
    - apply Forall_map, Forall_forall. intros d Hin.
      destruct (Hdets d Hin) as (_ & _ & Hs). apply Hs; reflexivity. }
  destruct Hsm as (smat & Esm & Hsmat).
  assert (Evd : _vectorize_map_dets dets scd =
                Ok (map det_box dets, map det_prob_dist dets, smat)).
  { unfold _vectorize_map_dets. rewrite Estl. cbn [bind]. rewrite Esm. reflexivity. }
  rewrite Evd. cbn [bind].
  (* label quality *)
  destruct (mapM2_total (fun k row => py_get row k)
              (map gt_class_id gts) (map det_prob_dist dets)) as [L EL].
  { intros k row Hk Hrow. apply in_map_iff in Hk, Hrow.
    destruct Hk as (g & <- & Hgin). destruct Hrow as (d & <- & Hdin).
    apply py_get_total. destruct (Hdets d Hdin) as (-> & _).
    apply (Hgts g Hgin). }
  assert (EL' : _calc_label_qual (map gt_class_id gts) (map det_prob_dist dets)
                = Ok L) by exact EL.
  rewrite EL'. cbn [bind].
  destruct (calc_label_qual_ok gts dets L EL') as [-> Hlab].
  rewrite calc_spatial_qual_outer.
  (* state quality *)
  assert (Hst : exists sq, _calc_state_change_qual ids smat = Ok sq /\
            sq = (if scd then Some (outer state_quality gts dets) else None) /\
            (scd = true -> forall g d, In g gts -> In d dets ->
               pair_state_quality g d = Ok (state_quality g d))).
  { destruct scd.
    - destruct (mapM_ok 0%Z _ _ _ Eids) as [-> Hidok].
      rewrite Forall_forall in Hidok. rewrite (Hsmat eq_refl).
      assert (Hex : exists sq,
        _calc_state_change_qual
          (map (fun g => val 0%Z (dict_get _STATE_IDS (gt_state g))) gts)
          (map det_state_probs dets) = Ok sq).
      { unfold _calc_state_change_qual.
        destruct (np_max_int (map (fun g => val 0%Z (dict_get _STATE_IDS (gt_state g))) gts))
          as [top|e] eqn:Etop.
        2:{ destruct gts; [congruence | discriminate]. }
        cbn [bind]. destruct (top =? -1)%Z; [eexists; reflexivity|].
        destruct (mapM2_total (fun k row => py_get row k)
              (map (fun g => val 0%Z (dict_get _STATE_IDS (gt_state g))) gts)
              (map det_state_probs dets)) as [M EM].
        { intros k row Hk Hrow. apply in_map_iff in Hk, Hrow.
          destruct Hk as (g & <- & Hgin). destruct Hrow as (d & <- & Hdin).
          apply py_get_total. destruct (Hdets d Hdin) as (_ & _ & Hs).
          destruct (Hs eq_refl) as [-> _].
          pose proof (STATE_IDS_range _ _ (Hidok g Hgin)). simpl. lia. }
        unfold select_columns_T. rewrite EM. eexists; reflexivity. }
      destruct Hex as [sq Esq]. exists sq. split; [exact Esq|].
      destruct (calc_state_change_qual_on gts dets sq Hidok Esq) as (_ & -> & Hs).
      split; [reflexivity | intros _; exact Hs].
    - exists None. inversion Eids; subst ids.
      split; [apply calc_state_change_qual_off, Hg|].
      split; [reflexivity | discriminate]. }
  destruct Hst as (sq & Esq & -> & Hstq).
  rewrite Esq. cbn [bind].
  (* overall quality *)
  assert (Hlu : forall g d, In g gts -> In d dets -> 0 <= label_quality g d).
  { intros g d Hgin Hdin. pose proof (Hlab g d Hgin Hdin) as Hl.
    apply py_get_in in Hl. destruct (Hdets d Hdin) as (_ & HP & _).
    rewrite Forall_forall in HP. apply (HP _ Hl). }
  destruct (calc_overall_qual_total (outer label_quality gts dets)
              (outer pair_spatial_quality gts dets)
              (if scd then Some (outer state_quality gts dets) else None))
    as [O EO].
  { apply outer_entries. exact Hlu. }
  { apply outer_entries. intros g d _ _. apply iou_ok. }
  { intros M HM. destruct scd; [|discriminate]. inversion HM; subst M.
    apply outer_entries. intros g d Hgin Hdin.
    pose proof (Hstq eq_refl g d Hgin Hdin) as Hs.
    unfold pair_state_quality in Hs. bind_inv Hs as sid Esid.
    apply py_get_in in Hs. destruct (Hdets d Hdin) as (_ & _ & HS).
    destruct (HS eq_refl) as [_ HP]. rewrite Forall_forall in HP. apply (HP _ Hs). }
  rewrite EO. cbn [bind].
  destruct scd; cbn [bind]; eexists; reflexivity.
Qed.

End Totality.

Lemma list_eq_dec_empty {A B : Type} (la : list A) (lb : list B) :
  (la = [] \/ lb = []) \/ (la <> [] /\ lb <> []).
Proof.
  destruct la, lb; try (left; auto; fail). right; split; discriminate.
Qed.

Section MapTotality.

Context {collab : Collaborators}.

Hypothesis solver_ok : solver_contract collab.
Hypothesis iou_ok : iou_in_unit.

Lemma calc_qual_map_empty_total (scd : bool)
  (gts : list GtInstance) (dets : list DetInstance) :
  gts = [] \/ dets = [] ->
  Forall (fun det => (2 <= length (det_prob_dist det))%nat) dets ->
  exists r, _calc_qual_map gts dets scd = Ok r.
Proof.
  intros Hempty Hwf.
  destruct (mapM_total max_label_prob dets) as [costs Hcosts].
  { apply Forall_impl with (2 := Hwf). intros det. apply max_label_prob_total. }
  unfold _calc_qual_map, _calc_qual_map_from.
  assert (Htest : (length gts =? 0)%nat || (length dets =? 0)%nat = true).
  { destruct Hempty as [-> | ->]; simpl; [reflexivity | apply orb_true_r]. }
  rewrite Htest.
  destruct dets as [|det dets].
  - eexists; reflexivity.
  - cbn [length Nat.ltb Nat.leb]. rewrite Hcosts. eexists; reflexivity.
Qed.

(** A well-formed map has results: no step of [_calc_qual_map] fails. *)
Lemma calc_qual_map_total (classes : nat) (scd : bool)
  (gts : list GtInstance) (dets : list DetInstance) :
  wf_map classes scd gts dets ->
  exists r, _calc_qual_map gts dets scd = Ok r.
Proof.
  intros Hwf. pose proof Hwf as (Hc & Hgts & Hdets).
  destruct (list_eq_dec_empty gts dets) as [Hempty|[Hg Hd]].
  - apply (calc_qual_map_empty_total scd gts dets Hempty).
    apply Forall_impl with (2 := Hdets). intros d (Hlen & _). lia.
  - destruct (gen_cost_tables_total iou_ok classes scd gts dets Hwf Hg Hd)
      as [ct Ect].
    unfold _calc_qual_map, _calc_qual_map_from. rewrite (nonempty_test gts dets Hg Hd), Ect.
    cbn [bind].
    destruct (gen_cost_tables_ok gts dets scd ct Ect)
      as (_ & _ & _ & Hov & Hsp & Hla & Hst).
    set (n := Nat.max (length gts) (length dets)) in *.
    assert (Hsq : square n (ct_overall ct))
      by (rewrite Hov; apply cost_table_square).
    assert (Hsqs : square n (ct_spatial ct))
      by (rewrite Hsp; apply cost_table_square).
    assert (Hsql : square n (ct_label ct))
      by (rewrite Hla; apply cost_table_square).
    assert (Hsqt : square n (ct_state ct)).
    { rewrite Hst. destruct scd; [apply cost_table_square | apply np_ones_square]. }
    destruct (solver_ok n _ Hsq) as (Hrows & Hperm & _).
    destruct (linear_sum_assignment (ct_overall ct)) as [rows cols].
    cbn [fst snd] in Hrows, Hperm. subst rows.
    rewrite (match_loop_ok _ _ _ (combine (seq 0 n) cols)).
    2:{ intros m Hm. destruct (combine_seq_in n cols m Hperm Hm).
        apply (mat_get_square n); [apply one_minus_square, Hsq | assumption..]. }
    cbn [bind].
    rewrite !(fancy_get_square n)
      by (try apply mask_zero_square; try apply one_minus_square; assumption).
    cbn [bind app].
    set (fps := map snd (filter _ (combine (seq 0 n) cols))).
    assert (Hcosts : exists costs,
              mapM (fun i => det <- get dets i ;; fp_cost_of scd det) fps = Ok costs).
    { apply mapM_total, Forall_forall. intros c Hin.
      unfold fps in Hin. apply in_map_iff in Hin.
      destruct Hin as (m & <- & Hm). apply filter_In in Hm.
      destruct Hm as [_ Hm]. unfold fp_match in Hm.
      apply andb_true_iff in Hm. destruct Hm as [_ Hlt].
      apply Nat.ltb_lt in Hlt.
      destruct (nth_error dets (snd m)) as [det|] eqn:Edet.
      2:{ apply nth_error_None in Edet. lia. }
      apply get_nth_error in Edet. rewrite Edet. cbn [bind].
      apply (fp_cost_of_total classes); [exact Hc|].
      apply get_in in Edet. rewrite Forall_forall in Hdets. apply Hdets, Edet. }
    destruct Hcosts as [costs Ecosts]. unfold fp_cost_of in Ecosts.
    destruct scd; rewrite Ecosts; cbn [bind]; eexists; reflexivity.
Qed.

End MapTotality.

(* ================================================================== *)
(** * The worked map is well formed *)

Lemma in_unit_0 : in_unit 0.
Proof. unfold in_unit; lra. Qed.

Lemma in_unit_1 : in_unit 1.
Proof. unfold in_unit; lra. Qed.

Lemma example_iou_in_unit : @iou_in_unit example_collaborators.
Proof. intros a b. apply in_unit_1. Qed.

Lemma ex_map_wf (scd : bool) : wf_map 3 scd ex_gts ex_dets.
Proof.
  split; [lia|]. split.
  - repeat constructor; try (simpl; lia); intros _; eexists; reflexivity.
  - constructor; [|constructor; [|constructor]].
    + split; [reflexivity|]. split.
      * simpl. repeat constructor; lra.
      * intros _. split; [reflexivity|]. simpl. repeat constructor; lra.
    + split; [reflexivity|]. split.
      * simpl. repeat constructor; lra.
      * intros _. split; [reflexivity|]. simpl. repeat constructor; lra.
Defined.

Lemma ex_gts_nonempty : ex_gts <> [].
Proof. discriminate. Defined.

Lemma ex_dets_nonempty : ex_dets <> [].
Proof. discriminate. Defined.

Lemma gmean_pair_eq (a b : R) :
  0 <= a -> 0 <= b -> gmean [a; b] = Ok (sqrt (a * b)).
Proof.
  intros Ha Hb. destruct (gmean_total [a; b]) as [x Hx].
  - discriminate.
  - constructor; [exact Ha | constructor; [exact Hb | constructor]].
  - rewrite Hx. f_equal. apply gmean_pair in Hx. tauto.
Qed.


(* ================================================================== *)
(** * The results at the worked map *)


(** Both ground truths and both detections are counted once. *)
Lemma counts_cover_rows_and_columns_example :
  exists r,
    _calc_qual_map (collab := example_collaborators) ex_gts ex_dets false = Ok r /\
    (TP r + FN r = 2)%nat /\ (TP r + FP r = 2)%nat.
Proof.
  destruct (calc_qual_map_total example_solver_contract example_iou_in_unit
              3 false ex_gts ex_dets (ex_map_wf false)) as [r Hr].
  exists r. split; [exact Hr|].
  exact (counts_cover_rows_and_columns example_solver_contract
           ex_gts ex_dets false r ex_gts_nonempty ex_dets_nonempty Hr).
Defined.

(** No ground truth and the two detections: two false positives, each at
    the cost of its greatest non-background probability. *)
Lemma empty_map_results_example :
  exists costs,
    Forall2 (fun det c => greatest c (all_but_last (det_prob_dist det)))
            ex_dets costs /\
    _calc_qual_map (collab := example_collaborators) [] ex_dets true =
    Ok {| overall := 0; spatial := 0; label := 0; fp_cost := np_sum costs;
          TP := 0; FP := 2; FN := 0; state_change := 0 |}.
Proof.
  apply (empty_map_results (collab := example_collaborators) [] ex_dets true).
  - left; reflexivity.
  - repeat constructor.
Defined.

Lemma overall_quality_is_geometric_mean_example :
  exists ct,
    _gen_cost_tables (collab := example_collaborators) ex_gts ex_dets true = Ok ct /\
    (1 - cell (ct_overall ct) 0 1) ^ 3 =
    (1 - cell (ct_label ct) 0 1) * (1 - cell (ct_spatial ct) 0 1) *
    (1 - cell (ct_state ct) 0 1).
Proof.
  destruct (gen_cost_tables_total example_iou_in_unit 3 true ex_gts ex_dets
              (ex_map_wf true) ex_gts_nonempty ex_dets_nonempty) as [ct Hct].
  exists ct. split; [exact Hct|].
  destruct (overall_quality_is_geometric_mean ex_gts ex_dets true ct Hct)
    as [Hpairs _].
  exact (proj1 (proj2 (proj2 (proj2 (proj2 (proj2
           (Hpairs 0%nat 1%nat ex_gt0 ex_det1 eq_refl eq_refl))))))).
Defined.

Lemma ex_probabilities_in_unit : probabilities_in_unit ex_dets.
Proof.
  pose proof in_unit_0 as H0. pose proof in_unit_1 as H1.
  unfold probabilities_in_unit, ex_dets.
  constructor; [|constructor; [|constructor]]; split;
    cbn [ex_det0 ex_det1 det_prob_dist det_state_probs];
    repeat (apply Forall_cons; [assumption|]); apply Forall_nil.
Qed.

Lemma qualities_and_costs_in_unit_example :
  exists ct,
    _gen_cost_tables (collab := example_collaborators) ex_gts ex_dets true = Ok ct /\
    entries_in_unit (ct_overall ct) /\
    entries_in_unit (one_minus (ct_overall ct)).
Proof.
  destruct (gen_cost_tables_total example_iou_in_unit 3 true ex_gts ex_dets
              (ex_map_wf true) ex_gts_nonempty ex_dets_nonempty) as [ct Hct].
  exists ct. split; [exact Hct|].
  destruct (qualities_and_costs_in_unit ex_gts ex_dets true ct
              example_iou_in_unit ex_probabilities_in_unit Hct)
    as (_ & _ & _ & (_ & _ & Hc & _) & (_ & _ & Hq & _)).
  split; assumption.
Defined.

(* ================================================================== *)
(** * The sums over true positives *)

Lemma np_sum_filter {A : Type} (p : A -> bool) (f : A -> R) (l : list A) :
  np_sum (map (fun a => if p a then f a else 0) l) = np_sum (map f (filter p l)).
Proof.
  unfold np_sum. induction l as [|a l IH]; [reflexivity|].
  cbn [map filter fold_right]. rewrite IH.
  destruct (p a); cbn [map fold_right]; ring.
Qed.

Section TruePositiveSums.

Context {collab : Collaborators}.

Hypothesis solver_ok : solver_contract collab.

Lemma masked_sum (n : nat) (Qt St : matrix) (cols : list nat)
  (q s : nat * nat -> R) (picked : list R) :
  square n Qt -> square n St -> Permutation cols (seq 0 n) ->
  (forall m, In m (combine (seq 0 n) cols) -> cell Qt (fst m) (snd m) = q m) ->
  (forall m, In m (combine (seq 0 n) cols) -> cell St (fst m) (snd m) = s m) ->
  (forall m, 0 <= q m) ->
  fancy_get (mask_zero Qt St) (seq 0 n) cols = Ok picked ->
  np_sum picked =
  np_sum (map s (filter (fun m => is_pos (q m)) (combine (seq 0 n) cols))).
Proof.
  intros HQ HS Hperm Hq Hs Hnn H.
  rewrite (fancy_get_square n) in H
    by (try apply mask_zero_square; assumption).
  inversion H; subst picked; clear H.
  rewrite <- np_sum_filter. apply np_sum_map_ext. intros m Hm.
  destruct (combine_seq_in n cols m Hperm Hm) as [Hi Hj].
  rewrite (cell_mask_zero n) by assumption.
  rewrite (Hq m Hm), (Hs m Hm).
  unfold is_pos. specialize (Hnn m).
  destruct (Req_dec_T (q m) 0), (Rlt_dec 0 (q m)); try reflexivity; lra.
Qed.

Lemma calc_qual_map_tp_sums (gts : list GtInstance) (dets : list DetInstance)
  (scd : bool) (r : MapResults) :
  gts <> [] -> dets <> [] ->
  _calc_qual_map gts dets scd = Ok r ->
  spatial r = np_sum (map (spatial_at gts dets) (tp_pairs gts dets scd)) /\
  label r = np_sum (map (label_at gts dets) (tp_pairs gts dets scd)) /\
  state_change r =
    (if scd then np_sum (map (state_at gts dets) (tp_pairs gts dets scd)) else 0).
Proof.
  intros Hg Hd H.
  destruct (calc_qual_map_nonempty solver_ok gts dets scd r Hg Hd H)
    as (ct & cols & costs0 & Ect & Elsa & (_ & Hperm & _) & Hpairs & _).
  cbn [snd] in Hperm.
  set (n := Nat.max (length gts) (length dets)) in *.
  unfold tp_pairs. rewrite Hpairs.
  destruct (gen_cost_tables_ok gts dets scd ct Ect)
    as (_ & _ & _ & Hov & Hsp & Hla & Hst).
  fold n in Hov, Hsp, Hla, Hst.
  unfold _calc_qual_map, _calc_qual_map_from in H.
  rewrite (nonempty_test gts dets Hg Hd), Ect in H. cbn [bind] in H.
  rewrite Elsa in H.
  bind_inv H as cnt Ecnt. destruct cnt as [[[tp fp] fn] idxs].
  bind_inv H as picked Epicked.
  bind_inv H as picked_spatial Espatial.
  bind_inv H as picked_label Elabel.
  bind_inv H as picked_state Estate.
  bind_inv H as costs Ecosts.
  inversion H; subst r; clear H. cbn [spatial label state_change].
  assert (Hsq : square n (one_minus (ct_overall ct)))
    by (apply one_minus_square; rewrite Hov; apply cost_table_square).
  assert (Hq : forall m, In m (combine (seq 0 n) cols) ->
            cell (one_minus (ct_overall ct)) (fst m) (snd m) =
            padded_quality scd gts dets (fst m) (snd m)).
  { intros m Hm. destruct (combine_seq_in n cols m Hperm Hm).
    rewrite Hov. unfold n. rewrite quality_table_cell by assumption.
    apply cell_overall_padded. }
  assert (Hnn : forall m : nat * nat,
            0 <= padded_quality scd gts dets (fst m) (snd m))
    by (intros m; apply padded_quality_nonneg).
  split; [|split].
  - apply (masked_sum n _ (one_minus (ct_spatial ct)) cols
             (fun m => padded_quality scd gts dets (fst m) (snd m))
             (spatial_at gts dets) picked_spatial Hsq);
      try assumption.
    + apply one_minus_square. rewrite Hsp. apply cost_table_square.
    + intros m Hm. destruct (combine_seq_in n cols m Hperm Hm).
      rewrite Hsp. unfold n, spatial_at. apply quality_table_cell; assumption.
  - apply (masked_sum n _ (one_minus (ct_label ct)) cols
             (fun m => padded_quality scd gts dets (fst m) (snd m))
             (label_at gts dets) picked_label Hsq);
      try assumption.
    + apply one_minus_square. rewrite Hla. apply cost_table_square.
    + intros m Hm. destruct (combine_seq_in n cols m Hperm Hm).
      rewrite Hla. unfold n, label_at. apply quality_table_cell; assumption.
  - destruct scd.
    + apply (masked_sum n _ (one_minus (ct_state ct)) cols
               (fun m => padded_quality true gts dets (fst m) (snd m))
               (state_at gts dets) picked_state Hsq);
        try assumption.
      * apply one_minus_square. rewrite Hst. apply cost_table_square.
      * intros m Hm. destruct (combine_seq_in n cols m Hperm Hm).
        rewrite Hst. unfold n, state_at. apply quality_table_cell; assumption.
    + rewrite Hst in Estate.
      apply (fancy_get_all_zero _ _ _ _
               (all_zero_mask _ _ (all_zero_quality_of_ones _ _)) Estate).
Qed.

End TruePositiveSums.

Section TruePositiveTheorems.

Context {collab : Collaborators}.

Hypothesis solver_ok : solver_contract collab.

Lemma tp_pair_is_real (gts : list GtInstance) (dets : list DetInstance)
  (scd : bool) (m : nat * nat) :
  In m (tp_pairs gts dets scd) ->
  exists g d, nth_error gts (fst m) = Some g /\ nth_error dets (snd m) = Some d /\
              0 < padded_quality scd gts dets (fst m) (snd m).
Proof.
  unfold tp_pairs. intros H. apply filter_In in H. destruct H as [_ Hpos].
  apply is_pos_true in Hpos. pose proof Hpos as Hq.
  unfold padded_quality in Hpos.
  destruct (nth_error gts (fst m)) as [g|]; [|lra].
  destruct (nth_error dets (snd m)) as [d|]; [|lra].
  exists g, d. auto.
Qed.

Lemma tp_pairs_count_and_overall (gts : list GtInstance)
  (dets : list DetInstance) (scd : bool) (r : MapResults) :
  gts <> [] -> dets <> [] ->
  _calc_qual_map gts dets scd = Ok r ->
  length (tp_pairs gts dets scd) = TP r /\
  overall r =
    np_sum (map (fun m => padded_quality scd gts dets (fst m) (snd m))
                (tp_pairs gts dets scd)).
Proof.
  intros Hg Hd H.
  destruct (calc_qual_map_nonempty solver_ok gts dets scd r Hg Hd H)
    as (ct & cols & costs & Ect & _ & _ & Hpairs & Hov & HTP & _).
  rewrite <- Hpairs in Hov, HTP.
  split; [symmetry; exact HTP|].
  rewrite Hov. unfold tp_pairs. rewrite <- np_sum_filter.
  apply np_sum_map_ext. intros m _.
  pose proof (padded_quality_nonneg scd gts dets (fst m) (snd m)) as Hnn.
  unfold is_pos.
  destruct (Rlt_dec 0 (padded_quality scd gts dets (fst m) (snd m)));
    [reflexivity | lra].
Qed.

Lemma tp_pair_components (gts : list GtInstance) (dets : list DetInstance)
  (scd : bool) (ct : CostTables) (m : nat * nat) :
  _gen_cost_tables gts dets scd = Ok ct ->
  In m (tp_pairs gts dets scd) ->
  exists g d,
    nth_error gts (fst m) = Some g /\ nth_error dets (snd m) = Some d /\
    spatial_at gts dets m = pair_spatial_quality g d /\
    pair_label_quality g d = Ok (label_at gts dets m) /\
    (scd = true -> pair_state_quality g d = Ok (state_at gts dets m)).
Proof.
  intros Ect Hm.
  destruct (gen_cost_tables_ok gts dets scd ct Ect) as (_ & _ & Hq & _).
  destruct (tp_pair_is_real gts dets scd m Hm) as (g & d & Eg & Ed & _).
  exists g, d. split; [exact Eg|]. split; [exact Ed|].
  destruct (Hq g d (nth_error_In _ _ Eg) (nth_error_In _ _ Ed)) as (Hl & _ & Hs).
  unfold spatial_at, label_at, state_at. rewrite !cell_outer, Eg, Ed.
  split; [reflexivity|]. split; [exact Hl | exact Hs].
Qed.

End TruePositiveTheorems.

(* ================================================================== *)
(** * The matching loop and the sums on any cost tables *)

Lemma cell_at_most_one (T : matrix) (r c : nat) :
  costs_at_most_one T -> cell T r c <= 1.
Proof.
  intros H. unfold cell.
  destruct (nth_in_or_default r T []) as [Hrow|Erow].
  - unfold costs_at_most_one in H. rewrite Forall_forall in H.
    specialize (H _ Hrow).
    destruct (nth_in_or_default c (nth r T []) 0) as [Hc|Ec].
    + rewrite Forall_forall in H. apply H, Hc.
    + rewrite Ec. lra.
  - rewrite Erow. destruct c; simpl; lra.
Qed.

Lemma read_back_nonneg (T : matrix) (m : nat * nat) :
  costs_at_most_one T -> 0 <= read_back T m.
Proof.
  intros H. unfold read_back.
  pose proof (cell_at_most_one T (fst m) (snd m) H). lra.
Qed.

Section OnTables.

Context {collab : Collaborators}.

Hypothesis solver_ok : solver_contract collab.

Lemma calc_qual_map_from_ok (cost_tables : CostTables)
  (gts : list GtInstance) (dets : list DetInstance) (scd : bool)
  (r : MapResults) :
  square (Nat.max (length gts) (length dets)) (ct_overall cost_tables) ->
  _calc_qual_map_from cost_tables gts dets scd = Ok r ->
  let n := Nat.max (length gts) (length dets) in
  let q := read_back (ct_overall cost_tables) in
  let pairs := pairs_on cost_tables in
  exists cols costs,
    Permutation cols (seq 0 n) /\
    linear_sum_assignment (ct_overall cost_tables) = (seq 0 n, cols) /\
    overall r = np_sum (map q pairs) /\
    TP r = count (fun m => is_pos (q m)) pairs /\
    FP r = count (fun m => negb (is_pos (q m)) && (snd m <? length dets)%nat)
                 pairs /\
    FN r = count (fun m => negb (is_pos (q m)) && (fst m <? length gts)%nat)
                 pairs /\
    mapM (fun i => det <- get dets i ;; fp_cost_of scd det)
         (map snd (filter (fun m => negb (is_pos (q m)) &&
                                    (snd m <? length dets)%nat) pairs)) =
      Ok costs /\
    fp_cost r = np_sum costs.
Proof.
  intros Hsq H n q pairs. fold n in Hsq.
  unfold _calc_qual_map_from in H.
  destruct (solver_ok n _ Hsq) as (Hrows & Hperm & _).
  unfold pairs, pairs_on.
  destruct (linear_sum_assignment (ct_overall cost_tables)) as [rows cols]
    eqn:Elsa.
  cbn [fst snd] in *. subst rows.
  set (ps := combine (seq 0 n) cols) in *.
  assert (Hrange : forall m, In m ps -> (fst m < n)%nat /\ (snd m < n)%nat)
    by (intros m; apply combine_seq_in; exact Hperm).
  assert (Hcell : forall m, In m ps ->
            cell (one_minus (ct_overall cost_tables)) (fst m) (snd m) = q m).
  { intros m Hm. destruct (Hrange m Hm).
    apply (cell_one_minus n); assumption. }
  rewrite (match_loop_ok _ _ _ ps) in H.
  2:{ intros m Hm. destruct (Hrange m Hm).
      apply (mat_get_square n); [apply one_minus_square, Hsq | assumption..]. }
  cbn [bind] in H.
  bind_inv H as picked Epicked.
  bind_inv H as picked_spatial Espatial.
  bind_inv H as picked_label Elabel.
  bind_inv H as picked_state Estate.
  bind_inv H as costs Ecosts.
  inversion H; subst r; clear H. cbn [overall TP FP FN fp_cost].
  unfold ps in Epicked.
  rewrite (fancy_get_square n) in Epicked
    by (try apply one_minus_square; assumption).
  inversion Epicked; subst picked; clear Epicked. fold ps.
  assert (Hfp : filter (fp_match (length dets)
                          (one_minus (ct_overall cost_tables))) ps =
                filter (fun m => negb (is_pos (q m)) &&
                                 (snd m <? length dets)%nat) ps).
  { apply filter_ext_in. intros m Hm. unfold fp_match. rewrite (Hcell m Hm).
    reflexivity. }
  exists cols, costs.
  split; [exact Hperm|].
  split; [reflexivity|].
  split; [f_equal; apply map_ext_in; exact Hcell|].
  split; [apply count_ext; intros m Hm; unfold tp_match;
          rewrite (Hcell m Hm); reflexivity|].
  split; [unfold count; rewrite Hfp; reflexivity|].
  split; [apply count_ext; intros m Hm; unfold fn_match;
          rewrite (Hcell m Hm); reflexivity|].
  split; [|reflexivity].
  rewrite <- Hfp. cbn [app] in Ecosts. unfold fp_cost_of.
  destruct scd; exact Ecosts.
Qed.

Lemma calc_qual_map_from_sums (cost_tables : CostTables)
  (gts : list GtInstance) (dets : list DetInstance) (scd : bool)
  (r : MapResults) :
  table_shapes (length gts) (length dets) cost_tables ->
  costs_at_most_one (ct_overall cost_tables) ->
  _calc_qual_map_from cost_tables gts dets scd = Ok r ->
  let tps := tp_pairs_on cost_tables in
  spatial r = np_sum (map (read_back (ct_spatial cost_tables)) tps) /\
  label r = np_sum (map (read_back (ct_label cost_tables)) tps) /\
  state_change r = np_sum (map (read_back (ct_state cost_tables)) tps).
Proof.
  intros (Hov & Hsp & Hla & Hst) Hle H tps.
  set (n := Nat.max (length gts) (length dets)) in *.
  unfold _calc_qual_map_from in H.
  destruct (solver_ok n _ Hov) as (Hrows & Hperm & _).
  unfold tps, tp_pairs_on, pairs_on.
  destruct (linear_sum_assignment (ct_overall cost_tables)) as [rows cols].
  cbn [fst snd] in *. subst rows.
  bind_inv H as cnt Ecnt. destruct cnt as [[[tp fp] fn] idxs].
  bind_inv H as picked Epicked.
  bind_inv H as picked_spatial Espatial.
  bind_inv H as picked_label Elabel.
  bind_inv H as picked_state Estate.
  bind_inv H as costs Ecosts.
  inversion H; subst r; clear H. cbn [spatial label state_change].
  assert (Hsq : square n (one_minus (ct_overall cost_tables)))
    by (apply one_minus_square, Hov).
  assert (Hq : forall m, In m (combine (seq 0 n) cols) ->
            cell (one_minus (ct_overall cost_tables)) (fst m) (snd m) =
            read_back (ct_overall cost_tables) m).
  { intros m Hm. destruct (combine_seq_in n cols m Hperm Hm).
    apply (cell_one_minus n); assumption. }
  assert (Hnn : forall m, 0 <= read_back (ct_overall cost_tables) m)
    by (intros m; apply read_back_nonneg, Hle).
  assert (Hone : forall T picked,
            square n T ->
            fancy_get (mask_zero (one_minus (ct_overall cost_tables))
                                 (one_minus T)) (seq 0 n) cols = Ok picked ->
            np_sum picked =
            np_sum (map (read_back T)
                        (filter (fun m => is_pos (read_back (ct_overall cost_tables) m))
                                (combine (seq 0 n) cols)))).
  { intros T pk HT Hpk.
    apply (masked_sum n _ (one_minus T) cols
             (read_back (ct_overall cost_tables)) (read_back T) pk Hsq);
      try assumption.
    - apply one_minus_square, HT.
    - intros m Hm. destruct (combine_seq_in n cols m Hperm Hm).
      apply (cell_one_minus n); assumption. }
  split; [|split].
  - apply (Hone _ _ Hsp Espatial).
  - apply (Hone _ _ Hla Elabel).
  - apply (Hone _ _ Hst Estate).
Qed.

(** On square tables the part after the cost tables returns as soon as the
    cost of every detection as a false positive is defined. *)
Lemma calc_qual_map_from_total (cost_tables : CostTables)
  (gts : list GtInstance) (dets : list DetInstance) (scd : bool) :
  table_shapes (length gts) (length dets) cost_tables ->
  Forall (fun det => exists cost, fp_cost_of scd det = Ok cost) dets ->
  exists r, _calc_qual_map_from cost_tables gts dets scd = Ok r.
Proof.
  intros (Hov & Hsp & Hla & Hst) Hdets.
  set (n := Nat.max (length gts) (length dets)) in *.
  unfold _calc_qual_map_from.
  destruct (solver_ok n _ Hov) as (Hrows & Hperm & _).
  destruct (linear_sum_assignment (ct_overall cost_tables)) as [rows cols].
  cbn [fst snd] in Hrows, Hperm. subst rows.
  rewrite (match_loop_ok _ _ _ (combine (seq 0 n) cols)).
  2:{ intros m Hm. destruct (combine_seq_in n cols m Hperm Hm).
      apply (mat_get_square n); [apply one_minus_square, Hov | assumption..]. }
  cbn [bind].
  rewrite !(fancy_get_square n)
    by (try apply mask_zero_square; try apply one_minus_square; assumption).
  cbn [bind app].
  set (fps := map snd (filter _ (combine (seq 0 n) cols))).
  assert (Hcosts : exists costs,
            mapM (fun i => det <- get dets i ;; fp_cost_of scd det) fps = Ok costs).
  { apply mapM_total, Forall_forall. intros c Hin.
    unfold fps in Hin. apply in_map_iff in Hin.
    destruct Hin as (m & <- & Hm). apply filter_In in Hm.
    destruct Hm as [_ Hm]. unfold fp_match in Hm.
    apply andb_true_iff in Hm. destruct Hm as [_ Hlt].
    apply Nat.ltb_lt in Hlt.
    destruct (nth_error dets (snd m)) as [det|] eqn:Edet.
    2:{ apply nth_error_None in Edet. lia. }
    apply get_nth_error in Edet. rewrite Edet. cbn [bind].
    apply get_in in Edet. rewrite Forall_forall in Hdets. apply Hdets, Edet. }
  destruct Hcosts as [costs Ecosts]. unfold fp_cost_of in Ecosts.
  destruct scd; rewrite Ecosts; cbn [bind]; eexists; reflexivity.
Qed.

(** C3. For the pairs [(r, c)] the solver assigns on the overall cost
    table of a non-empty map, with the quality of a pair as the code reads it
    back from that table, [1 - cost], which is never negative: a pair of
    quality above 0 counts as one true positive; a pair of quality 0 counts
    as one false negative when [r < g] and as one false positive when
    [c < d], and as both when both hold.  This holds on every table of costs
    up to 1, so on the float32 table of the code, where a pair whose quality
    is below the resolution of float32 reads back 0. *)
Theorem assigned_pairs_are_classified (cost_tables : CostTables)
  (gts : list GtInstance) (dets : list DetInstance) (scd : bool)
  (r : MapResults) :
  square (Nat.max (length gts) (length dets)) (ct_overall cost_tables) ->
  costs_at_most_one (ct_overall cost_tables) ->
  _calc_qual_map_from cost_tables gts dets scd = Ok r ->
  let pairs := pairs_on cost_tables in
  let q := read_back (ct_overall cost_tables) in
  let is_fn := fun m => is_zero (q m) && (fst m <? length gts)%nat in
  let is_fp := fun m => is_zero (q m) && (snd m <? length dets)%nat in
  (forall m, In m pairs -> 0 < q m \/ q m = 0) /\
  TP r = count (fun m => is_pos (q m)) pairs /\
  FN r = count is_fn pairs /\
  FP r = count is_fp pairs /\
  (forall m, In m pairs -> q m = 0 ->
     (fst m < length gts)%nat -> (snd m < length dets)%nat ->
     is_pos (q m) = false /\ is_fn m = true /\ is_fp m = true).
Proof.
  intros Hsq Hle H pairs q is_fn is_fp.
  destruct (calc_qual_map_from_ok cost_tables gts dets scd r Hsq H)
    as (cols & costs & _ & _ & _ & HTP & HFP & HFN & _).
  fold pairs q in HTP, HFP, HFN.
  assert (Hnn : forall m, 0 <= q m) by (intros m; apply read_back_nonneg, Hle).
  split; [intros m _; specialize (Hnn m); lra|].
  split; [exact HTP|].
  split.
  { rewrite HFN. apply count_ext. intros m _. unfold is_fn.
    rewrite <- (not_pos_is_zero _ (Hnn m)). reflexivity. }
  split.
  { rewrite HFP. apply count_ext. intros m _. unfold is_fp.
    rewrite <- (not_pos_is_zero _ (Hnn m)). reflexivity. }
  intros m _ Hz Hi Hj. unfold is_fn, is_fp.
  apply Nat.ltb_lt in Hi, Hj. rewrite Hi, Hj.
  assert (Hzero : is_zero (q m) = true) by (apply is_zero_true, Hz).
  rewrite Hzero. repeat split.
  rewrite <- (not_pos_is_zero _ (Hnn m)) in Hzero.
  destruct (is_pos (q m)); [discriminate|reflexivity].
Qed.


(** X1. On the cost tables of a non-empty map, the ['spatial'], ['label']
    and ['state_change'] sums run over the true-positive pairs only: the
    assigned pairs whose overall quality, read back from the overall cost
    table, is above 0.  They are as many as [TP], and all of them are real
    pairs when the padding of the table holds the cost 1.  Each sum adds the
    qualities read back from its own table, the ['overall'] sum is the total
    quality of the same pairs, and a state table of ones, as it is left
    without scene-change mode, gives the state sum 0.  This holds on every
    table of costs up to 1, so on the float32 tables of the code. *)
Theorem sums_run_over_true_positives (cost_tables : CostTables)
  (gts : list GtInstance) (dets : list DetInstance) (scd : bool)
  (r : MapResults) :
  table_shapes (length gts) (length dets) cost_tables ->
  costs_at_most_one (ct_overall cost_tables) ->
  _calc_qual_map_from cost_tables gts dets scd = Ok r ->
  let n := Nat.max (length gts) (length dets) in
  let tps := tp_pairs_on cost_tables in
  length tps = TP r /\
  (padding_is_one (length gts) (length dets) (ct_overall cost_tables) ->
   forall m, In m tps ->
             (fst m < length gts)%nat /\ (snd m < length dets)%nat) /\
  overall r = np_sum (map (read_back (ct_overall cost_tables)) tps) /\
  spatial r = np_sum (map (read_back (ct_spatial cost_tables)) tps) /\
  label r = np_sum (map (read_back (ct_label cost_tables)) tps) /\
  state_change r = np_sum (map (read_back (ct_state cost_tables)) tps) /\
  (ct_state cost_tables = np_ones n n -> state_change r = 0).
Proof.
  intros Hshapes Hle H n tps. pose proof Hshapes as (Hov & _ & _ & Hst).
  fold n in Hov, Hst.
  destruct (calc_qual_map_from_ok cost_tables gts dets scd r Hov H)
    as (cols & costs & Hperm & Elsa & Hsum & HTP & _).
  destruct (calc_qual_map_from_sums cost_tables gts dets scd r Hshapes Hle H)
    as (Hspatial & Hlabel & Hstate).
  fold tps in Hspatial, Hlabel, Hstate. fold n in Hperm, Elsa.
  assert (Hpairs : pairs_on cost_tables = combine (seq 0 n) cols)
    by (unfold pairs_on; rewrite Elsa; reflexivity).
  split; [symmetry; exact HTP|].
  split.
  { intros Hpad m Hm. unfold tps, tp_pairs_on in Hm.
    apply filter_In in Hm. destruct Hm as [Hin Hpos].
    rewrite Hpairs in Hin.
    destruct (combine_seq_in n cols m Hperm Hin) as [Hi Hj].
    apply is_pos_true in Hpos. unfold read_back in Hpos.
    destruct (Nat.lt_ge_cases (fst m) (length gts)) as [Hr|Hr];
      [destruct (Nat.lt_ge_cases (snd m) (length dets)) as [Hc|Hc]|].
    - split; assumption.
    - rewrite (Hpad (fst m) (snd m) Hi Hj (or_intror Hc)) in Hpos. lra.
    - rewrite (Hpad (fst m) (snd m) Hi Hj (or_introl Hr)) in Hpos. lra. }
  split.
  { rewrite Hsum. unfold tps, tp_pairs_on. rewrite <- np_sum_filter.
    apply np_sum_map_ext. intros m _.
    pose proof (read_back_nonneg _ m Hle) as Hnn. unfold is_pos.
    destruct (Rlt_dec 0 (read_back (ct_overall cost_tables) m));
      [reflexivity | lra]. }
  split; [exact Hspatial|]. split; [exact Hlabel|]. split; [exact Hstate|].
  intros Hones. rewrite Hstate.
  assert (Hzero : forall m, In m tps -> read_back (ct_state cost_tables) m = 0).
  { intros m Hm. unfold tps, tp_pairs_on in Hm.
    apply filter_In in Hm. destruct Hm as [Hin _]. rewrite Hpairs in Hin.
    destruct (combine_seq_in n cols m Hperm Hin) as [Hi Hj].
    unfold read_back. rewrite Hones, cell_np_ones by assumption. lra. }
  clear - Hzero. unfold np_sum. induction tps as [|m tps IH]; [reflexivity|].
  cbn [map fold_right]. rewrite (Hzero m (or_introl eq_refl)), IH; [lra|].
  intros m' Hm'. apply Hzero. right; exact Hm'.
Qed.

End OnTables.

(** ** The tables of [_gen_cost_tables] meet what is asked of the tables *)

Lemma costs_at_most_one_cells (n : nat) (T : matrix) :
  square n T ->
  (forall i j, (i < n)%nat -> (j < n)%nat -> cell T i j <= 1) ->
  costs_at_most_one T.
Proof.
  intros [Hlen Hrows] Hcells. unfold costs_at_most_one.
  apply Forall_forall. intros row Hrow.
  destruct (In_nth _ _ [] Hrow) as (i & Hi & Ei).
  rewrite Forall_forall in Hrows. pose proof (Hrows row Hrow) as Hrl.
  apply Forall_forall. intros c Hc.
  destruct (In_nth _ _ 0 Hc) as (j & Hj & Ej).
  specialize (Hcells i j). unfold cell in Hcells. rewrite Ei, Ej in Hcells.
  apply Hcells; lia.
Qed.

Section TablesOfAMap.

Context {collab : Collaborators}.

Lemma calc_qual_map_runs_from (gts : list GtInstance)
  (dets : list DetInstance) (scd : bool) :
  gts <> [] -> dets <> [] ->
  _calc_qual_map gts dets scd =
  (cost_tables <- _gen_cost_tables gts dets scd ;;
   _calc_qual_map_from cost_tables gts dets scd).
Proof.
  intros Hg Hd. unfold _calc_qual_map.
  rewrite (nonempty_test gts dets Hg Hd). reflexivity.
Qed.

Lemma gen_cost_tables_shapes (gts : list GtInstance)
  (dets : list DetInstance) (scd : bool) (ct : CostTables) :
  _gen_cost_tables gts dets scd = Ok ct ->
  table_shapes (length gts) (length dets) ct /\
  costs_at_most_one (ct_overall ct) /\
  padding_is_one (length gts) (length dets) (ct_overall ct).
Proof.
  intros H.
  destruct (gen_cost_tables_ok gts dets scd ct H)
    as (_ & _ & _ & Hov & Hsp & Hla & Hst).
  set (n := Nat.max (length gts) (length dets)) in *.
  assert (Hcell : forall i j, (i < n)%nat -> (j < n)%nat ->
            cell (ct_overall ct) i j = 1 - padded_quality scd gts dets i j).
  { intros i j Hi Hj. rewrite Hov. unfold n.
    rewrite cost_table_cell by assumption.
    rewrite cell_overall_padded. reflexivity. }
  assert (Hsq : square n (ct_overall ct))
    by (rewrite Hov; apply cost_table_square).
  split; [|split].
  - unfold table_shapes. fold n. split; [exact Hsq|].
    split; [rewrite Hsp; apply cost_table_square|].
    split; [rewrite Hla; apply cost_table_square|].
    rewrite Hst. destruct scd; [apply cost_table_square | apply np_ones_square].
  - apply (costs_at_most_one_cells n _ Hsq). intros i j Hi Hj.
    rewrite (Hcell i j Hi Hj).
    pose proof (padded_quality_nonneg scd gts dets i j). lra.
  - intros i j Hi Hj Hout. fold n in Hi, Hj. rewrite (Hcell i j Hi Hj).
    unfold padded_quality. destruct Hout as [Hout|Hout].
    + apply nth_error_None in Hout. rewrite Hout. lra.
    + apply nth_error_None in Hout.
      destruct (nth_error gts i); [rewrite Hout|]; lra.
Qed.

End TablesOfAMap.

(* ================================================================== *)
(** * Bounds on the results of a map and on the running scores *)

Lemma np_sum_bounds (l : list R) :
  Forall in_unit l -> 0 <= np_sum l <= INR (length l).
Proof.
  unfold np_sum, in_unit. induction 1 as [|x l Hx _ IH].
  - simpl; lra.
  - cbn [fold_right]. change (length (x :: l)) with (S (length l)).
    rewrite S_INR. lra.
Qed.

Lemma mapM_length {A B : Type} (f : A -> res B) (l : list A) (l' : list B) :
  mapM f l = Ok l' -> length l' = length l.
Proof.
  intros H. apply mapM_Forall2 in H. symmetry. apply (Forall2_length H).
Qed.

Lemma mapM_Forall_out {A B : Type} (P : B -> Prop) (f : A -> res B)
  (l : list A) (l' : list B) :
  (forall a b, In a l -> f a = Ok b -> P b) -> mapM f l = Ok l' -> Forall P l'.
Proof.
  intros HP H. apply mapM_Forall2 in H.
  induction H as [|a b l l' Hab _ IH]; constructor.
  - apply (HP a b); [left; reflexivity | exact Hab].
  - apply IH. intros a' b' Hin. apply HP. right; exact Hin.
Qed.

Section Bounds.

Context {collab : Collaborators}.

Hypothesis solver_ok : solver_contract collab.
Hypothesis iou_ok : iou_in_unit.

Lemma max_label_prob_in_unit (det : DetInstance) (a : R) :
  Forall in_unit (det_prob_dist det) -> max_label_prob det = Ok a -> in_unit a.
Proof.
  intros HP H. apply np_max_greatest in H.
  apply (greatest_in_unit a (det_prob_dist det)); [rewrite app_nil_r|]; assumption.
Qed.

Lemma fp_cost_of_in_unit (scd : bool) (det : DetInstance) (cost : R) :
  Forall in_unit (det_prob_dist det) -> Forall in_unit (det_state_probs det) ->
  fp_cost_of scd det = Ok cost -> in_unit cost.
Proof.
  intros HP HS H. unfold fp_cost_of in H. destruct scd.
  - unfold scd_fp_cost in H. bind_inv H as a Ea. bind_inv H as b Eb.
    apply (gmean_in_unit [a; b]); [|exact H].
    constructor; [apply (max_label_prob_in_unit det); assumption|].
    constructor; [|constructor].
    apply np_max_greatest in Eb.
    apply (greatest_in_unit b (det_state_probs det)); [rewrite app_nil_r|]; assumption.
  - apply (max_label_prob_in_unit det); assumption.
Qed.

Lemma pair_qualities_in_unit (gts : list GtInstance) (dets : list DetInstance)
  (scd : bool) (ct : CostTables) :
  probabilities_in_unit dets ->
  _gen_cost_tables gts dets scd = Ok ct ->
  forall g d, In g gts -> In d dets ->
    in_unit (label_quality g d) /\ in_unit (pair_spatial_quality g d) /\
    in_unit (overall_quality scd g d) /\
    (scd = true -> in_unit (state_quality g d)).
Proof.
  intros Hprob H g d Hg Hd.
  destruct (gen_cost_tables_ok gts dets scd ct H) as (_ & _ & Hq & _).
  unfold probabilities_in_unit in Hprob. rewrite Forall_forall in Hprob.
  destruct (Hprob d Hd) as [HPl HPs]. rewrite Forall_forall in HPl, HPs.
  destruct (Hq g d Hg Hd) as (Hl & Ho & Hs).
  assert (Ul : in_unit (label_quality g d)) by (apply HPl, (py_get_in _ _ _ Hl)).
  assert (Us : in_unit (pair_spatial_quality g d)) by apply iou_ok.
  assert (Ut : scd = true -> in_unit (state_quality g d)).
  { intros Hscd. specialize (Hs Hscd). unfold pair_state_quality in Hs.
    bind_inv Hs as sid Esid. apply HPs, (py_get_in _ _ _ Hs). }
  split; [exact Ul|]. split; [exact Us|]. split; [|exact Ut].
  unfold pair_overall_quality in Ho. rewrite Hl in Ho. cbn [bind] in Ho.
  destruct scd.
  - rewrite (Hs eq_refl) in Ho. cbn [bind] in Ho.
    apply (gmean_in_unit _ _) in Ho; [exact Ho|].
    constructor; [exact Ul|]. constructor; [exact Us|].
    constructor; [apply Ut; reflexivity | constructor].
  - apply (gmean_in_unit _ _) in Ho; [exact Ho|].
    constructor; [exact Ul|]. constructor; [exact Us | constructor].
Qed.

Lemma map_results_bounds (gts : list GtInstance)
  (dets : list DetInstance) (scd : bool) (r : MapResults) :
  probabilities_in_unit dets ->
  _calc_qual_map gts dets scd = Ok r ->
  0 <= overall r <= INR (TP r) /\
  0 <= spatial r <= INR (TP r) /\
  0 <= label r <= INR (TP r) /\
  0 <= state_change r <= INR (TP r) /\
  0 <= fp_cost r <= INR (FP r).
Proof.
  intros Hprob H.
  pose proof Hprob as Hprob'. unfold probabilities_in_unit in Hprob'.
  rewrite Forall_forall in Hprob'.
  destruct (list_eq_dec_empty gts dets) as [Hempty|[Hg Hd]].
  - (* an empty map *)
    unfold _calc_qual_map, _calc_qual_map_from in H.
    assert (Htest : (length gts =? 0)%nat || (length dets =? 0)%nat = true).
    { destruct Hempty as [-> | ->]; simpl; [reflexivity | apply orb_true_r]. }
    rewrite Htest in H. bind_inv H as c Ec. inversion H; subst r; clear H.
    cbn [overall spatial label state_change fp_cost TP FP]. simpl INR.
    repeat (split; [lra|]).
    destruct dets as [|det dets]; [simpl in Ec; inversion Ec; simpl; lra|].
    cbn [length Nat.ltb Nat.leb] in Ec. bind_inv Ec as costs Ecosts.
    inversion Ec; subst c; clear Ec.
    rewrite <- (mapM_length _ _ _ Ecosts). apply np_sum_bounds.
    apply (mapM_Forall_out in_unit _ _ _) with (2 := Ecosts).
    intros d a Hin Ha. apply (max_label_prob_in_unit d); [|exact Ha].
    apply (Hprob' d Hin).
  - (* a non-empty map *)
    destruct (tp_pairs_count_and_overall solver_ok gts dets scd r Hg Hd H)
      as [Hlen Hov].
    destruct (calc_qual_map_tp_sums solver_ok gts dets scd r Hg Hd H)
      as (Hsp & Hla & Hst).
    destruct (calc_qual_map_nonempty solver_ok gts dets scd r Hg Hd H)
      as (ct & cols & costs & Ect & _ & _ & _ & _ & _ & HFP & _ & Hcosts & Hfc).
    pose proof (fun m => tp_pair_components gts dets scd ct m Ect) as Hreal.
    pose proof (pair_qualities_in_unit gts dets scd ct Hprob Ect) as Hunit.
    assert (Hpairs : forall m, In m (tp_pairs gts dets scd) ->
              in_unit (padded_quality scd gts dets (fst m) (snd m)) /\
              in_unit (spatial_at gts dets m) /\
              in_unit (label_at gts dets m) /\
              (scd = true -> in_unit (state_at gts dets m))).
    { intros m Hm. destruct (Hreal m Hm) as (g & d & Eg & Ed & _).
      destruct (Hunit g d (nth_error_In _ _ Eg) (nth_error_In _ _ Ed))
        as (Ul & Us & Uo & Ut).
      unfold spatial_at, label_at, state_at, padded_quality.
      rewrite !cell_outer, Eg, Ed. auto. }
    rewrite <- Hlen.
    assert (Hb : forall f : nat * nat -> R,
              (forall m, In m (tp_pairs gts dets scd) -> in_unit (f m)) ->
              0 <= np_sum (map f (tp_pairs gts dets scd)) <=
              INR (length (tp_pairs gts dets scd))).
    { intros f Hf. rewrite <- (length_map f). apply np_sum_bounds.
      apply Forall_map, Forall_forall. exact Hf. }
    split; [rewrite Hov; apply Hb; intros m Hm; apply (Hpairs m Hm)|].
    split; [rewrite Hsp; apply Hb; intros m Hm; apply (Hpairs m Hm)|].
    split; [rewrite Hla; apply Hb; intros m Hm; apply (Hpairs m Hm)|].
    split.
    + rewrite Hst. destruct scd.
      * apply Hb; intros m Hm; apply (Hpairs m Hm); reflexivity.
      * split; [lra | apply pos_INR].
    + rewrite Hfc, HFP. unfold count.
      rewrite <- (length_map snd), <- (mapM_length _ _ _ Hcosts).
      apply np_sum_bounds.
      apply (mapM_Forall_out in_unit _ _ _) with (2 := Hcosts).
      intros c cost _ Hc. bind_inv Hc as det Edet. apply get_in in Edet.
      destruct (Hprob' det Edet) as [HPl HPs].
      apply (fp_cost_of_in_unit scd det); assumption.
Qed.

Lemma quotient_in_unit (x y : R) : 0 <= x <= y -> 0 < y -> in_unit (x / y).
Proof.
  intros [H0 H1] Hy. unfold in_unit. split.
  - apply Rmult_le_pos; [exact H0 | left; apply Rinv_0_lt_compat, Hy].
  - apply (Rmult_le_reg_r y); [exact Hy|]. unfold Rdiv.
    rewrite Rmult_assoc, Rinv_l by lra. lra.
Qed.

Lemma add_map_eval_within_counts (gts : list GtInstance)
  (dets : list DetInstance) (self : CDQ3D) :
  probabilities_in_unit dets ->
  totals_within_counts self ->
  totals_within_counts (snd (add_map_eval gts dets self)).
Proof.
  intros Hprob Hinv. unfold add_map_eval, mbind, reading, assign.
  destruct (_calc_qual_map gts dets (scd_mode self)) as [r|e] eqn:E;
    [|exact Hinv].
  pose proof (map_results_bounds gts dets (scd_mode self) r Hprob E) as Hr.
  unfold totals_within_counts in *. cbn [snd _tot_overall_quality
    _tot_spatial_quality _tot_label_quality _tot_state_quality _tot_fp_cost
    _tot_TP _tot_FP].
  rewrite !plus_INR. lra.
Qed.

Lemma for_each_preserves_in {A : Type} (P : CDQ3D -> Prop)
  (body : A -> method unit) (l : list A) (self : CDQ3D) :
  (forall a s, In a l -> P s -> P (snd (body a s))) ->
  P self -> P (snd (for_each l body self)).
Proof.
  revert self; induction l as [|a l IH]; intros self Hbody HP.
  - exact HP.
  - cbn [for_each]. unfold mbind.
    pose proof (Hbody a self (or_introl eq_refl) HP) as Ha.
    destruct (body a self) as [[[]|e] s1]; simpl in *; [|exact Ha].
    apply IH; [|exact Ha]. intros a' s Hin. apply Hbody. right; exact Hin.
Qed.

Lemma run_call_within_counts (c : call) (self : CDQ3D) :
  call_in_unit c -> totals_within_counts self ->
  totals_within_counts (run_call c self).
Proof.
  assert (Hzero : forall scd, totals_within_counts
            {| _tot_overall_quality := 0; _tot_spatial_quality := 0;
               _tot_label_quality := 0; _tot_fp_cost := 0; _tot_TP := 0;
               _tot_FP := 0; _tot_FN := 0; _tot_state_quality := 0;
               scd_mode := scd |}).
  { intros scd. unfold totals_within_counts; simpl. lra. }
  destruct c as [|gts dets|param_lists]; simpl; intros Hc Hinv.
  - apply Hzero.
  - apply add_map_eval_within_counts; assumption.
  - rewrite score_unfold. unfold mbind at 1. unfold reset, assign.
    unfold mbind.
    pose proof (for_each_preserves_in totals_within_counts
      (fun map_params : list GtInstance * list DetInstance =>
         add_map_eval (fst map_params) (snd map_params)) param_lists
      {| _tot_overall_quality := 0; _tot_spatial_quality := 0;
         _tot_label_quality := 0; _tot_fp_cost := 0; _tot_TP := 0;
         _tot_FP := 0; _tot_FN := 0; _tot_state_quality := 0;
         scd_mode := scd_mode self |}) as H.
    destruct (for_each _ _ _) as [[[]|e] s1]; simpl in *; apply H;
      try apply Hzero; intros a s Hin Hs;
      apply add_map_eval_within_counts; try exact Hs;
      rewrite Forall_forall in Hc; apply (Hc a Hin).
Qed.

Lemma run_calls_within_counts (cs : list call) (self : CDQ3D) :
  Forall call_in_unit cs -> totals_within_counts self ->
  totals_within_counts (run_calls cs self).
Proof.
  unfold run_calls. intros Hcs. revert self.
  induction Hcs as [|c cs Hc _ IH]; intros self Hinv; [exact Hinv|].
  simpl. apply IH. apply run_call_within_counts; assumption.
Qed.

(** X2. With probabilities and IoU in [[0,1]], the results of every map are
    within its counts (each of the overall, spatial, label and state sums
    lies between 0 and [TP], the FP cost between 0 and [FP]), the running
    totals of an object stay within its counts through any sequence of
    [reset], [add_map_eval] and [score] calls, and every score getter then
    returns a number in [[0,1]]. *)
Theorem scores_stay_in_unit :
  (forall gts dets scd r,
     probabilities_in_unit dets ->
     _calc_qual_map gts dets scd = Ok r ->
     0 <= overall r <= INR (TP r) /\
     0 <= spatial r <= INR (TP r) /\
     0 <= label r <= INR (TP r) /\
     0 <= state_change r <= INR (TP r) /\
     0 <= fp_cost r <= INR (FP r)) /\
  (forall cs scd,
     Forall call_in_unit cs ->
     let self := run_calls cs (__init__ scd) in
     totals_within_counts self /\
     (exists x, get_current_score self = Ok x /\ in_unit x) /\
     (exists x, get_avg_spatial_score self = Ok x /\ in_unit x) /\
     (exists x, get_avg_label_score self = Ok x /\ in_unit x) /\
     (exists x, get_avg_state_score self = Ok x /\ in_unit x) /\
     (exists x, get_avg_overall_quality_score self = Ok x /\ in_unit x) /\
     (exists x, get_avg_fp_score self = Ok x /\ in_unit x)).
Proof.
  split; [exact map_results_bounds|].
  intros cs scd Hcs self.
  assert (Hinv : totals_within_counts self).
  { apply run_calls_within_counts; [exact Hcs|].
    unfold totals_within_counts; simpl. lra. }
  split; [exact Hinv|].
  destruct Hinv as (Ho & Hs & Hl & Ht & Hf).
  pose proof (pos_INR (_tot_FN self)) as HFN.
  assert (Havg : forall x, 0 <= x <= INR (_tot_TP self) ->
            exists y, (if (0 <? _tot_TP self)%nat
                       then py_div x (INR (_tot_TP self)) else Ok 0) = Ok y /\
                      in_unit y).
  { intros x Hx. destruct (0 <? _tot_TP self)%nat eqn:Hpos.
    - pose proof (INR_pos_nonzero _ Hpos) as Hnz.
      rewrite (py_div_nonzero _ _ Hnz). eexists; split; [reflexivity|].
      apply quotient_in_unit; [exact Hx|].
      pose proof (pos_INR (_tot_TP self)). lra.
    - exists 0. split; [reflexivity | apply in_unit_0]. }
  split.
  { unfold get_current_score.
    destruct (Req_dec_T _ 0) as [|Hnz];
      [exists 0; split; [reflexivity | apply in_unit_0]|].
    rewrite (py_div_nonzero _ _ Hnz). eexists; split; [reflexivity|].
    apply quotient_in_unit; lra. }
  split; [apply Havg, Hs|]. split; [apply Havg, Hl|].
  split; [apply Havg, Ht|]. split; [apply Havg, Ho|].
  unfold get_avg_fp_score.
  destruct (0 <? _tot_FP self)%nat eqn:Hpos.
  - pose proof (INR_pos_nonzero _ Hpos) as Hnz.
    rewrite (py_div_nonzero _ _ Hnz). eexists; split; [reflexivity|].
    apply quotient_in_unit; [lra|].
    pose proof (pos_INR (_tot_FP self)). lra.
  - exists 1. split; [reflexivity | apply in_unit_1].
Qed.

End Bounds.

(** One [score] over the worked map, in scene-change mode. *)
Lemma scores_stay_in_unit_example :
  exists x,
    get_current_score
      (run_calls (collab := example_collaborators)
         [CallScore [(ex_gts, ex_dets)]] (__init__ true)) = Ok x /\
    in_unit x.
Proof.
  assert (Hcs : Forall call_in_unit [CallScore [(ex_gts, ex_dets)]]).
  { constructor; [|constructor]. simpl.
    constructor; [exact ex_probabilities_in_unit | constructor]. }
  exact (proj1 (proj2 (proj2 (scores_stay_in_unit example_solver_contract
    example_iou_in_unit) [CallScore [(ex_gts, ex_dets)]] true Hcs))).
Defined.

(* ================================================================== *)
(** * Well-formed maps never raise; malformed records always do *)

Lemma for_each_succeeds {A : Type} (Q : CDQ3D -> Prop) (body : A -> method unit)
  (l : list A) (self : CDQ3D) :
  (forall a s, In a l -> Q s -> fst (body a s) = Ok tt /\ Q (snd (body a s))) ->
  Q self ->
  fst (for_each l body self) = Ok tt /\ Q (snd (for_each l body self)).
Proof.
  revert self; induction l as [|a l IH]; intros self Hbody HQ.
  - split; [reflexivity | exact HQ].
  - cbn [for_each]. unfold mbind.
    destruct (Hbody a self (or_introl eq_refl) HQ) as [Hok Hq].
    destruct (body a self) as [[[]|e] s1]; simpl in *; [|discriminate].
    apply IH; [|exact Hq]. intros a' s Hin. apply Hbody. right; exact Hin.
Qed.

Lemma mapM_fails {A B : Type} (f : A -> res B) (e : error) (l : list A) :
  (forall a e', In a l -> f a = Err e' -> e' = e) ->
  Exists (fun a => f a = Err e) l -> mapM f l = Err e.
Proof.
  intros Hall Hex. induction l as [|a l IH]; [inversion Hex|].
  cbn [mapM]. destruct (f a) as [b|e'] eqn:E.
  - cbn [bind]. rewrite IH; [reflexivity | |].
    + intros a' e' Hin. apply Hall. right; exact Hin.
    + inversion Hex as [? ? H|? ? H]; subst; [congruence | exact H].
  - cbn [bind]. rewrite (Hall a e' (or_introl eq_refl) E). reflexivity.
Qed.

Lemma dict_get_error {V : Type} (d : list (string * V)) (k : string) (e : error) :
  dict_get d k = Err e -> e = KeyError.
Proof.
  unfold dict_get. destruct (find _ d); intros H; inversion H; reflexivity.
Qed.

Lemma py_get_error {A : Type} (l : list A) (k : Z) (e : error) :
  py_get l k = Err e -> e = IndexError.
Proof.
  unfold py_get, py_index, get.
  destruct (0 <=? k)%Z; [destruct (k <? Z.of_nat (length l))%Z | destruct (- Z.of_nat (length l) <=? k)%Z];
    cbn [bind]; try (intros H; inversion H; reflexivity);
    destruct (nth_error l _); intros H; inversion H; reflexivity.
Qed.

Lemma py_get_out_of_range {A : Type} (l : list A) (k : Z) :
  (k < - Z.of_nat (length l) \/ Z.of_nat (length l) <= k)%Z ->
  py_get l k = Err IndexError.
Proof.
  intros H. unfold py_get, py_index.
  destruct (0 <=? k)%Z eqn:E0.
  - apply Z.leb_le in E0.
    assert (E1 : (k <? Z.of_nat (length l))%Z = false) by (apply Z.ltb_ge; lia).
    rewrite E1. reflexivity.
  - apply Z.leb_gt in E0.
    assert (E1 : (- Z.of_nat (length l) <=? k)%Z = false) by (apply Z.leb_gt; lia).
    rewrite E1. reflexivity.
Qed.

Section Failures.

Context {collab : Collaborators}.

Lemma vectorize_map_gts_total (gts : list GtInstance) (scd : bool) :
  (scd = true -> states_known gts) ->
  exists ids, _vectorize_map_gts gts scd =
              Ok (map gt_box gts, map gt_class_id gts, ids).
Proof.
  intros Hs. unfold _vectorize_map_gts. destruct scd.
  - destruct (mapM_total (fun g => dict_get _STATE_IDS (gt_state g)) gts
                (Hs eq_refl)) as [ids Eids].
    rewrite Eids. eexists; reflexivity.
  - eexists; reflexivity.
Qed.

Lemma np_stack_ragged (rows : list (list R)) (r0 r : list R) :
  hd_error rows = Some r0 -> In r rows -> length r <> length r0 ->
  np_stack rows = Err ValueError.
Proof.
  intros Hhd Hin Hlen. unfold np_stack.
  destruct rows as [|r1 rows]; [reflexivity|].
  inversion Hhd; subst r1.
  destruct (forallb (fun r' => (length r' =? length r0)%nat) rows) eqn:E;
    [|reflexivity].
  exfalso. destruct Hin as [->|Hin]; [congruence|].
  rewrite forallb_forall in E. specialize (E r Hin).
  apply Nat.eqb_eq in E. contradiction.
Qed.

(** X3. A malformed record makes the evaluation of a non-empty map raise:
    - in scene-change mode, a ground truth whose state is not "added",
      "removed" or "constant" gives a [KeyError];
    - detections whose class distributions differ in length give a
      [ValueError];
    - a class identifier outside [-c <= id < c], for distributions of
      length [c], gives an [IndexError].
    Each is the first failure met, so the states are taken to be known in
    the last two cases, and the distributions to be of one length (and, in
    scene-change mode, the state vectors too) in the last.  The class
    identifiers are taken to fit [np.int]: a greater one stops the
    evaluation before any of these, with an [OverflowError] from
    [np.array(..., dtype=np.int)]. *)
Theorem malformed_records_raise (gts : list GtInstance)
  (dets : list DetInstance) (scd : bool) :
  gts <> [] -> dets <> [] -> class_ids_fit gts ->
  (scd = true ->
   Exists (fun g => dict_get _STATE_IDS (gt_state g) = Err KeyError) gts ->
   _calc_qual_map gts dets scd = Err KeyError) /\
  ((scd = true -> states_known gts) ->
   (exists d0 d, hd_error dets = Some d0 /\ In d dets /\
                 length (det_prob_dist d) <> length (det_prob_dist d0)) ->
   _calc_qual_map gts dets scd = Err ValueError) /\
  ((scd = true -> states_known gts) ->
   forall c k,
     Forall (fun d => length (det_prob_dist d) = c) dets ->
     (scd = true -> Forall (fun d => length (det_state_probs d) = k) dets) ->
     Exists (fun g => (gt_class_id g < - Z.of_nat c \/
                       Z.of_nat c <= gt_class_id g)%Z) gts ->
     _calc_qual_map gts dets scd = Err IndexError).
Proof.
  intros Hg Hd _.
  assert (Hunf : forall e, _gen_cost_tables gts dets scd = Err e ->
                           _calc_qual_map gts dets scd = Err e).
  { intros e He. unfold _calc_qual_map, _calc_qual_map_from.
    rewrite (nonempty_test gts dets Hg Hd), He. reflexivity. }
  split; [|split].
  - intros -> Hex. apply Hunf. unfold _gen_cost_tables, _vectorize_map_gts.
    rewrite (mapM_fails _ KeyError); [reflexivity | | exact Hex].
    intros g e _ He. apply (dict_get_error _ _ _ He).
  - intros Hs (d0 & d & Hhd & Hin & Hlen). apply Hunf.
    unfold _gen_cost_tables.
    destruct (vectorize_map_gts_total gts scd Hs) as [ids Evg].
    rewrite Evg. cbn [bind]. unfold _vectorize_map_dets.
    rewrite (np_stack_ragged _ (det_prob_dist d0) (det_prob_dist d));
      [reflexivity | | apply in_map; exact Hin | exact Hlen].
    destruct dets; inversion Hhd; reflexivity.
  - intros Hs c k Hlens Hstate Hex. apply Hunf.
    unfold _gen_cost_tables.
    destruct (vectorize_map_gts_total gts scd Hs) as [ids Evg].
    rewrite Evg. cbn [bind]. unfold _vectorize_map_dets.
    rewrite (np_stack_total _ c);
      [|destruct dets; [congruence | discriminate]
       |apply Forall_map; exact Hlens].
    cbn [bind].
    assert (Esm : exists smat,
              (if scd then np_stack (map det_state_probs dets)
               else Ok (mat_scale (np_ones (length dets) 3) (-1))) = Ok smat).
    { destruct scd; [|eexists; reflexivity].
      exists (map det_state_probs dets). apply (np_stack_total _ k).
      - destruct dets; [congruence | discriminate].
      - apply Forall_map, Hstate; reflexivity. }
    destruct Esm as [smat Esm]. rewrite Esm. cbn [bind].
    unfold _calc_label_qual, select_columns_T.
    rewrite (mapM_fails _ IndexError); [reflexivity | |].
    + intros lbl e _ He.
      destruct (mapM (fun row => py_get row lbl) (map det_prob_dist dets))
        as [row|e'] eqn:E; [discriminate|].
      inversion He; subst e'. clear He.
      destruct dets as [|d dets']; [congruence|].
      revert E. generalize (map det_prob_dist (d :: dets')).
      intros rows. induction rows as [|r rows IH]; [discriminate|].
      cbn [mapM]. destruct (py_get r lbl) as [x|e'] eqn:Ex; cbn [bind].
      * destruct (mapM (fun row => py_get row lbl) rows) as [xs|e''];
          cbn [bind]; [discriminate|].
        intros H; inversion H; subst. apply IH; reflexivity.
      * intros H; inversion H; subst. apply (py_get_error _ _ _ Ex).
    + apply Exists_exists in Hex. destruct Hex as (g & Hgin & Hrange).
      apply Exists_exists. exists (gt_class_id g).
      split; [apply in_map; exact Hgin|].
      destruct dets as [|d dets']; [congruence|].
      inversion Hlens as [|? ? Hd0 _]; subst.
      cbn [map mapM].
      rewrite py_get_out_of_range by exact Hrange. reflexivity.
Qed.

End Failures.

Lemma getters_total (self : CDQ3D) : exists x, get_current_score self = Ok x.
Proof.
  unfold get_current_score.
  destruct (Req_dec_T _ 0) as [|Hnz]; [eexists; reflexivity|].
  rewrite (py_div_nonzero _ _ Hnz). eexists; reflexivity.
Qed.

Section NeverRaises.

Context {collab : Collaborators}.

Hypothesis solver_ok : solver_contract collab.
Hypothesis iou_ok : iou_in_unit.

Lemma add_map_eval_succeeds (classes : nat) (gts : list GtInstance)
  (dets : list DetInstance) (self : CDQ3D) :
  wf_map classes (scd_mode self) gts dets ->
  fst (add_map_eval gts dets self) = Ok tt /\
  scd_mode (snd (add_map_eval gts dets self)) = scd_mode self.
Proof.
  intros Hwf. split; [|apply add_map_eval_scd_mode].
  destruct (calc_qual_map_total solver_ok iou_ok classes (scd_mode self)
              gts dets Hwf) as [r Hr].
  unfold add_map_eval, mbind, reading, assign. rewrite Hr. reflexivity.
Qed.

(** X4. Well-formed maps are evaluated without an exception: on records as the
    data model has them ([classes >= 2] probabilities in [[0,1]] per
    detection, class identifiers inside the vocabulary, and in scene-change
    mode a known state and three state probabilities in [[0,1]]), with an IoU
    in [[0,1]], [_calc_qual_map] returns results, [add_map_eval] adds them,
    and [score] over a list of such maps returns a score. *)
Theorem well_formed_maps_never_raise (classes : nat) :
  (forall scd gts dets,
     wf_map classes scd gts dets ->
     exists r, _calc_qual_map gts dets scd = Ok r) /\
  (forall gts dets self,
     wf_map classes (scd_mode self) gts dets ->
     fst (add_map_eval gts dets self) = Ok tt) /\
  (forall param_lists self,
     Forall (fun mp : list GtInstance * list DetInstance =>
               wf_map classes (scd_mode self) (fst mp) (snd mp)) param_lists ->
     exists x, fst (score param_lists self) = Ok x).
Proof.
  split; [|split].
  - intros scd gts dets Hwf.
    apply (calc_qual_map_total solver_ok iou_ok classes scd gts dets Hwf).
  - intros gts dets self Hwf.
    apply (add_map_eval_succeeds classes gts dets self Hwf).
  - intros param_lists self Hwf. rewrite Forall_forall in Hwf.
    rewrite score_unfold. unfold mbind at 1. unfold reset at 1, assign.
    set (s0 := {| _tot_overall_quality := 0; _tot_spatial_quality := 0;
                  _tot_label_quality := 0; _tot_fp_cost := 0; _tot_TP := 0;
                  _tot_FP := 0; _tot_FN := 0; _tot_state_quality := 0;
                  scd_mode := scd_mode self |}).
    destruct (for_each_succeeds (fun s => scd_mode s = scd_mode self)
                (fun map_params : list GtInstance * list DetInstance =>
                   add_map_eval (fst map_params) (snd map_params))
                param_lists s0) as [Hok _].
    + intros mp s Hin Hs.
      destruct (add_map_eval_succeeds classes (fst mp) (snd mp) s) as [H1 H2].
      * rewrite Hs. apply Hwf, Hin.
      * split; [exact H1 | rewrite H2; exact Hs].
    + reflexivity.
    + unfold mbind.
      destruct (for_each _ _ s0) as [[[]|e] s1]; simpl in Hok; [|discriminate].
      unfold reading. cbn [fst].
      destruct (getters_total s1) as [x Hx]. exists x. exact Hx.
Qed.

End NeverRaises.

(* ================================================================== *)
(** * What [score] leaves in the object *)

Section Accumulation.

Context {collab : Collaborators}.

Lemma add_map_eval_ok (gts : list GtInstance) (dets : list DetInstance)
  (self : CDQ3D) (r : MapResults) :
  _calc_qual_map gts dets (scd_mode self) = Ok r ->
  add_map_eval gts dets self = (Ok tt, add_results self r).
Proof.
  intros H. unfold add_map_eval, mbind, reading, assign. rewrite H. reflexivity.
Qed.

Lemma add_map_eval_err (gts : list GtInstance) (dets : list DetInstance)
  (self : CDQ3D) (e : error) :
  _calc_qual_map gts dets (scd_mode self) = Err e ->
  add_map_eval gts dets self = (Err e, self).
Proof.
  intros H. unfold add_map_eval, mbind, reading, assign. rewrite H. reflexivity.
Qed.

Lemma fold_add_results_mode (rs : list MapResults) (self : CDQ3D) :
  scd_mode (fold_left add_results rs self) = scd_mode self.
Proof.
  revert self; induction rs as [|r rs IH]; intros self; [reflexivity|].
  simpl. rewrite IH. reflexivity.
Qed.

Lemma for_each_add_ok (param_lists : list (list GtInstance * list DetInstance))
  (self : CDQ3D) (rs : list MapResults) :
  map_results_of self param_lists = Ok rs ->
  for_each param_lists (fun mp => add_map_eval (fst mp) (snd mp)) self =
  (Ok tt, fold_left add_results rs self).
Proof.
  unfold map_results_of.
  revert self rs; induction param_lists as [|mp l IH]; intros self rs H.
  - inversion H; reflexivity.
  - cbn [mapM] in H. bind_inv H as r Er. bind_inv H as rs' Ers.
    inversion H; subst rs; clear H.
    cbn [for_each]. unfold mbind. rewrite (add_map_eval_ok _ _ _ _ Er).
    cbn [fold_left]. exact (IH (add_results self r) rs' Ers).
Qed.

Lemma for_each_add_fails (l1 l2 : list (list GtInstance * list DetInstance))
  (mp : list GtInstance * list DetInstance) (self : CDQ3D)
  (rs : list MapResults) (e : error) :
  map_results_of self l1 = Ok rs ->
  _calc_qual_map (fst mp) (snd mp) (scd_mode self) = Err e ->
  for_each (l1 ++ mp :: l2) (fun mp => add_map_eval (fst mp) (snd mp)) self =
  (Err e, fold_left add_results rs self).
Proof.
  unfold map_results_of.
  revert self rs; induction l1 as [|mp1 l1 IH]; intros self rs H He.
  - inversion H; subst rs. cbn [app for_each fold_left]. unfold mbind.
    rewrite (add_map_eval_err _ _ _ _ He). reflexivity.
  - cbn [mapM] in H. bind_inv H as r Er. bind_inv H as rs' Ers.
    inversion H; subst rs; clear H.
    cbn [app for_each]. unfold mbind. rewrite (add_map_eval_ok _ _ _ _ Er).
    cbn [fold_left]. exact (IH (add_results self r) rs' Ers He).
Qed.

Lemma fold_add_results_totals (rs : list MapResults) (self : CDQ3D) :
  let s' := fold_left add_results rs self in
  _tot_overall_quality s' = _tot_overall_quality self + np_sum (map overall rs) /\
  _tot_spatial_quality s' = _tot_spatial_quality self + np_sum (map spatial rs) /\
  _tot_label_quality s' = _tot_label_quality self + np_sum (map label rs) /\
  _tot_state_quality s' = _tot_state_quality self + np_sum (map state_change rs) /\
  _tot_fp_cost s' = _tot_fp_cost self + np_sum (map fp_cost rs) /\
  _tot_TP s' = (_tot_TP self + list_sum (map TP rs))%nat /\
  _tot_FP s' = (_tot_FP self + list_sum (map FP rs))%nat /\
  _tot_FN s' = (_tot_FN self + list_sum (map FN rs))%nat.
Proof.
  revert self; induction rs as [|r rs IH]; intros self.
  - simpl. unfold np_sum; simpl. repeat split; try ring; lia.
  - cbn [fold_left]. cbv zeta.
    destruct (IH (add_results self r)) as (H1 & H2 & H3 & H4 & H5 & H6 & H7 & H8).
    rewrite H1, H2, H3, H4, H5, H6, H7, H8.
    unfold np_sum. cbn [add_results _tot_overall_quality _tot_spatial_quality
      _tot_label_quality _tot_state_quality _tot_fp_cost _tot_TP _tot_FP _tot_FN
      map fold_right].
    repeat split; try ring;
      change (list_sum (map ?f (r :: rs))) with (f r + list_sum (map f rs))%nat;
      simpl list_sum; lia.
Qed.

(** X5. [score] sums the results of the maps and ignores what the object held:
    when every map of the list is evaluated, the object it leaves holds in
    each total the sum of that entry over the maps, [get_assignment_counts]
    gives the summed counts, and the returned value is [get_current_score] of
    that object.  When a map fails, [score] raises that map's exception and
    the object keeps the totals of the maps before it. *)
Theorem score_sums_the_maps
  (param_lists : list (list GtInstance * list DetInstance)) (self : CDQ3D) :
  (forall rs,
     map_results_of self param_lists = Ok rs ->
     let s' := snd (score param_lists self) in
     fst (score param_lists self) = get_current_score s' /\
     scd_mode s' = scd_mode self /\
     _tot_overall_quality s' = np_sum (map overall rs) /\
     _tot_spatial_quality s' = np_sum (map spatial rs) /\
     _tot_label_quality s' = np_sum (map label rs) /\
     _tot_state_quality s' = np_sum (map state_change rs) /\
     _tot_fp_cost s' = np_sum (map fp_cost rs) /\
     get_assignment_counts s' =
       (list_sum (map TP rs), list_sum (map FP rs), list_sum (map FN rs))) /\
  (forall l1 mp l2 rs e,
     param_lists = l1 ++ mp :: l2 ->
     map_results_of self l1 = Ok rs ->
     _calc_qual_map (fst mp) (snd mp) (scd_mode self) = Err e ->
     fst (score param_lists self) = Err e /\
     snd (score param_lists self) = snd (score l1 self)).
Proof.
  assert (Hreset : forall l : list (list GtInstance * list DetInstance),
            score l self =
            mbind (for_each l (fun mp => add_map_eval (fst mp) (snd mp)))
                  (fun _ => reading get_current_score)
                  (__init__ (scd_mode self))).
  { intros l. rewrite score_unfold. reflexivity. }
  split.
  - intros rs Hrs s'. unfold s'. rewrite Hreset. unfold mbind.
    rewrite (for_each_add_ok param_lists (__init__ (scd_mode self)) rs Hrs).
    unfold reading. cbn [fst snd].
    destruct (fold_add_results_totals rs (__init__ (scd_mode self)))
      as (H1 & H2 & H3 & H4 & H5 & H6 & H7 & H8).
    cbn [__init__ _tot_overall_quality _tot_spatial_quality
      _tot_label_quality _tot_state_quality _tot_fp_cost _tot_TP _tot_FP
      _tot_FN] in H1, H2, H3, H4, H5, H6, H7, H8.
    split; [reflexivity|].
    split; [rewrite fold_add_results_mode; reflexivity|].
    rewrite H1, H2, H3, H4, H5. unfold get_assignment_counts.
    rewrite H6, H7, H8.
    repeat split; try ring.
  - intros l1 mp l2 rs e -> Hrs He. rewrite !Hreset. unfold mbind.
    rewrite (for_each_add_fails l1 l2 mp (__init__ (scd_mode self)) rs e Hrs He).
    rewrite (for_each_add_ok l1 (__init__ (scd_mode self)) rs Hrs).
    split; reflexivity.
Qed.

End Accumulation.

(* ================================================================== *)
(** * Without scene-change mode the state fields are not read *)

Lemma get_map {A B : Type} (f : A -> B) (l : list A) (i : nat) :
  get (map f l) i = a <- get l i ;; Ok (f a).
Proof.
  unfold get. rewrite nth_error_map. destruct (nth_error l i); reflexivity.
Qed.

Section StateNotRead.

Context {collab : Collaborators}.

Variable new_state : GtInstance -> string.
Variable new_state_probs : DetInstance -> list R.

Lemma gen_cost_tables_state_not_read (gts : list GtInstance)
  (dets : list DetInstance) :
  _gen_cost_tables (map (fun g => with_state (new_state g) g) gts)
                   (map (fun d => with_state_probs (new_state_probs d) d) dets)
                   false =
  _gen_cost_tables gts dets false.
Proof.
  unfold _gen_cost_tables, _vectorize_map_gts, _vectorize_map_dets.
  rewrite !length_map, !map_map. cbn [bind].
  cbn [with_state with_state_probs gt_class_id gt_centroid gt_extent
       det_prob_dist det_centroid det_extent].
  reflexivity.
Qed.

(** X6. With scene-change mode off, the results of a map do not depend on the
    ['state'] of its ground truths or the ['state_probs'] of its
    detections: replacing them by anything gives the same results, or the
    same exception. *)
Theorem state_fields_not_read_without_scd (gts : list GtInstance)
  (dets : list DetInstance) :
  _calc_qual_map (map (fun g => with_state (new_state g) g) gts)
                 (map (fun d => with_state_probs (new_state_probs d) d) dets)
                 false =
  _calc_qual_map gts dets false.
Proof.
  unfold _calc_qual_map, _calc_qual_map_from.
  rewrite gen_cost_tables_state_not_read, !length_map.
  assert (Hmax :
    mapM max_label_prob
         (map (fun d => with_state_probs (new_state_probs d) d) dets) =
    mapM max_label_prob dets).
  { rewrite mapM_map. reflexivity. }
  assert (Hcost : forall idxs,
    mapM (fun i =>
            det <- get (map (fun d => with_state_probs (new_state_probs d) d)
                            dets) i ;;
            max_label_prob det) idxs =
    mapM (fun i => det <- get dets i ;; max_label_prob det) idxs).
  { intros idxs. apply mapM_ext. intros i _. rewrite get_map.
    destruct (get dets i); reflexivity. }
  rewrite Hmax.
  destruct ((length gts =? 0)%nat || (length dets =? 0)%nat); [reflexivity|].
  destruct (_gen_cost_tables gts dets false) as [ct|e]; [|reflexivity].
  cbn [bind].
  destruct (linear_sum_assignment (ct_overall ct)) as [rows cols].
  destruct (foldM _ _ _) as [[[[tp fp] fn] idxs]|e]; [|reflexivity].
  cbn [bind]. rewrite Hcost. reflexivity.
Qed.

End StateNotRead.

(* ================================================================== *)
(** * The two extremes: a perfect map and a map without any match *)

Section Extremes.

Context {collab : Collaborators}.

Hypothesis solver_ok : solver_contract collab.

Lemma no_matching_beats_overall (gts : list GtInstance)
  (dets : list DetInstance) (scd : bool) (r : MapResults) (p : list nat) :
  gts <> [] -> dets <> [] ->
  _calc_qual_map gts dets scd = Ok r ->
  Permutation p (seq 0 (Nat.max (length gts) (length dets))) ->
  matching_quality (padded_quality scd gts dets)
                   (Nat.max (length gts) (length dets)) p <= overall r.
Proof.
  intros Hg Hd H Hp.
  destruct (calc_qual_map_nonempty solver_ok gts dets scd r Hg Hd H)
    as (ct & cols & costs & Ect & _ & (_ & Hperm & Hopt) & _ & Hov & _).
  cbn [fst snd] in Hperm, Hopt.
  destruct (gen_cost_tables_ok gts dets scd ct Ect) as (_ & _ & _ & Hct & _).
  specialize (Hopt p Hp). rewrite Hct in Hopt.
  rewrite !(matching_cost_quality gts dets scd) in Hopt by assumption.
  unfold matching_quality in *. rewrite Hov. lra.
Qed.

Lemma counts_add_up (gts : list GtInstance) (dets : list DetInstance)
  (scd : bool) (r : MapResults) :
  gts <> [] -> dets <> [] ->
  _calc_qual_map gts dets scd = Ok r ->
  (TP r + FN r = length gts)%nat /\ (TP r + FP r = length dets)%nat.
Proof.
  intros Hg Hd H.
  destruct (calc_qual_map_nonempty solver_ok gts dets scd r Hg Hd H)
    as (ct & cols & costs & _ & _ & (_ & Hperm & _) & _ & _ & HTP & HFP & HFN & _).
  cbn [snd] in Hperm.
  set (n := Nat.max (length gts) (length dets)) in *.
  assert (Hlen : length (seq 0 n) = length cols)
    by (rewrite (Permutation_length Hperm); reflexivity).
  assert (Hreal : forall m : nat * nat,
            is_pos (padded_quality scd gts dets (fst m) (snd m)) = true ->
            (fst m <? length gts)%nat = true /\ (snd m <? length dets)%nat = true).
  { intros m Hpos. apply is_pos_true, padded_quality_pos in Hpos.
    split; apply Nat.ltb_lt; tauto. }
  rewrite HTP, HFP, HFN. split.
  - rewrite (count_split _ (fun m => (fst m <? length gts)%nat))
      by (intros m _ Hpos; apply (Hreal m Hpos)).
    rewrite <- (count_map (fun i => (i <? length gts)%nat) fst).
    rewrite (map_fst_combine _ _ Hlen), count_below_seq. lia.
  - rewrite (count_split _ (fun m => (snd m <? length dets)%nat))
      by (intros m _ Hpos; apply (Hreal m Hpos)).
    rewrite <- (count_map (fun j => (j <? length dets)%nat) snd).
    rewrite (map_snd_combine _ _ Hlen).
    rewrite (count_perm _ _ _ Hperm), count_below_seq. lia.
Qed.

Lemma matching_quality_ones (q : nat -> nat -> R) (n : nat) (p : list nat) :
  length p = n ->
  (forall m, In m (combine (seq 0 n) p) -> q (fst m) (snd m) = 1) ->
  matching_quality q n p = INR n.
Proof.
  intros Hlen Hq. unfold matching_quality.
  rewrite (np_sum_map_ext _ (fun _ => 1 - 0)) by (intros m Hm; rewrite (Hq m Hm); ring).
  rewrite np_sum_one_minus.
  rewrite length_combine, length_seq, Hlen, Nat.min_id.
  assert (Hz : np_sum (map (fun _ : nat * nat => 0) (combine (seq 0 n) p)) = 0).
  { apply np_sum_zeros, Forall_map, Forall_forall. reflexivity. }
  rewrite Hz. ring.
Qed.

Section WithUnitIoU.

Hypothesis iou_ok : iou_in_unit.

(** X7. A perfect map scores 1: when the map has as many detections as ground
    truths and some one-to-one pairing gives every pair overall quality 1,
    every ground truth is a true positive, there is no false positive or
    false negative, the overall sum is the number of objects, the FP cost is
    0, and [score] on that map alone returns 1. *)
Theorem perfect_map_scores_one (gts : list GtInstance)
  (dets : list DetInstance) (scd : bool) (r : MapResults) (p : list nat) :
  gts <> [] -> length dets = length gts ->
  probabilities_in_unit dets ->
  Permutation p (seq 0 (length gts)) ->
  (forall m, In m (combine (seq 0 (length gts)) p) ->
             padded_quality scd gts dets (fst m) (snd m) = 1) ->
  _calc_qual_map gts dets scd = Ok r ->
  overall r = INR (length gts) /\ TP r = length gts /\
  FP r = 0%nat /\ FN r = 0%nat /\ fp_cost r = 0 /\
  fst (score [(gts, dets)] (__init__ scd)) = Ok 1.
Proof.
  intros Hg Hlen Hprob Hp Hq H.
  assert (Hd : dets <> []) by (destruct gts, dets; simpl in *; congruence).
  assert (Hn : Nat.max (length gts) (length dets) = length gts)
    by (rewrite Hlen; apply Nat.max_id).
  pose proof (no_matching_beats_overall gts dets scd r p Hg Hd H) as Hbest.
  rewrite Hn in Hbest. specialize (Hbest Hp).
  rewrite (matching_quality_ones _ _ p) in Hbest;
    [|rewrite (Permutation_length Hp); apply length_seq | exact Hq].
  destruct (map_results_bounds solver_ok iou_ok gts dets scd r Hprob H)
    as (Ho & _ & _ & _ & Hf).
  destruct (counts_add_up gts dets scd r Hg Hd H) as [Hfn Hfp].
  assert (HTP : TP r = length gts).
  { assert (Hle : INR (length gts) <= INR (TP r)) by lra.
    apply INR_le in Hle. lia. }
  assert (HFP : FP r = 0%nat) by lia.
  assert (HFN : FN r = 0%nat) by lia.
  assert (Hov : overall r = INR (length gts)) by (rewrite HTP in Ho; lra).
  assert (Hfc : fp_cost r = 0) by (rewrite HFP in Hf; simpl in Hf; lra).
  repeat (split; [assumption|]).
  rewrite score_unfold. unfold mbind at 1. unfold reset at 1, assign.
  cbn [for_each fst snd]. unfold mbind.
  rewrite (add_map_eval_ok gts dets _ r) by exact H.
  unfold reading. cbn [fst]. unfold get_current_score.
  cbn [add_results _tot_TP _tot_FN _tot_fp_cost _tot_overall_quality].
  rewrite HTP, HFN, Hfc, Hov. simpl (0 + 0)%nat. simpl (INR 0).
  assert (Hpos : 0 < INR (length gts)).
  { apply lt_0_INR. destruct gts; [congruence | simpl; lia]. }
  destruct (Req_dec_T (INR (0 + length gts) + (0 + 0) + 0) 0) as [Hz|Hnz].
  - exfalso. rewrite Nat.add_0_l in Hz. lra.
  - rewrite (py_div_nonzero _ _ Hnz). f_equal.
    rewrite Nat.add_0_l. field. lra.
Qed.

End WithUnitIoU.

(** X8. A map without any match scores 0: when no pair of a ground truth and a
    detection has positive overall quality, there is no true positive, every
    ground truth is a false negative, every detection a false positive, and
    the overall, spatial and label sums are 0. *)
Theorem unmatched_map_scores_zero (gts : list GtInstance)
  (dets : list DetInstance) (scd : bool) (r : MapResults) :
  gts <> [] -> dets <> [] ->
  (forall i j, padded_quality scd gts dets i j = 0) ->
  _calc_qual_map gts dets scd = Ok r ->
  TP r = 0%nat /\ FN r = length gts /\ FP r = length dets /\
  overall r = 0 /\ spatial r = 0 /\ label r = 0 /\ state_change r = 0 /\
  exists x, get_current_score (add_results (__init__ scd) r) = Ok x /\ x = 0.
Proof.
  intros Hg Hd Hq H.
  assert (Htps : tp_pairs gts dets scd = []).
  { unfold tp_pairs.
    rewrite (filter_ext _ (fun _ => false)).
    - induction (assigned_pairs gts dets scd); [reflexivity | assumption].
    - intros m. rewrite Hq. unfold is_pos.
      destruct (Rlt_dec 0 0); [lra | reflexivity]. }
  destruct (tp_pairs_count_and_overall solver_ok gts dets scd r Hg Hd H)
    as [Hlen Hov].
  destruct (calc_qual_map_tp_sums solver_ok gts dets scd r Hg Hd H)
    as (Hsp & Hla & Hst).
  destruct (counts_add_up gts dets scd r Hg Hd H) as [Hfn Hfp].
  rewrite Htps in *. simpl in Hlen.
  assert (HTP : TP r = 0%nat) by (symmetry; exact Hlen).
  assert (Ho : overall r = 0) by exact Hov.
  split; [exact HTP|]. split; [lia|]. split; [lia|].
  split; [exact Ho|]. split; [exact Hsp|]. split; [exact Hla|].
  split; [destruct scd; exact Hst|].
  unfold get_current_score.
  cbn [add_results __init__ _tot_TP _tot_FN _tot_fp_cost _tot_overall_quality].
  destruct (Req_dec_T _ 0) as [|Hnz]; [exists 0; split; reflexivity|].
  rewrite (py_div_nonzero _ _ Hnz). eexists; split; [reflexivity|].
  rewrite Ho. unfold Rdiv. ring.
Qed.

End Extremes.

(* ================================================================== *)
(** * The formatted class distributions *)

Lemma list_set_length (k : nat) (v : R) (a : list R) :
  length (list_set k v a) = length a.
Proof.
  revert k; induction a as [|x a IH]; intros k; [destruct k; reflexivity|].
  destruct k; simpl; [reflexivity | rewrite IH; reflexivity].
Qed.

Lemma list_set_Forall (P : R -> Prop) (k : nat) (v : R) (a : list R) :
  P v -> Forall P a -> Forall P (list_set k v a).
Proof.
  intros Hv Ha. revert k; induction Ha as [|x a Hx Ha IH]; intros k;
    [destruct k; constructor|].
  destruct k; simpl; constructor; auto.
Qed.

Lemma np_put_length (a : list R) (idxs : list Z) (vals b : list R) :
  np_put a idxs vals = Ok b -> length b = length a.
Proof.
  revert a vals; induction idxs as [|i idxs IH]; intros a vals H.
  - destruct vals; inversion H; reflexivity.
  - destruct vals as [|v vals]; [inversion H; reflexivity|].
    cbn [np_put] in H. bind_inv H as k Ek.
    rewrite (IH _ _ H). apply list_set_length.
Qed.

Lemma np_put_Forall (P : R -> Prop) (a : list R) (idxs : list Z)
  (vals b : list R) :
  Forall P a -> Forall P vals -> np_put a idxs vals = Ok b -> Forall P b.
Proof.
  revert a vals; induction idxs as [|i idxs IH]; intros a vals Ha Hv H.
  - destruct vals; inversion H; subst; exact Ha.
  - destruct vals as [|v vals]; [inversion H; subst; exact Ha|].
    cbn [np_put] in H. bind_inv H as k Ek.
    inversion Hv as [|? ? Hv0 Hv']; subst.
    apply (IH _ _ (list_set_Forall P k v a Hv0 Ha) Hv' H).
Qed.

Lemma np_sum_nonneg (l : list R) : Forall (fun x => 0 <= x) l -> 0 <= np_sum l.
Proof.
  unfold np_sum. induction 1 as [|x l Hx _ IH]; simpl; lra.
Qed.

Lemma np_sum_ge_each (l : list R) (x : R) :
  Forall (fun y => 0 <= y) l -> In x l -> x <= np_sum l.
Proof.
  intros HF. induction HF as [|y l Hy HF IH]; intros Hin; [contradiction|].
  pose proof (np_sum_nonneg l HF) as Hs. unfold np_sum in *. cbn [fold_right].
  destruct Hin as [->|Hin]; [lra | specialize (IH Hin); lra].
Qed.

Lemma np_sum_scaled (l : list R) (t : R) :
  np_sum (map (fun x => x / t) l) = np_sum l / t.
Proof.
  unfold np_sum. induction l as [|x l IH]; simpl.
  - unfold Rdiv; ring.
  - rewrite IH. unfold Rdiv; ring.
Qed.

(** The last step of [_format_prob_dist]: a total above 1 is divided out. *)
Lemma normalised_in_unit (a : list R) :
  Forall (fun x => 0 <= x) a ->
  let out := if Rlt_dec 1 (np_sum a)
             then map (fun x => x / np_sum a) a else a in
  Forall in_unit out /\ np_sum out <= 1.
Proof.
  intros Hnn. cbv zeta. destruct (Rlt_dec 1 (np_sum a)) as [Hbig|Hsmall].
  - split.
    + apply Forall_map, Forall_forall. intros x Hx.
      apply quotient_in_unit; [|lra]. split.
      * rewrite Forall_forall in Hnn. apply Hnn, Hx.
      * apply np_sum_ge_each; assumption.
    + rewrite np_sum_scaled. right. field. lra.
  - split; [|lra].
    apply Forall_forall. intros x Hx. split.
    + rewrite Forall_forall in Hnn. apply Hnn, Hx.
    + pose proof (np_sum_ge_each a x Hnn Hx). lra.
Qed.

Section FormattedDistributions.

Variable CLASS_LIST : list string.
Variable get_class_id : string -> option Z.

Lemma format_prob_dist_steps (original_class_list : list string)
  (original_prob_dist out : list R) :
  _format_prob_dist CLASS_LIST get_class_id original_class_list
                    original_prob_dist = Ok out ->
  exists a,
    length a = length CLASS_LIST /\
    (Forall (fun x => 0 <= x) original_prob_dist -> Forall (fun x => 0 <= x) a) /\
    out = (if Rlt_dec 1 (np_sum a) then map (fun x => x / np_sum a) a else a).
Proof.
  unfold _format_prob_dist.
  destruct (collect_class_ids get_class_id 0 original_class_list)
    as [eval_class_ids original_class_ids].
  intros H. bind_inv H as picked Epicked. bind_inv H as a Ea.
  exists a. split; [|split].
  - rewrite (np_put_length _ _ _ _ Ea). apply repeat_length.
  - intros Hp. apply (np_put_Forall _ _ _ _ _) with (3 := Ea).
    + apply Forall_forall. intros x Hx. apply repeat_spec in Hx. lra.
    + apply (mapM_Forall_out _ _ _ _) with (2 := Epicked).
      intros k x _ Hk. apply get_in in Hk. rewrite Forall_forall in Hp.
      apply Hp, Hk.
  - destruct (Rlt_dec 1 (np_sum a)); inversion H; reflexivity.
Qed.

(** X9. A distribution formatted by [_format_prob_dist] has one entry per class
    of [CLASS_LIST], and when the submitted probabilities are not negative
    its entries lie in [[0,1]] and sum to at most 1: a total above 1 is
    scaled down to 1. *)
Theorem formatted_distribution_is_normalised
  (original_class_list : list string) (original_prob_dist out : list R) :
  _format_prob_dist CLASS_LIST get_class_id original_class_list
                    original_prob_dist = Ok out ->
  length out = length CLASS_LIST /\
  (Forall (fun x => 0 <= x) original_prob_dist ->
   Forall in_unit out /\ np_sum out <= 1).
Proof.
  intros H. destruct (format_prob_dist_steps _ _ _ H) as (a & Hlen & Hnn & ->).
  split.
  - destruct (Rlt_dec 1 (np_sum a)); [rewrite length_map|]; exact Hlen.
  - intros Hp. apply (normalised_in_unit a (Hnn Hp)).
Qed.

End FormattedDistributions.

Lemma list_set_same (k : nat) (v : R) (a : list R) :
  (k < length a)%nat -> nth_error (list_set k v a) k = Some v.
Proof.
  revert k; induction a as [|x a IH]; intros k Hk; [simpl in Hk; lia|].
  destruct k; simpl; [reflexivity|]. apply IH. simpl in Hk; lia.
Qed.

Lemma list_set_other (k j : nat) (v : R) (a : list R) :
  j <> k -> nth_error (list_set k v a) j = nth_error a j.
Proof.
  revert k j; induction a as [|x a IH]; intros k j Hjk;
    [destruct k; reflexivity|].
  destruct k, j; simpl; try reflexivity; [congruence|].
  apply IH. congruence.
Qed.

Lemma py_index_range (len : nat) (i : Z) (k : nat) :
  py_index len i = Ok k ->
  (k < len)%nat /\ (- Z.of_nat len <= i < Z.of_nat len)%Z.
Proof.
  unfold py_index.
  destruct (0 <=? i)%Z eqn:E0.
  - destruct (i <? Z.of_nat len)%Z eqn:E1; [|discriminate].
    intros H; inversion H; subst. apply Z.leb_le in E0. apply Z.ltb_lt in E1.
    lia.
  - destruct (- Z.of_nat len <=? i)%Z eqn:E1; [|discriminate].
    intros H; inversion H; subst. apply Z.leb_gt in E0. apply Z.leb_le in E1.
    lia.
Qed.

Lemma py_index_in_range (len : nat) (i : Z) :
  (- Z.of_nat len <= i < Z.of_nat len)%Z -> exists k, py_index len i = Ok k.
Proof.
  intros H. unfold py_index.
  destruct (0 <=? i)%Z eqn:E0.
  - assert (E1 : (i <? Z.of_nat len)%Z = true) by (apply Z.ltb_lt; lia).
    rewrite E1. eexists; reflexivity.
  - assert (E1 : (- Z.of_nat len <=? i)%Z = true) by (apply Z.leb_le; lia).
    rewrite E1. eexists; reflexivity.
Qed.

Lemma py_index_error (len : nat) (i : Z) (e : error) :
  py_index len i = Err e -> e = IndexError.
Proof.
  unfold py_index.
  destruct (0 <=? i)%Z; [destruct (i <? Z.of_nat len)%Z
                        | destruct (- Z.of_nat len <=? i)%Z];
    intros H; inversion H; reflexivity.
Qed.

Section Placement.

Variable CLASS_LIST : list string.
Variable get_class_id : string -> option Z.

(** The three steps of [_format_prob_dist] on the classes from position
    [k] on, for an array [a] as the assignments before them left it. *)
Lemma format_steps_place (probs : list R) (l : list string) :
  forall (k : nat) (a : list R) eval_class_ids original_class_ids picked b,
    collect_class_ids get_class_id k l = (eval_class_ids, original_class_ids) ->
    mapM (get probs) original_class_ids = Ok picked ->
    np_put a eval_class_ids picked = Ok b ->
    (forall i name id,
       nth_error l i = Some name -> get_class_id name = Some id ->
       exists slot p,
         py_index (length a) id = Ok slot /\
         nth_error probs (k + i) = Some p /\
         ((forall j name' id',
             (i < j)%nat -> nth_error l j = Some name' ->
             get_class_id name' = Some id' ->
             py_index (length a) id' <> Ok slot) ->
          nth_error b slot = Some p)) /\
    (forall slot,
       (forall name id, In name l -> get_class_id name = Some id ->
                        py_index (length a) id <> Ok slot) ->
       nth_error b slot = nth_error a slot).
Proof.
  induction l as [|name0 rest IH]; intros k a eids oids picked b Hc Hp Hb.
  - cbn [collect_class_ids] in Hc. inversion Hc; subst.
    cbn [mapM] in Hp. inversion Hp; subst. cbn [np_put] in Hb.
    inversion Hb; subst. split.
    + intros i name id Hi. destruct i; discriminate.
    + reflexivity.
  - cbn [collect_class_ids] in Hc.
    destruct (collect_class_ids get_class_id (S k) rest) as [e' o'] eqn:Erest.
    destruct (get_class_id name0) as [id0|] eqn:E0.
    + inversion Hc; subst eids oids; clear Hc.
      cbn [mapM] in Hp. bind_inv Hp as p0 Ep0. bind_inv Hp as picked' Epicked.
      inversion Hp; subst picked; clear Hp.
      cbn [np_put] in Hb. bind_inv Hb as slot0 Eslot0.
      destruct (IH (S k) (list_set slot0 p0 a) e' o' picked' b Erest Epicked Hb)
        as [IHa IHb].
      rewrite list_set_length in IHa, IHb.
      destruct (py_index_range _ _ _ Eslot0) as [Hslot0 _].
      split.
      * intros i name id Hi Hid. destruct i as [|i].
        -- cbn [nth_error] in Hi. inversion Hi; subst name.
           rewrite E0 in Hid. inversion Hid; subst id.
           exists slot0, p0. split; [exact Eslot0|]. split.
           ++ rewrite Nat.add_0_r. apply get_nth_error, Ep0.
           ++ intros Hlater. rewrite IHb.
              ** apply list_set_same, Hslot0.
              ** intros name' id' Hin Hid'.
                 apply In_nth_error in Hin. destruct Hin as [j Hj].
                 apply (Hlater (S j) name' id'); [lia | exact Hj | exact Hid'].
        -- cbn [nth_error] in Hi.
           destruct (IHa i name id Hi Hid) as (slot & p & Hs & Hpr & Hval).
           exists slot, p. split; [exact Hs|]. split.
           ++ replace (k + S i)%nat with (S k + i)%nat by lia. exact Hpr.
           ++ intros Hlater. apply Hval. intros j name' id' Hij Hj Hid'.
              apply (Hlater (S j) name' id'); [lia | exact Hj | exact Hid'].
      * intros slot Hfree. rewrite IHb.
        -- apply list_set_other. intros ->.
           apply (Hfree name0 id0); [left; reflexivity | exact E0 | exact Eslot0].
        -- intros name id Hin. apply Hfree. right; exact Hin.
    + inversion Hc; subst eids oids; clear Hc.
      destruct (IH (S k) a e' o' picked b Erest Hp Hb) as [IHa IHb].
      split.
      * intros i name id Hi Hid. destruct i as [|i].
        -- cbn [nth_error] in Hi. inversion Hi; subst name. congruence.
        -- cbn [nth_error] in Hi.
           destruct (IHa i name id Hi Hid) as (slot & p & Hs & Hpr & Hval).
           exists slot, p. split; [exact Hs|]. split.
           ++ replace (k + S i)%nat with (S k + i)%nat by lia. exact Hpr.
           ++ intros Hlater. apply Hval. intros j name' id' Hij Hj Hid'.
              apply (Hlater (S j) name' id'); [lia | exact Hj | exact Hid'].
      * intros slot Hfree. apply IHb.
        intros name id Hin. apply Hfree. right; exact Hin.
Qed.

(** The steps return when every recognised class has a probability and an
    identifier inside the array. *)
Lemma format_steps_return (probs : list R) (l : list string) :
  forall (k : nat) (a : list R) eval_class_ids original_class_ids,
    collect_class_ids get_class_id k l = (eval_class_ids, original_class_ids) ->
    (forall i name id,
       nth_error l i = Some name -> get_class_id name = Some id ->
       (k + i < length probs)%nat /\
       (- Z.of_nat (length a) <= id < Z.of_nat (length a))%Z) ->
    exists picked b,
      mapM (get probs) original_class_ids = Ok picked /\
      np_put a eval_class_ids picked = Ok b.
Proof.
  induction l as [|name0 rest IH]; intros k a eids oids Hc Hids.
  - cbn [collect_class_ids] in Hc. inversion Hc; subst.
    exists [], a. split; reflexivity.
  - cbn [collect_class_ids] in Hc.
    destruct (collect_class_ids get_class_id (S k) rest) as [e' o'] eqn:Erest.
    assert (Hrest : forall a' : list R, length a' = length a ->
              forall i name id,
                nth_error rest i = Some name -> get_class_id name = Some id ->
                (S k + i < length probs)%nat /\
                (- Z.of_nat (length a') <= id < Z.of_nat (length a'))%Z).
    { intros a' Ha' i name id Hi Hid. rewrite Ha'.
      destruct (Hids (S i) name id Hi Hid) as [H1 H2]. split; [lia | exact H2]. }
    destruct (get_class_id name0) as [id0|] eqn:E0.
    + inversion Hc; subst eids oids; clear Hc.
      destruct (Hids 0%nat name0 id0 eq_refl E0) as [Hk Hid0].
      destruct (py_index_in_range (length a) id0 Hid0) as [slot0 Eslot0].
      assert (Hk' : (k < length probs)%nat) by lia.
      pose proof (get_in_range 0 probs k Hk') as Ep0.
      destruct (IH (S k) (list_set slot0 (nth k probs 0) a) e' o' Erest
                  (Hrest _ (list_set_length _ _ _)))
        as (picked' & b & Hp & Hb).
      exists (nth k probs 0 :: picked'), b. split.
      * cbn [mapM]. rewrite Ep0, Hp. reflexivity.
      * cbn [np_put]. rewrite Eslot0. exact Hb.
    + inversion Hc; subst eids oids; clear Hc.
      apply (IH (S k) a e' o' Erest (Hrest a eq_refl)).
Qed.

Lemma mapM_get_error (probs : list R) (idxs : list nat) (e : error) :
  mapM (get probs) idxs = Err e -> e = IndexError.
Proof.
  induction idxs as [|i idxs IH]; cbn [mapM]; [discriminate|].
  unfold get at 1. destruct (nth_error probs i); cbn [bind].
  - destruct (mapM (get probs) idxs) as [l|e'] eqn:E; cbn [bind];
      [discriminate|].
    intros H; inversion H; subst. apply IH. reflexivity.
  - intros H; inversion H; reflexivity.
Qed.

Lemma np_put_error (a : list R) (idxs : list Z) (vals : list R) (e : error) :
  np_put a idxs vals = Err e -> e = IndexError.
Proof.
  revert a vals; induction idxs as [|i idxs IH]; intros a vals H.
  - destruct vals; discriminate.
  - destruct vals as [|v vals]; [discriminate|].
    cbn [np_put] in H. destruct (py_index (length a) i) as [k|e'] eqn:E.
    + cbn [bind] in H. apply (IH _ _ H).
    + cbn [bind] in H. inversion H; subst. apply (py_index_error _ _ _ E).
Qed.

Lemma format_prob_dist_error (original_class_list : list string)
  (original_prob_dist : list R) (e : error) :
  _format_prob_dist CLASS_LIST get_class_id original_class_list
                    original_prob_dist = Err e ->
  e = IndexError.
Proof.
  unfold _format_prob_dist.
  destruct (collect_class_ids get_class_id 0 original_class_list)
    as [eval_class_ids original_class_ids].
  destruct (mapM (get original_prob_dist) original_class_ids) as [picked|e1]
    eqn:E1; cbn [bind].
  - destruct (np_put (np_zeros (length CLASS_LIST)) eval_class_ids picked)
      as [b|e2] eqn:E2; cbn [bind].
    + destruct (Rlt_dec 1 (np_sum b)); discriminate.
    + intros H; inversion H; subst. apply (np_put_error _ _ _ _ E2).
  - intros H; inversion H; subst. apply (mapM_get_error _ _ _ E1).
Qed.


(** X11. [_format_prob_dist] raises nothing but an [IndexError], and raises
    it exactly on a recognised class without a probability or with an
    identifier outside [CLASS_LIST]: it returns when every recognised class
    of the submission lies inside the distribution and has an identifier
    [id] with [-n <= id < n], for [n] the length of [CLASS_LIST]; it raises
    when a recognised class lies beyond the distribution, and when a
    recognised class has an identifier outside that range.  A class that
    [get_class_id] does not know is never looked up. *)
Theorem format_prob_dist_index_errors
  (original_class_list : list string) (original_prob_dist : list R) :
  let n := Z.of_nat (length CLASS_LIST) in
  let result := _format_prob_dist CLASS_LIST get_class_id original_class_list
                                  original_prob_dist in
  (forall e, result = Err e -> e = IndexError) /\
  ((forall i name id,
      nth_error original_class_list i = Some name ->
      get_class_id name = Some id ->
      (i < length original_prob_dist)%nat /\ (- n <= id < n)%Z) ->
   exists out, result = Ok out) /\
  (forall i name id,
     nth_error original_class_list i = Some name ->
     get_class_id name = Some id ->
     (length original_prob_dist <= i)%nat ->
     result = Err IndexError) /\
  (forall name id,
     In name original_class_list -> get_class_id name = Some id ->
     (id < - n \/ n <= id)%Z ->
     result = Err IndexError).
Proof.
  intros n result.
  assert (Herr : forall e, result = Err e -> e = IndexError)
    by apply format_prob_dist_error.
  assert (Hsteps : forall out, result = Ok out ->
            forall i name id,
              nth_error original_class_list i = Some name ->
              get_class_id name = Some id ->
              exists slot p,
                py_index (length CLASS_LIST) id = Ok slot /\
                nth_error original_prob_dist i = Some p).
  { intros out. unfold result, _format_prob_dist.
    destruct (collect_class_ids get_class_id 0 original_class_list)
      as [eval_class_ids original_class_ids] eqn:Ec.
    intros H. bind_inv H as picked Epicked. bind_inv H as a Ea.
    intros i name id Hi Hid.
    destruct (format_steps_place original_prob_dist original_class_list 0
                (np_zeros (length CLASS_LIST)) _ _ _ _ Ec Epicked Ea)
      as [Hplace _].
    unfold np_zeros in Hplace. rewrite repeat_length in Hplace.
    destruct (Hplace i name id Hi Hid) as (slot & p & Hs & Hp & _).
    exists slot, p. split; assumption. }
  split; [exact Herr|]. split; [|split].
  - intros Hids. unfold result, _format_prob_dist.
    destruct (collect_class_ids get_class_id 0 original_class_list)
      as [eval_class_ids original_class_ids] eqn:Ec.
    destruct (format_steps_return original_prob_dist original_class_list 0
                (np_zeros (length CLASS_LIST)) _ _ Ec)
      as (picked & b & Hp & Hb).
    + unfold np_zeros. rewrite repeat_length. exact Hids.
    + rewrite Hp. cbn [bind]. rewrite Hb. cbn [bind].
      destruct (Rlt_dec 1 (np_sum b)); eexists; reflexivity.
  - intros i name id Hi Hid Hshort.
    destruct result as [out|e] eqn:E.
    + destruct (Hsteps out eq_refl i name id Hi Hid) as (slot & p & _ & Hp).
      apply nth_error_None in Hshort. congruence.
    + rewrite (Herr e eq_refl). reflexivity.
  - intros name id Hin Hid Hout.
    destruct result as [out|e] eqn:E.
    + apply In_nth_error in Hin. destruct Hin as [i Hi].
      destruct (Hsteps out eq_refl i name id Hi Hid) as (slot & p & Hs & _).
      apply py_index_range in Hs. unfold n in Hout. lia.
    + rewrite (Herr e eq_refl). reflexivity.
Qed.

End Placement.


Section FormattedResults.

Variable CLASS_LIST : list string.
Variable get_class_id : string -> option Z.

Context {Other : Type}.

Lemma format_results_data_unfold (result_data : ResultData Other) :
  _format_results_data CLASS_LIST get_class_id result_data =
  match rd_objects result_data with
  | None => (Err KeyError, result_data)
  | Some objects =>
      let '(outcome, objects') :=
        format_proposals CLASS_LIST get_class_id
          (class_list_used CLASS_LIST result_data) objects in
      (outcome, {| rd_objects := Some objects';
                   rd_class_list := rd_class_list result_data |})
  end.
Proof.
  unfold _format_results_data, class_list_used.
  destruct (rd_objects result_data); [|reflexivity].
  destruct (rd_class_list result_data); reflexivity.
Qed.

Lemma format_proposals_succeed (result_class_list : list string)
  (objects : list (Proposal Other)) :
  fst (format_proposals CLASS_LIST get_class_id result_class_list objects) = Ok tt ->
  mapM (format_proposal CLASS_LIST get_class_id result_class_list) objects =
  Ok (snd (format_proposals CLASS_LIST get_class_id result_class_list objects)).
Proof.
  induction objects as [|p rest IH]; cbn [format_proposals mapM]; [reflexivity|].
  destruct (format_proposal CLASS_LIST get_class_id result_class_list p)
    as [p'|e]; [|discriminate].
  destruct (format_proposals CLASS_LIST get_class_id result_class_list rest)
    as [outcome rest'].
  cbn [fst snd bind] in *. intros H. rewrite (IH H). reflexivity.
Qed.

Lemma format_proposals_fail (result_class_list : list string)
  (l1 l2 formatted : list (Proposal Other)) (p : Proposal Other) (e : error) :
  mapM (format_proposal CLASS_LIST get_class_id result_class_list) l1 =
    Ok formatted ->
  format_proposal CLASS_LIST get_class_id result_class_list p = Err e ->
  format_proposals CLASS_LIST get_class_id result_class_list (l1 ++ p :: l2) =
    (Err e, formatted ++ p :: l2).
Proof.
  revert formatted. induction l1 as [|p1 l1 IH]; intros formatted H1 Hp.
  - cbn [mapM] in H1. inversion H1; subst.
    cbn [app format_proposals]. rewrite Hp. reflexivity.
  - cbn [mapM] in H1. bind_inv H1 as p1' E1. bind_inv H1 as f1 Ef1.
    inversion H1; subst formatted; clear H1.
    cbn [app format_proposals]. rewrite E1, (IH f1 Ef1 Hp). reflexivity.
Qed.

(** X12. When [_format_results_data] returns, the data it leaves has the same
    proposals in the same order with their other keys untouched, and every
    proposal's ['label_probs'], which had one entry per submitted class, now
    has one entry per class of [CLASS_LIST]; when the submitted probabilities
    are not negative, the entries lie in [[0,1]] and sum to at most 1. *)
Theorem formatted_results_are_normalised (result_data : ResultData Other) :
  fst (_format_results_data CLASS_LIST get_class_id result_data) = Ok tt ->
  let out := snd (_format_results_data CLASS_LIST get_class_id result_data) in
  rd_class_list out = rd_class_list result_data /\
  exists objects formatted,
    rd_objects result_data = Some objects /\
    rd_objects out = Some formatted /\
    Forall2
      (fun p p' =>
         other_keys p' = other_keys p /\
         exists probs probs',
           label_probs p = Some probs /\ label_probs p' = Some probs' /\
           length probs = length (class_list_used CLASS_LIST result_data) /\
           length probs' = length CLASS_LIST /\
           (Forall (fun x => 0 <= x) probs ->
            Forall in_unit probs' /\ np_sum probs' <= 1))
      objects formatted.
Proof.
  rewrite format_results_data_unfold.
  destruct (rd_objects result_data) as [objects|]; [|discriminate].
  pose proof (format_proposals_succeed
                (class_list_used CLASS_LIST result_data) objects) as Hloop.
  destruct (format_proposals CLASS_LIST get_class_id
              (class_list_used CLASS_LIST result_data) objects)
    as [outcome formatted].
  cbn [fst snd] in *. intros H. specialize (Hloop H).
  split; [reflexivity|]. exists objects, formatted.
  split; [reflexivity|]. split; [reflexivity|].
  apply mapM_Forall2 in Hloop. apply Forall2_impl with (2 := Hloop).
  intros p p' Hp. unfold format_proposal in Hp.
  destruct (label_probs p) as [probs|]; [|discriminate].
  destruct (length probs =? length (class_list_used CLASS_LIST result_data))%nat
    eqn:Elen; [|discriminate].
  bind_inv Hp as probs' Eprobs. inversion Hp; subst p'; clear Hp.
  split; [reflexivity|]. exists probs, probs'.
  split; [reflexivity|]. split; [reflexivity|].
  split; [apply Nat.eqb_eq, Elen|].
  destruct (format_prob_dist_steps _ _ _ _ _ Eprobs) as (a & Hlen & Hnn & ->).
  split.
  - destruct (Rlt_dec 1 (np_sum a)); [rewrite length_map|]; exact Hlen.
  - intros Hprobs. apply (normalised_in_unit a (Hnn Hprobs)).
Qed.

(** X13. What makes [_format_results_data] raise, and what it leaves behind: no
    ['objects'] key gives a [KeyError] and the data as it was; after
    proposals that format, a proposal without ['label_probs'] gives a
    [KeyError] and one whose number of probabilities is not that of the
    class list read a [ValueError], and the data is left half formatted:
    the proposals before the failing one formatted, the others as they
    were.  The class list read is the submitted one whenever the key is
    there, empty or not: with an empty class list, a first proposal with any
    probability raises [ValueError] even when it has one probability per
    class of [CLASS_LIST]. *)
Theorem results_data_failures (result_data : ResultData Other) :
  (rd_objects result_data = None ->
   _format_results_data CLASS_LIST get_class_id result_data =
   (Err KeyError, result_data)) /\
  (forall l1 p l2 formatted,
     rd_objects result_data = Some (l1 ++ p :: l2) ->
     mapM (format_proposal CLASS_LIST get_class_id
             (class_list_used CLASS_LIST result_data)) l1 = Ok formatted ->
     let left := {| rd_objects := Some (formatted ++ p :: l2);
                    rd_class_list := rd_class_list result_data |} in
     (label_probs p = None ->
      _format_results_data CLASS_LIST get_class_id result_data =
      (Err KeyError, left)) /\
     (forall probs,
        label_probs p = Some probs ->
        length probs <> length (class_list_used CLASS_LIST result_data) ->
        _format_results_data CLASS_LIST get_class_id result_data =
        (Err ValueError, left))) /\
  (forall p rest x probs,
     rd_class_list result_data = Some [] ->
     rd_objects result_data = Some (p :: rest) ->
     label_probs p = Some (x :: probs) ->
     _format_results_data CLASS_LIST get_class_id result_data =
     (Err ValueError, result_data)).
Proof.
  rewrite format_results_data_unfold.
  split; [intros ->; reflexivity|]. split.
  - intros l1 p l2 formatted -> Hl1 left. split.
    + intros Hp.
      rewrite (format_proposals_fail _ l1 l2 formatted p KeyError Hl1);
        [reflexivity|].
      unfold format_proposal. rewrite Hp. reflexivity.
    + intros probs Hp Hlen.
      rewrite (format_proposals_fail _ l1 l2 formatted p ValueError Hl1);
        [reflexivity|].
      unfold format_proposal. rewrite Hp.
      apply Nat.eqb_neq in Hlen. rewrite Hlen. reflexivity.
  - intros p rest x probs Hcl Hobj Hp. rewrite Hobj.
    unfold class_list_used. rewrite Hcl. cbn [format_proposals].
    unfold format_proposal at 1. rewrite Hp. cbn [length Nat.eqb].
    destruct result_data as [objs cl]. cbn [rd_objects rd_class_list] in *.
    subst. reflexivity.
Qed.

End FormattedResults.

(* ================================================================== *)
(** * The ground-truth changes between two maps *)

Section Changes.

Context {Obj : Type}.
Variable obj_eq_dec : forall a b : Obj, {a = b} + {a <> b}.
Variable set_state : string -> Obj -> Obj.

Lemma not_in_true (o : Obj) (l : list Obj) :
  not_in obj_eq_dec o l = true <-> ~ In o l.
Proof.
  unfold not_in. destruct (in_dec obj_eq_dec o l); split; intros H;
    try reflexivity; try assumption; try discriminate; contradiction.
Qed.

Lemma filter_nil_iff {A : Type} (f : A -> bool) (l : list A) :
  filter f l = [] <-> forall a, In a l -> f a = false.
Proof.
  induction l as [|a l IH]; cbn [filter].
  - split; [intros _ a [] | reflexivity].
  - destruct (f a) eqn:E; split.
    + discriminate.
    + intros H. specialize (H a (or_introl eq_refl)). congruence.
    + intros H b [<-|Hb]; [exact E | apply IH; assumption].
    + intros H. apply IH. intros b Hb. apply H. right; exact Hb.
Qed.

(** X14. The ground-truth changes that [_evaluate_scd] derives from two maps are
    the objects of the first map that are not in the second, as "removed",
    followed by the objects of the second that are not in the first, as
    "added".  An object of both maps is no change: there are no changes
    exactly when the two maps have the same objects.  Exchanging the maps
    exchanges the two groups, and a map without ['objects'] makes every
    object of the other a change. *)
Theorem gt_changes_are_the_differences (l1 l2 : list Obj) :
  (forall c,
     In c (gt_changes obj_eq_dec set_state (Some l1) (Some l2)) <->
     (exists o, In o l1 /\ ~ In o l2 /\ c = set_state "removed"%string o) \/
     (exists o, In o l2 /\ ~ In o l1 /\ c = set_state "added"%string o)) /\
  (gt_changes obj_eq_dec set_state (Some l1) (Some l2) = [] <->
   forall o, In o l1 <-> In o l2) /\
  (exists gone new,
     gt_changes obj_eq_dec set_state (Some l1) (Some l2) =
       map (set_state "removed") gone ++ map (set_state "added") new /\
     gt_changes obj_eq_dec set_state (Some l2) (Some l1) =
       map (set_state "removed") new ++ map (set_state "added") gone /\
     (forall o, In o gone <-> In o l1 /\ ~ In o l2) /\
     (forall o, In o new <-> In o l2 /\ ~ In o l1)) /\
  gt_changes obj_eq_dec set_state None (Some l2) = map (set_state "added") l2 /\
  gt_changes obj_eq_dec set_state (Some l1) None = map (set_state "removed") l1.
Proof.
  assert (Hfilter : forall a b o,
            In o (filter (fun o => not_in obj_eq_dec o b) a) <->
            In o a /\ ~ In o b).
  { intros a b o. rewrite filter_In, not_in_true. reflexivity. }
  unfold gt_changes. split; [|split; [|split; [|split]]].
  - intros c. rewrite in_app_iff, !in_map_iff. split.
    + intros [(o & <- & Ho)|(o & <- & Ho)]; apply Hfilter in Ho;
        [left | right]; exists o; tauto.
    + intros [(o & H1 & H2 & ->)|(o & H1 & H2 & ->)]; [left | right];
        exists o; (split; [reflexivity | apply Hfilter; tauto]).
  - split.
    + intros H. apply app_eq_nil in H. destruct H as [Ha Hb].
      apply map_eq_nil in Ha, Hb.
      rewrite filter_nil_iff in Ha, Hb. intros o. split; intros Ho.
      * specialize (Ha o Ho). unfold not_in in Ha.
        destruct (in_dec obj_eq_dec o l2); [assumption | discriminate].
      * specialize (Hb o Ho). unfold not_in in Hb.
        destruct (in_dec obj_eq_dec o l1); [assumption | discriminate].
    + intros Hsame.
      assert (E1 : filter (fun o => not_in obj_eq_dec o l2) l1 = []).
      { apply filter_nil_iff. intros o Ho. unfold not_in.
        destruct (in_dec obj_eq_dec o l2) as [|n]; [reflexivity|].
        exfalso. apply n, Hsame, Ho. }
      assert (E2 : filter (fun o => not_in obj_eq_dec o l1) l2 = []).
      { apply filter_nil_iff. intros o Ho. unfold not_in.
        destruct (in_dec obj_eq_dec o l1) as [|n]; [reflexivity|].
        exfalso. apply n, Hsame, Ho. }
      rewrite E1, E2. reflexivity.
  - exists (filter (fun o => not_in obj_eq_dec o l2) l1),
           (filter (fun o => not_in obj_eq_dec o l1) l2).
    split; [reflexivity|]. split; [reflexivity|].
    split; intros o; apply Hfilter.
  - cbn [filter map app]. f_equal.
    induction l2 as [|o l2 IH]; [reflexivity|].
    cbn [filter]. unfold not_in at 1. cbn [in_dec]. 
    destruct (in_dec obj_eq_dec o []) as [[]|_]. rewrite IH. reflexivity.
  - cbn [filter map]. rewrite app_nil_r. f_equal.
    induction l1 as [|o l1 IH]; [reflexivity|].
    cbn [filter]. destruct (not_in obj_eq_dec o []) eqn:E.
    + rewrite IH. reflexivity.
    + unfold not_in in E. destruct (in_dec obj_eq_dec o []) as [[]|_].
      discriminate.
Qed.

End Changes.

(* ================================================================== *)
(** * Further results at worked inputs *)

Lemma ex_single_wf (g : GtInstance) (d : DetInstance) (scd : bool) :
  In g ex_gts -> In d ex_dets -> wf_map 3 scd [g] [d].
Proof.
  intros Hg Hd. destruct (ex_map_wf scd) as (Hc & Hgs & Hds).
  rewrite Forall_forall in Hgs, Hds.
  split; [exact Hc|]. split; constructor; auto.
Qed.

Lemma ex_direct_quality :
  forall i j,
    padded_quality (collab := example_collaborators) false [ex_gt0] [ex_det0] i j = 0.
Proof.
  intros i j. unfold padded_quality.
  destruct i as [|i]; [|destruct i; reflexivity].
  destruct j as [|j]; [|destruct j; reflexivity].
  cbn [nth_error].
  unfold pair_overall_quality, pair_label_quality, pair_spatial_quality.
  cbn [ex_gt0 ex_det0 det_prob_dist gt_class_id dict_iou example_collaborators].
  assert (E : py_get [0; 1; 0] 0%Z = Ok 0) by reflexivity.
  rewrite E. cbn [bind]. rewrite gmean_pair_eq by lra.
  rewrite Rmult_0_l, sqrt_0. reflexivity.
Qed.

Lemma ex_cross_quality :
  padded_quality (collab := example_collaborators) false [ex_gt0] [ex_det1] 0 0 = 1.
Proof.
  unfold padded_quality. cbn [nth_error].
  unfold pair_overall_quality, pair_label_quality, pair_spatial_quality.
  cbn [ex_gt0 ex_det1 det_prob_dist gt_class_id dict_iou example_collaborators].
  assert (E : py_get [1; 0; 0] 0%Z = Ok 1) by reflexivity.
  rewrite E. cbn [bind]. rewrite gmean_pair_eq by lra.
  rewrite Rmult_1_l, sqrt_1. reflexivity.
Qed.

(** A ground truth in an unknown state, in scene-change mode. *)
Lemma malformed_records_raise_example :
  _calc_qual_map (collab := example_collaborators)
    [with_state "moved" ex_gt0] ex_dets true = Err KeyError.
Proof.
  assert (Hfit : class_ids_fit [with_state "moved" ex_gt0]).
  { apply Forall_cons; [|apply Forall_nil].
    cbn [with_state ex_gt0 gt_class_id]. lia. }
  apply (proj1 (malformed_records_raise (collab := example_collaborators)
                  [with_state "moved" ex_gt0] ex_dets true
                  ltac:(discriminate) ex_dets_nonempty Hfit)).
  - reflexivity.
  - constructor. reflexivity.
Defined.

Lemma well_formed_maps_never_raise_example :
  exists x,
    fst (score (collab := example_collaborators)
           [(ex_gts, ex_dets); ([], ex_dets)] (__init__ true)) = Ok x.
Proof.
  apply (proj2 (proj2 (well_formed_maps_never_raise example_solver_contract
                         example_iou_in_unit 3))).
  constructor; [apply (ex_map_wf true)|].
  constructor; [|constructor].
  destruct (ex_map_wf true) as (Hc & _ & Hds).
  split; [exact Hc|]. split; [constructor | exact Hds].
Defined.

(** The first ground truth and the detection that fits it. *)
Lemma perfect_map_scores_one_example :
  fst (score (collab := example_collaborators)
         [([ex_gt0], [ex_det1])] (__init__ false)) = Ok 1.
Proof.
  destruct (calc_qual_map_total example_solver_contract example_iou_in_unit
              3 false [ex_gt0] [ex_det1]) as [r Hr].
  { apply ex_single_wf; [left | right; left]; reflexivity. }
  apply (perfect_map_scores_one example_solver_contract example_iou_in_unit
           [ex_gt0] [ex_det1] false r [0%nat]).
  - discriminate.
  - reflexivity.
  - pose proof ex_probabilities_in_unit as H. inversion H as [|? ? _ H']; subst.
    exact H'.
  - apply Permutation_refl.
  - intros m [<-|[]]. exact ex_cross_quality.
  - exact Hr.
Defined.

(** The first ground truth and the detection that does not fit it. *)
Lemma unmatched_map_scores_zero_example :
  exists r,
    _calc_qual_map (collab := example_collaborators) [ex_gt0] [ex_det0] false = Ok r /\
    TP r = 0%nat /\ FN r = 1%nat /\ FP r = 1%nat /\ overall r = 0.
Proof.
  destruct (calc_qual_map_total example_solver_contract example_iou_in_unit
              3 false [ex_gt0] [ex_det0]) as [r Hr].
  { apply ex_single_wf; left; reflexivity. }
  exists r. split; [exact Hr|].
  destruct (unmatched_map_scores_zero example_solver_contract
              [ex_gt0] [ex_det0] false r ltac:(discriminate) ltac:(discriminate)
              ex_direct_quality Hr) as (H1 & H2 & H3 & H4 & _).
  auto.
Defined.

Lemma sums_the_maps_example :
  exists rs,
    map_results_of (collab := example_collaborators) (__init__ false)
      [(ex_gts, ex_dets)] = Ok rs /\
    get_assignment_counts
      (snd (score (collab := example_collaborators)
              [(ex_gts, ex_dets)] (__init__ false))) =
    (list_sum (map TP rs), list_sum (map FP rs), list_sum (map FN rs)).
Proof.
  destruct (calc_qual_map_total example_solver_contract example_iou_in_unit
              3 false ex_gts ex_dets (ex_map_wf false)) as [r Hr].
  assert (Hrs : map_results_of (collab := example_collaborators) (__init__ false)
                  [(ex_gts, ex_dets)] = Ok [r]).
  { unfold map_results_of. cbn [mapM fst snd __init__ scd_mode].
    rewrite Hr. reflexivity. }
  exists [r]. split; [exact Hrs|].
  apply (proj1 (score_sums_the_maps [(ex_gts, ex_dets)] (__init__ false)) [r] Hrs).
Defined.

Lemma ex_format_prob_dist :
  exists out,
    _format_prob_dist ex_class_list ex_get_class_id
      ["cup"; "bottle"; "background"]%string [1; 1; 1] = Ok out.
Proof.
  unfold _format_prob_dist.
  cbn [collect_class_ids ex_get_class_id String.eqb Ascii.eqb Bool.eqb
       mapM get nth_error bind ex_class_list length np_zeros repeat np_put
       py_index Z.leb Z.ltb Z.compare Z.of_nat Pos.of_succ_nat Pos.succ
       Pos.compare Pos.compare_cont Z.to_nat Pos.to_nat Pos.iter_op list_set
       Z.opp Z.add Nat.add].
  destruct (Rlt_dec 1 _); eexists; reflexivity.
Qed.

Lemma formatted_distribution_is_normalised_example :
  exists out,
    _format_prob_dist ex_class_list ex_get_class_id
      ["cup"; "bottle"; "background"]%string [1; 1; 1] = Ok out /\
    length out = 2%nat /\ np_sum out <= 1.
Proof.
  destruct ex_format_prob_dist as [out Hout]. exists out.
  split; [exact Hout|].
  destruct (formatted_distribution_is_normalised ex_class_list ex_get_class_id
              _ _ out Hout) as [Hlen Hunit].
  split; [exact Hlen|]. apply Hunit.
  repeat (apply Forall_cons; [lra|]). apply Forall_nil.
Defined.


Lemma formatted_results_are_normalised_example :
  fst (_format_results_data ex_class_list ex_get_class_id ex_result_data) = Ok tt /\
  rd_class_list
    (snd (_format_results_data ex_class_list ex_get_class_id ex_result_data)) =
  Some ["cup"; "bottle"; "background"]%string.
Proof.
  assert (H : fst (_format_results_data ex_class_list ex_get_class_id
                     ex_result_data) = Ok tt).
  { rewrite format_results_data_unfold.
    cbn [ex_result_data rd_objects rd_class_list class_list_used
         format_proposals].
    unfold format_proposal. cbn [label_probs other_keys length Nat.eqb].
    destruct ex_format_prob_dist as [probs Hprobs]. rewrite Hprobs.
    reflexivity. }
  split; [exact H|].
  exact (proj1 (formatted_results_are_normalised ex_class_list ex_get_class_id
                  ex_result_data H)).
Defined.

(* ================================================================== *)
(** * The worked cost tables *)

Lemma ex_tables_shapes : table_shapes 2 2 ex_tables.
Proof.
  unfold table_shapes, ex_tables, square. cbn [ct_overall ct_spatial ct_label ct_state Nat.max].
  repeat split; try reflexivity; repeat constructor.
Qed.

Lemma ex_tables_costs : costs_at_most_one (ct_overall ex_tables).
Proof.
  unfold costs_at_most_one, ex_tables. cbn [ct_overall].
  repeat (apply Forall_cons; [repeat (apply Forall_cons; [lra|]); apply Forall_nil|]).
  apply Forall_nil.
Qed.

Lemma ex_pairs_on :
  pairs_on (collab := example_collaborators) ex_tables = [(0, 0); (1, 1)]%nat.
Proof.
  unfold pairs_on, example_collaborators, ex_tables.
  cbn [linear_sum_assignment ct_overall]. unfold exhaustive_assignment.
  cbn [length seq permutations flat_map insert_everywhere map app fold_left
       fst snd].
  unfold cheaper, assignment_total, np_sum, cell.
  cbn [combine map fold_right nth fst snd].
  destruct (Rlt_dec (0 + (1 + 0)) (0 + (1 + 0))) as [Hlt|_];
    [exfalso; lra|].
  cbn [combine map fold_right nth fst snd].
  destruct (Rlt_dec (1 + (1 + 0)) (0 + (1 + 0))) as [Hlt|_];
    [exfalso; lra | reflexivity].
Qed.

Lemma ex_tp_pairs_on :
  tp_pairs_on (collab := example_collaborators) ex_tables = [(0, 0)]%nat.
Proof.
  unfold tp_pairs_on. rewrite ex_pairs_on.
  unfold read_back, cell, is_pos, ex_tables.
  cbn [filter ct_overall nth fst snd].
  destruct (Rlt_dec 0 (1 - 0)) as [_|Hn]; [|exfalso; lra].
  destruct (Rlt_dec 0 (1 - 1)) as [Hlt|_]; [exfalso; lra | reflexivity].
Qed.

Lemma ex_tables_map_wf :
  wf_map 3 false ex_gts [ex_det1; ex_background_det].
Proof.
  split; [lia|]. split.
  - repeat constructor; try (simpl; lia); intros H; discriminate.
  - constructor; [|constructor; [|constructor]].
    + split; [reflexivity|]. split; [|intros H; discriminate].
      simpl. repeat constructor; lra.
    + split; [reflexivity|]. split; [|intros H; discriminate].
      simpl. repeat constructor; lra.
Qed.

Lemma ex_tables_qualities :
  overall_quality (collab := example_collaborators) false ex_gt0 ex_det1 = 1 /\
  overall_quality (collab := example_collaborators) false ex_gt0
                  ex_background_det = 0 /\
  overall_quality (collab := example_collaborators) false ex_gt1 ex_det1 = 0 /\
  overall_quality (collab := example_collaborators) false ex_gt1
                  ex_background_det = 0.
Proof.
  unfold overall_quality, pair_overall_quality, pair_label_quality,
    pair_spatial_quality.
  cbn [ex_gt0 ex_gt1 ex_det1 ex_background_det det_prob_dist gt_class_id
       dict_iou example_collaborators].
  assert (E0 : py_get [1; 0; 0] 0%Z = Ok 1) by reflexivity.
  assert (E1 : py_get [0; 0; 1] 0%Z = Ok 0) by reflexivity.
  assert (E2 : py_get [1; 0; 0] 1%Z = Ok 0) by reflexivity.
  assert (E3 : py_get [0; 0; 1] 1%Z = Ok 0) by reflexivity.
  rewrite E0, E1, E2, E3. cbn [bind].
  rewrite !gmean_pair_eq by lra. cbn [val].
  rewrite Rmult_1_l, sqrt_1, Rmult_0_l, sqrt_0. auto.
Qed.

Ltac same_entries :=
  repeat match goal with
         | |- _ :: _ = _ :: _ => apply f_equal2
         | |- @nil _ = @nil _ => reflexivity
         | |- @eq R _ _ => lra
         end.

(** The worked tables are those of the worked map. *)
Lemma ex_tables_of_map :
  _gen_cost_tables (collab := example_collaborators) ex_gts
                   [ex_det1; ex_background_det] false = Ok ex_tables.
Proof.
  destruct (gen_cost_tables_total example_iou_in_unit 3 false ex_gts
              [ex_det1; ex_background_det] ex_tables_map_wf)
    as [ct Ect]; [discriminate | discriminate |].
  rewrite Ect. f_equal.
  destruct (gen_cost_tables_ok _ _ _ _ Ect)
    as (_ & _ & _ & Hov & Hsp & Hla & Hst).
  destruct ct as [ov sp la st].
  cbn [ct_overall ct_spatial ct_label ct_state] in Hov, Hsp, Hla, Hst.
  subst ov sp la st. unfold ex_tables, outer, np_ones, ex_gts.
  cbn [length Nat.max map repeat sub_block sub_prefix].
  destruct ex_tables_qualities as (-> & -> & -> & ->).
  assert (L0 : label_quality ex_gt0 ex_det1 = 1) by reflexivity.
  assert (L1 : label_quality ex_gt0 ex_background_det = 0) by reflexivity.
  assert (L2 : label_quality ex_gt1 ex_det1 = 0) by reflexivity.
  assert (L3 : label_quality ex_gt1 ex_background_det = 0) by reflexivity.
  rewrite L0, L1, L2, L3.
  unfold pair_spatial_quality. cbn [dict_iou example_collaborators].
  f_equal; same_entries.
Qed.

Lemma ex_tables_return :
  exists r,
    _calc_qual_map (collab := example_collaborators) ex_gts
                   [ex_det1; ex_background_det] false = Ok r /\
    _calc_qual_map_from (collab := example_collaborators) ex_tables ex_gts
                        [ex_det1; ex_background_det] false = Ok r.
Proof.
  destruct (calc_qual_map_from_total example_solver_contract ex_tables ex_gts
              [ex_det1; ex_background_det] false ex_tables_shapes) as [r Hr].
  { repeat (apply Forall_cons;
            [apply max_label_prob_total; cbn [ex_det1 ex_background_det
               det_prob_dist length]; lia|]).
    apply Forall_nil. }
  exists r. split; [|exact Hr].
  rewrite calc_qual_map_runs_from by discriminate.
  rewrite ex_tables_of_map. exact Hr.
Qed.

(** On the worked map: one true positive, and one pair of two real objects
    of quality 0, which is a false negative and a false positive at once. *)
Lemma assigned_pairs_are_classified_example :
  exists r,
    _calc_qual_map (collab := example_collaborators) ex_gts
                   [ex_det1; ex_background_det] false = Ok r /\
    TP r = 1%nat /\ FN r = 1%nat /\ FP r = 1%nat.
Proof.
  destruct ex_tables_return as (r & Hmap & Hr). exists r. split; [exact Hmap|].
  destruct (assigned_pairs_are_classified example_solver_contract
              ex_tables ex_gts [ex_det1; ex_background_det] false r
              (proj1 ex_tables_shapes) ex_tables_costs Hr)
    as (_ & HTP & HFN & HFP & _).
  rewrite ex_pairs_on in HTP, HFN, HFP.
  rewrite HTP, HFN, HFP.
  unfold count, read_back, cell, is_pos, is_zero, ex_tables.
  cbn [filter ct_overall nth fst snd length ex_gts Nat.ltb Nat.leb andb].
  destruct (Rlt_dec 0 (1 - 0)) as [_|Hn]; [|exfalso; lra].
  destruct (Rlt_dec 0 (1 - 1)) as [Hlt|_]; [exfalso; lra|].
  destruct (Req_dec_T (1 - 0) 0) as [He|_]; [exfalso; lra|].
  destruct (Req_dec_T (1 - 1) 0) as [_|Hne]; [|exfalso; lra].
  cbn [filter length andb]. repeat split; reflexivity.
Defined.

(** The sums of the worked map come from its one true positive. *)
Lemma sums_run_over_true_positives_example :
  exists r,
    _calc_qual_map (collab := example_collaborators) ex_gts
                   [ex_det1; ex_background_det] false = Ok r /\
    TP r = 1%nat /\ overall r = 1 /\ spatial r = 1 /\ label r = 1 /\
    state_change r = 0.
Proof.
  destruct ex_tables_return as (r & Hmap & Hr). exists r. split; [exact Hmap|].
  destruct (sums_run_over_true_positives example_solver_contract
              ex_tables ex_gts [ex_det1; ex_background_det] false r
              ex_tables_shapes ex_tables_costs Hr)
    as (HTP & _ & Hov & Hsp & Hla & Hst & _).
  rewrite ex_tp_pairs_on in HTP, Hov, Hsp, Hla, Hst.
  rewrite <- HTP, Hov, Hsp, Hla, Hst.
  unfold np_sum, read_back, cell, ex_tables.
  cbn [map fold_right ct_overall ct_spatial ct_label ct_state nth fst snd length].
  repeat split; try reflexivity; lra.
Defined.




